(** * Critique of Artificial Reason (CAR) pipeline: a shallow embedding

    The TypeScript sources embedded here are

    - [layers.ts]: the four Kantian layers (sensibility, understanding,
      reason, critique) and their helper functions;
    - [pipeline.ts]: [carPipeline], the deferral decision
      [checkEpistemicBoundaries] and [generateExplanation];
    - the blockchain ethics module: [evaluateBlockchainAction] and its checks;
    - the extension [car(options)]: its hooks [beforeRun] and [afterRun];
    - the example agent: the [run] handler that reads the context the
      extension writes.

    The program is written against [any]-typed data, so the embedding starts
    with the fragment of ECMAScript the sources rely on: JSON-like values,
    property reads that raise [TypeError] on [undefined]/[null], truthiness,
    the coercions behind [<], [>] and template literals, and the string and
    array methods the code calls.  A function that can raise returns in the
    [result] monad. *)

From Stdlib Require Import String Ascii List ZArith QArith Qminmax Qround Qabs Bool Lia Lqa.
From Stdlib Require Import DecimalString.
Import ListNotations.
Open Scope string_scope.
Set Warnings "-register-all".
Close Scope Q_scope.

(** ** ECMAScript fragment *)

Module JS.

(** Exceptions.  The engine's wording of a [TypeError] message is not
    modelled; [PipelineFailed] is the [Error] that [carPipeline] rethrows,
    carrying its cause. *)
Inductive exn : Type :=
| TypeError
| PipelineFailed (cause : exn).

Inductive result (A : Type) : Type :=
| Ok (a : A)
| Throw (e : exn).
Arguments Ok {A} a.
Arguments Throw {A} e.

Definition bind {A B : Type} (m : result A) (f : A -> result B) : result B :=
  match m with
  | Ok a => f a
  | Throw e => Throw e
  end.

Notation "x <- m ;; k" := (bind m (fun x => k))
  (at level 61, m at next level, right associativity).

Definition returns {A : Type} (m : result A) : Prop := exists a, m = Ok a.

(** Numbers.  A finite number is the exact rational value of a binary64
    double, so [<] and [>] are exact comparisons; arithmetic rounds its
    exact result to the nearest double ([round64] below).  The sign of zero
    is not modelled. *)
Inductive number : Type :=
| NaN
| Inf (negative : bool)
| Fin (q : Q).

Definition of_nat (n : nat) : number := Fin (inject_Z (Z.of_nat n)).
Definition of_Z (z : Z) : number := Fin (inject_Z z).

(** [a < b] on numbers; every comparison with [NaN] is false. *)
Definition number_lt (a b : number) : bool :=
  match a, b with
  | NaN, _ | _, NaN => false
  | Fin x, Fin y => negb (Qle_bool y x)
  | Inf n1, Inf n2 => n1 && negb n2
  | Inf n1, Fin _ => n1
  | Fin _, Inf n2 => negb n2
  end.

(** *** Binary64 arithmetic *)

(** [n / d] rounded to the nearest integer, ties to even ([0 <= n], [0 < d]). *)
Definition rne (n d : Z) : Z :=
  let q := (n / d)%Z in
  match (2 * (n mod d) ?= d)%Z with
  | Lt => q
  | Gt => (q + 1)%Z
  | Eq => if Z.even q then q else (q + 1)%Z
  end.

(** The integer part of the binary logarithm of [n / d], for positive [n]
    and [d]. *)
Definition ilog2 (n d : Z) : Z :=
  let k := (Z.log2 n - Z.log2 d)%Z in
  if (0 <=? k)%Z
  then (if (d * 2 ^ k <=? n)%Z then k else k - 1)%Z
  else (if (d <=? n * 2 ^ (- k))%Z then k else k - 1)%Z.

(** The double nearest to [n / d], for positive [n] and [d]: a significand
    of at most 53 bits and its exponent, which is at least -1074 (below
    that, the subnormal numbers share the exponent). *)
Definition nearest (n d : Z) : Z * Z :=
  let e := Z.max (ilog2 n d - 52) (-1074) in
  let m := if (0 <=? e)%Z then rne n (d * 2 ^ e) else rne (n * 2 ^ (- e)) d in
  (m, e).

(** [m * 2 ^ e] with its sign; from [2 ^ 1024] on, the infinity. *)
Definition of_binary (negative : bool) (me : Z * Z) : number :=
  let '(m, e) := me in
  let s := if negative then (- m)%Z else m in
  if (0 <=? e)%Z then
    if (2 ^ 1024 <=? m * 2 ^ e)%Z then Inf negative else Fin (inject_Z (s * 2 ^ e))
  else Fin (Qred (Qmake s (Z.to_pos (2 ^ (- e))))).

(** Round to nearest, ties to even. *)
Definition round64 (q : Q) : number :=
  match Qnum q with
  | Z0 => Fin 0%Q
  | Zpos n => of_binary false (nearest (Zpos n) (Zpos (Qden q)))
  | Zneg n => of_binary true (nearest (Zpos n) (Zpos (Qden q)))
  end.

(** A decimal literal of the source denotes the double nearest to it. *)
Definition literal (q : Q) : number := round64 q.

(** [a - b] *)
Definition number_sub (a b : number) : number :=
  match a, b with
  | NaN, _ | _, NaN => NaN
  | Inf s, Inf s' => if Bool.eqb s s' then NaN else Inf s
  | Inf s, Fin _ => Inf s
  | Fin _, Inf s => Inf (negb s)
  | Fin x, Fin y => round64 (x - y)
  end.

(** [a * b] *)
Definition number_mul (a b : number) : number :=
  match a, b with
  | NaN, _ | _, NaN => NaN
  | Inf s, Inf s' => Inf (xorb s s')
  | Inf s, Fin y | Fin y, Inf s =>
      match Qnum y with
      | Z0 => NaN
      | Zpos _ => Inf s
      | Zneg _ => Inf (negb s)
      end
  | Fin x, Fin y => round64 (x * y)
  end.

(** [Math.max(a, b)] *)
Definition number_max (a b : number) : number :=
  match a, b with
  | NaN, _ | _, NaN => NaN
  | _, _ => if number_lt a b then b else a
  end.

(** What the host engine supplies: [Number::toString], [toFixed] and the
    [StringToNumber] grammar.  The pipeline is generic in them. *)
Class Engine : Type := {
  Number_toString : number -> string;
  Number_toFixed : number -> nat -> string;
  StringToNumber : string -> number
}.

(** JSON-like values: what [JSON.parse] produces, plus [undefined].  An
    object is its list of own properties, read by first match. *)
Inductive value : Type :=
| VUndefined
| VNull
| VBool (b : bool)
| VNumber (n : number)
| VString (s : string)
| VArray (elems : list value)
| VObject (props : list (string * value)).

Definition object : Type := list (string * value).

Fixpoint lookup (k : string) (o : object) : value :=
  match o with
  | [] => VUndefined
  | (k', v) :: rest => if String.eqb k k' then v else lookup k rest
  end.

Fixpoint has_key (k : string) (o : object) : bool :=
  match o with
  | [] => false
  | (k', _) :: rest => String.eqb k k' || has_key k rest
  end.

(** [o.k = v]: an existing property keeps its place, a new one is appended. *)
Fixpoint set_prop (k : string) (v : value) (o : object) : object :=
  match o with
  | [] => [(k, v)]
  | (k', v') :: rest =>
      if String.eqb k k' then (k', v) :: rest else (k', v') :: set_prop k v rest
  end.

(** ToBoolean *)
Definition truthy (v : value) : bool :=
  match v with
  | VUndefined | VNull => false
  | VBool b => b
  | VNumber NaN => false
  | VNumber (Inf _) => true
  | VNumber (Fin q) => negb (Qeq_bool q 0)
  | VString s => negb (String.eqb s "")
  | VArray _ | VObject _ => true
  end.

Definition nullish (v : value) : bool :=
  match v with
  | VUndefined | VNull => true
  | _ => false
  end.

(** [v.k] for an identifier [k].  The names the sources read are never an
    inherited member other than [length]. *)
Definition get (v : value) (k : string) : result value :=
  match v with
  | VUndefined | VNull => Throw TypeError
  | VObject o => Ok (lookup k o)
  | VString s =>
      if String.eqb k "length" then Ok (VNumber (of_nat (String.length s)))
      else Ok VUndefined
  | VArray l =>
      if String.eqb k "length" then Ok (VNumber (of_nat (List.length l)))
      else Ok VUndefined
  | VBool _ | VNumber _ => Ok VUndefined
  end.

(** [v?.k] *)
Definition get_opt (v : value) (k : string) : result value :=
  if nullish v then Ok VUndefined else get v k.

(** [a && b] and [a || b]: the right operand is evaluated only when needed,
    so its exception is dropped otherwise. *)
Definition js_and (a b : result value) : result value :=
  x <- a ;; if truthy x then b else Ok x.

Definition js_or (a b : result value) : result value :=
  x <- a ;; if truthy x then Ok x else b.

(** [a && b] where both sides are boolean expressions. *)
Definition and_then (a : bool) (b : result bool) : result bool :=
  if a then b else Ok false.

(** [v === "lit"] *)
Definition strict_eq_str (v : value) (lit : string) : bool :=
  match v with
  | VString s => String.eqb s lit
  | _ => false
  end.

Fixpoint join (sep : string) (l : list string) : string :=
  match l with
  | [] => ""
  | [x] => x
  | x :: rest => x ++ sep ++ join sep rest
  end.

Section Coercions.
Context {E : Engine}.

(** ToString.  A plain object prints as ["[object Object]"] unless it has an
    own [toString] property: that value is not callable, the inherited
    [valueOf] returns the object itself, and OrdinaryToPrimitive raises.
    An array prints its elements joined by commas, [undefined] and [null]
    as the empty string. *)
Fixpoint ToString (v : value) : result string :=
  match v with
  | VUndefined => Ok "undefined"
  | VNull => Ok "null"
  | VBool true => Ok "true"
  | VBool false => Ok "false"
  | VNumber n => Ok (Number_toString n)
  | VString s => Ok s
  | VArray l =>
      let fix elements (l : list value) : result (list string) :=
        match l with
        | [] => Ok []
        | x :: rest =>
            s <- (if nullish x then Ok "" else ToString x) ;;
            ss <- elements rest ;;
            Ok (s :: ss)
        end in
      ss <- elements l ;; Ok (join "," ss)
  | VObject o => if has_key "toString" o then Throw TypeError else Ok "[object Object]"
  end.

(** ToNumber; an array or object goes through ToPrimitive, that is
    [ToString] above, and then [StringToNumber]. *)
Definition ToNumber (v : value) : result number :=
  match v with
  | VUndefined => Ok NaN
  | VNull => Ok (of_Z 0)
  | VBool true => Ok (of_Z 1)
  | VBool false => Ok (of_Z 0)
  | VNumber n => Ok n
  | VString s => Ok (StringToNumber s)
  | VArray _ | VObject _ => s <- ToString v ;; Ok (StringToNumber s)
  end.

(** [v > lit] and [v < lit] against a number literal. *)
Definition gt (v : value) (lit : number) : result bool :=
  n <- ToNumber v ;; Ok (number_lt lit n).

Definition lt (v : value) (lit : number) : result bool :=
  n <- ToNumber v ;; Ok (number_lt n lit).

End Coercions.

(** *** Strings *)

(** [s.includes(sub)] *)
Fixpoint str_includes (s sub : string) : bool :=
  String.prefix sub s ||
  match s with
  | EmptyString => false
  | String _ rest => str_includes rest sub
  end.

(** [toLowerCase] on the Latin-1 code units: A-Z and the accented capitals
    U+00C0-U+00DE other than the multiplication sign. *)
Definition lower_ascii (c : ascii) : ascii :=
  let n := nat_of_ascii c in
  if (((65 <=? n) && (n <=? 90)) || ((192 <=? n) && (n <=? 214))
      || ((216 <=? n) && (n <=? 222)))%nat
  then ascii_of_nat (n + 32) else c.

Fixpoint str_toLowerCase (s : string) : string :=
  match s with
  | EmptyString => EmptyString
  | String c rest => String (lower_ascii c) (str_toLowerCase rest)
  end.

(** White space that [trim] removes, within Latin-1. *)
Definition is_space (c : ascii) : bool :=
  let n := nat_of_ascii c in
  (((9 <=? n) && (n <=? 13)) || (n =? 32) || (n =? 160))%nat.

Fixpoint trim_start (s : string) : string :=
  match s with
  | String c rest => if is_space c then trim_start rest else s
  | EmptyString => EmptyString
  end.

Fixpoint trim_end (s : string) : string :=
  match s with
  | EmptyString => EmptyString
  | String c rest =>
      match trim_end rest with
      | EmptyString => if is_space c then EmptyString else String c EmptyString
      | rest' => String c rest'
      end
  end.

Definition str_trim (s : string) : string := trim_end (trim_start s).

(** *** Method calls on an [any]-typed receiver.  Only strings (and, for
    [includes] and [slice], arrays) have the method; on every other value the
    member is [undefined] or not callable and the call raises. *)

Definition call_includes (v : value) (search : string) : result bool :=
  match v with
  | VString s => Ok (str_includes s search)
  | VArray l => Ok (existsb (fun x => strict_eq_str x search) l)
  | _ => Throw TypeError
  end.

Definition call_toLowerCase (v : value) : result string :=
  match v with
  | VString s => Ok (str_toLowerCase s)
  | _ => Throw TypeError
  end.

Definition call_startsWith (v : value) (p : string) : result bool :=
  match v with
  | VString s => Ok (String.prefix p s)
  | _ => Throw TypeError
  end.

(** [v.slice(0, n)] *)
Definition call_slice0 (v : value) (n : nat) : result value :=
  match v with
  | VString s => Ok (VString (String.substring 0 n s))
  | VArray l => Ok (VArray (firstn n l))
  | _ => Throw TypeError
  end.

(** *** Object spread [{...v}]: own enumerable properties; a string or an
    array contributes its indexed elements, a primitive nothing. *)

Definition index_key (i : nat) : string := NilZero.string_of_uint (Nat.to_uint i).

Fixpoint indexed {A : Type} (f : A -> value) (i : nat) (l : list A) : object :=
  match l with
  | [] => []
  | x :: rest => (index_key i, f x) :: indexed f (S i) rest
  end.

Definition spread (v : value) : object :=
  match v with
  | VObject o => o
  | VArray l => indexed (fun x => x) 0 l
  | VString s => indexed (fun c => VString (String c EmptyString)) 0 (list_ascii_of_string s)
  | VUndefined | VNull | VBool _ | VNumber _ => []
  end.

End JS.

(** ** layers.ts *)

Module Layers.
Import JS.

(** [context] is optional: [VUndefined] when the caller passes none. *)
Record SensibilityInput : Type := {
  rawData : value;
  context : value
}.

(** What [detectSource] returns: a value, or, when the chain id names a
    member that [chainMap] inherits from [Object.prototype], that member. *)
Inductive source_t : Type :=
| SourceValue (v : value)
| SourceInherited (member : string).

Record Metadata : Type := {
  dataType : string;
  source : source_t;
  timestamp : number
}.

Record UnderstandingOutput : Type := {
  categorizedData : object;
  metadata : Metadata
}.

Record Action : Type := {
  action : string;
  params : value;
  justification : string
}.

Record ReasonOutput : Type := {
  proposedActions : list Action;
  reasoning : string
}.

Record CritiqueOutput : Type := {
  confidence : number;
  limitations : list string;
  uncertainties : list string;
  approvedActions : list Action;
  rejectedActions : option (list Action);
  explanation : string
}.

(** [{ passes, reason }] of the three sub-tests, [{ approved, reason }] of
    the categorical imperative, [{ uncertain, reason }] of the epistemic
    check. *)
Record TestResult : Type := { passes : bool; test_reason : string }.
Record CategoricalImperativeResult : Type := { approved : bool; reason : string }.
Record BoundaryCheck : Type := { uncertain : bool; uncertain_reason : string }.

Definition nl : string := String (ascii_of_nat 10) EmptyString.

Section WithEngine.
Context {E : Engine}.

(** *** Helper functions *)

Definition detectDataType (data : value) (context : value) : result string :=
  c1 <- js_and (js_and (get data "hash") (get data "from")) (get data "to") ;;
  if truthy c1 then Ok "transaction" else
  c2 <- js_or (get data "content") (get data "message") ;;
  if truthy c2 then Ok "message" else
  c3 <- get data "event" ;;
  if truthy c3 then Ok "event" else
  c4 <- get data "inputType" ;;
  if strict_eq_str c4 "user" then Ok "userInput" else
  Ok "unknown".

Definition chainMap : list (string * string) :=
  [("1", "Ethereum"); ("42161", "Arbitrum"); ("10", "Optimism"); ("56", "BSC")].

Fixpoint chainMap_own (key : string) (m : list (string * string)) : option string :=
  match m with
  | [] => None
  | (k, name) :: rest => if String.eqb key k then Some name else chainMap_own key rest
  end.

(** The members an object literal inherits; each is truthy. *)
Definition objectPrototypeMembers : list string :=
  ["constructor"; "hasOwnProperty"; "isPrototypeOf"; "propertyIsEnumerable";
   "toLocaleString"; "toString"; "valueOf"; "__proto__";
   "__defineGetter__"; "__defineSetter__"; "__lookupGetter__"; "__lookupSetter__"].

Definition detectSource (data : value) : result source_t :=
  chainId <- get data "chainId" ;;
  if truthy chainId then
    key <- ToString chainId ;;
    match chainMap_own key chainMap with
    | Some name => Ok (SourceValue (VString name))
    | None =>
        if existsb (String.eqb key) objectPrototypeMembers
        then Ok (SourceInherited key)
        else Ok (SourceValue (VString ("Chain-" ++ key)))
    end
  else
    src <- js_or (get data "source") (Ok (VString "unknown")) ;;
    Ok (SourceValue src).

(** [now] is the reading [Date.now()] gives if the branch asks for it. *)
Definition structureData (data : value) (type : string) (context : value)
    (now : number) : result object :=
  if String.eqb type "transaction" then
    hash <- get data "hash" ;;
    from <- get data "from" ;;
    to <- get data "to" ;;
    value <- js_or (get data "value") (Ok (VNumber (of_Z 0))) ;;
    data' <- js_or (get data "data") (Ok (VString "")) ;;
    gas <- get data "gas" ;;
    chainId <- get data "chainId" ;;
    previousTxs <- js_or (get_opt context "previousTransactions") (Ok (VArray [])) ;;
    Ok [("hash", hash); ("from", from); ("to", to); ("value", value);
        ("data", data'); ("gas", gas); ("chainId", chainId);
        ("previousTxs", previousTxs)]
  else if String.eqb type "message" then
    content <- js_or (get data "content") (get data "message") ;;
    sender <- js_or (get data "sender") (get data "from") ;;
    timestamp <- js_or (get data "timestamp") (Ok (VNumber now)) ;;
    conversationHistory <- js_or (get_opt context "conversationHistory") (Ok (VArray [])) ;;
    Ok [("content", content); ("sender", sender); ("timestamp", timestamp);
        ("conversationHistory", conversationHistory)]
  else if String.eqb type "event" then
    eventName <- get data "event" ;;
    parameters <- js_or (get data "parameters") (Ok (VObject [])) ;;
    blockNumber <- get data "blockNumber" ;;
    transactionHash <- get data "transactionHash" ;;
    Ok [("eventName", eventName); ("parameters", parameters);
        ("blockNumber", blockNumber); ("transactionHash", transactionHash)]
  else if String.eqb type "userInput" then
    input <- get data "input" ;;
    type' <- get data "inputType" ;;
    timestamp <- js_or (get data "timestamp") (Ok (VNumber now)) ;;
    Ok [("input", input); ("type", type'); ("timestamp", timestamp)]
  else
    Ok (spread data).

Definition categorizeTransaction (tx : object) : result string :=
  if negb (truthy (lookup "to" tx)) then Ok "contract-deployment" else
  let data := lookup "data" tx in
  c <- and_then (truthy data) (len <- get data "length" ;; gt len (of_Z 2)) ;;
  if c then
    signature <- call_slice0 data 10 ;;
    if strict_eq_str signature "0xa9059cbb" then Ok "ERC20-transfer" else
    if strict_eq_str signature "0x23b872dd" then Ok "ERC20-transferFrom" else
    Ok "unknown-contract-interaction"
  else Ok "value-transfer".

Definition assessRisk (tx : object) : result string :=
  c1 <- gt (lookup "value" tx) (of_Z 1000) ;;
  if c1 then Ok "high" else
  if negb (truthy (lookup "to" tx)) then Ok "high" else
  len <- get_opt (lookup "data" tx) "length" ;;
  c3 <- gt len (of_Z 1000) ;;
  if c3 then Ok "high" else Ok "low".

Definition detectIntent (message : object) : result string :=
  content <- call_toLowerCase (lookup "content" message) ;;
  if str_includes content "buy" || str_includes content "purchase" then Ok "purchase-intent" else
  if str_includes content "sell" || str_includes content "trade" then Ok "sell-intent" else
  if str_includes content "help" || str_includes content "?" then Ok "question" else
  if str_includes content "hello" || str_includes content "hi" then Ok "greeting" else
  Ok "statement".

Definition analyzeSentiment (message : object) : result string :=
  content <- call_toLowerCase (lookup "content" message) ;;
  let positive :=
    List.length (filter (fun word => str_includes content word)
                   ["good"; "great"; "excellent"; "thanks"; "happy"]) in
  let negative :=
    List.length (filter (fun word => str_includes content word)
                   ["bad"; "poor"; "terrible"; "fail"; "sad"]) in
  Ok (if (negative <? positive)%nat then "positive"
      else if (positive <? negative)%nat then "negative" else "neutral").

Definition categorizeEvent (event : object) : string :=
  if strict_eq_str (lookup "eventName" event) "Transfer" then "token-transfer" else
  if strict_eq_str (lookup "eventName" event) "Approval" then "token-approval" else
  "generic-event".

Definition generateContextualResponse (data : object) : string :=
  if strict_eq_str (lookup "intent" data) "greeting"
  then "Hello! How can I assist you with blockchain or AI tasks?" else
  if strict_eq_str (lookup "intent" data) "question"
  then "Let me look that up for you. I'll respond shortly." else
  if strict_eq_str (lookup "intent" data) "purchase-intent"
  then "I can assist with blockchain transactions. Please provide more details." else
  "Thank you for your message. I'll process it accordingly.".

(** Check if an action exceeds epistemic boundaries *)
Definition checkEpistemicBoundaries (a : Action) : result BoundaryCheck :=
  c1 <- and_then (String.eqb (action a) "executeTransaction")
          (v <- get (params a) "value" ;; gt v (of_Z 1000)) ;;
  if c1 then
    Ok {| uncertain := true;
          uncertain_reason := "High-value transactions exceed confidence boundaries" |}
  else
  c2 <- and_then (String.eqb (action a) "respondToMessage")
          (content <- get (params a) "content" ;;
           len <- get content "length" ;;
           gt len (of_Z 500)) ;;
  if c2 then
    Ok {| uncertain := true;
          uncertain_reason := "Long responses may exceed knowledge boundaries" |}
  else Ok {| uncertain := false; uncertain_reason := "" |}.

(** [action.params.content.includes(word)] *)
Definition content_includes (a : Action) (word : string) : result bool :=
  content <- get (params a) "content" ;;
  call_includes content word.

Definition universalizabilityTest (a : Action) : result TestResult :=
  c1 <- and_then (String.eqb (action a) "executeTransaction")
          (v <- get (params a) "value" ;; lt v (of_Z 0)) ;;
  if c1 then
    Ok {| passes := false;
          test_reason := "A system where transactions take value without consent would collapse" |}
  else
  c2 <- and_then (String.eqb (action a) "respondToMessage") (content_includes a "mislead") ;;
  if c2 then
    Ok {| passes := false;
          test_reason := "A system where AI agents mislead users cannot be universalized" |}
  else Ok {| passes := true; test_reason := "Action can be universalized" |}.

Definition humanityAsEndTest (a : Action) : result TestResult :=
  c1 <- and_then (String.eqb (action a) "executeTransaction")
          (force <- get (params a) "force" ;; Ok (truthy force)) ;;
  if c1 then
    Ok {| passes := false;
          test_reason := "Forcing transactions without consent treats users as means" |}
  else
  c2 <- and_then (String.eqb (action a) "respondToMessage") (content_includes a "manipulate") ;;
  if c2 then
    Ok {| passes := false;
          test_reason := "Manipulative responses treat users as means to an end" |}
  else Ok {| passes := true; test_reason := "Action respects humanity as an end" |}.

Definition kingdomOfEndsTest (a : Action) : result TestResult :=
  c1 <- and_then (String.eqb (action a) "executeTransaction")
          (to <- get (params a) "to" ;; Ok (strict_eq_str to "0xknownScamAddress")) ;;
  if c1 then
    Ok {| passes := false;
          test_reason := "Supporting scams is incompatible with a moral community" |}
  else
  c2 <- and_then (String.eqb (action a) "respondToMessage") (content_includes a "hate speech") ;;
  if c2 then
    Ok {| passes := false;
          test_reason := "Hate speech is incompatible with a kingdom of ends" |}
  else Ok {| passes := true; test_reason := "Action is compatible with a moral community" |}.

(** Apply Kant's categorical imperative to evaluate an action *)
Definition categoricalImperative (a : Action) : result CategoricalImperativeResult :=
  universalTest <- universalizabilityTest a ;;
  if negb (passes universalTest) then
    Ok {| approved := false;
          reason := "Fails universalizability: " ++ test_reason universalTest |}
  else
  humanityTest <- humanityAsEndTest a ;;
  if negb (passes humanityTest) then
    Ok {| approved := false;
          reason := "Fails humanity as end: " ++ test_reason humanityTest |}
  else
  kingdomTest <- kingdomOfEndsTest a ;;
  if negb (passes kingdomTest) then
    Ok {| approved := false;
          reason := "Fails kingdom of ends: " ++ test_reason kingdomTest |}
  else
    Ok {| approved := true;
          reason := "Action passes all three formulations of the categorical imperative" |}.

(** The callback of [approved.forEach] in [calculateConfidence]. *)
Definition highValueStep (confidence : number) (a : Action) : result number :=
  c <- and_then (String.eqb (action a) "executeTransaction")
         (v <- get (params a) "value" ;; gt v (of_Z 1000)) ;;
  Ok (if c then number_sub confidence (literal 0.1) else confidence).

Fixpoint forEach (l : list Action) (confidence : number) : result number :=
  match l with
  | [] => Ok confidence
  | a :: rest => c <- highValueStep confidence a ;; forEach rest c
  end.

(** Calculate confidence based on approved/rejected actions and
    uncertainties.  An array length is an integer below [2 ^ 32], which is a
    double. *)
Definition calculateConfidence (approved rejected : list Action)
    (uncertainties : list string) : result number :=
  let confidence := of_Z 1 in
  let confidence :=
    if (0 <? List.length rejected)%nat
    then number_sub confidence (number_mul (literal 0.2) (of_nat (List.length rejected)))
    else confidence in
  let confidence :=
    if (0 <? List.length uncertainties)%nat
    then number_sub confidence
           (number_mul (literal 0.1) (of_nat (List.length uncertainties)))
    else confidence in
  confidence <- forEach approved confidence ;;
  Ok (number_max (of_Z 0) confidence).

(** *** The four layers *)

(** Sensibility Layer.  [Date.now()] is read up to twice: [now_structure] is
    the reading inside [structureData], [now_stamp] the one stored as
    [metadata.timestamp]. *)
Definition sensibilityLayer (input : SensibilityInput)
    (now_structure now_stamp : number) : result UnderstandingOutput :=
  dataType <- detectDataType (rawData input) (context input) ;;
  source <- detectSource (rawData input) ;;
  categorizedData <- structureData (rawData input) dataType (context input) now_structure ;;
  Ok {| categorizedData := categorizedData;
        metadata := {| dataType := dataType; source := source; timestamp := now_stamp |} |}.

(** Understanding Layer *)
Definition understandingLayer (input : UnderstandingOutput) : result UnderstandingOutput :=
  let enrichedData := spread (VObject (categorizedData input)) in
  enrichedData <-
    (if String.eqb (dataType (metadata input)) "transaction" then
       transactionType <- categorizeTransaction (categorizedData input) ;;
       let enrichedData := set_prop "transactionType" (VString transactionType) enrichedData in
       risk <- assessRisk (categorizedData input) ;;
       Ok (set_prop "risk" (VString risk) enrichedData)
     else if String.eqb (dataType (metadata input)) "message" then
       intent <- detectIntent (categorizedData input) ;;
       let enrichedData := set_prop "intent" (VString intent) enrichedData in
       sentiment <- analyzeSentiment (categorizedData input) ;;
       Ok (set_prop "sentiment" (VString sentiment) enrichedData)
     else if String.eqb (dataType (metadata input)) "event" then
       Ok (set_prop "eventCategory" (VString (categorizeEvent (categorizedData input)))
             enrichedData)
     else Ok enrichedData) ;;
  Ok {| categorizedData := enrichedData; metadata := metadata input |}.

Definition mkAction (name : string) (ps : object) (why : string) : Action :=
  {| action := name; params := VObject ps; justification := why |}.

(** Reason Layer *)
Definition reasonLayer (input : UnderstandingOutput) : result ReasonOutput :=
  let cd := categorizedData input in
  if String.eqb (dataType (metadata input)) "transaction" then
    transactionType <- ToString (lookup "transactionType" cd) ;;
    from <- ToString (lookup "from" cd) ;;
    to <- ToString (lookup "to" cd) ;;
    let reasoning :=
      "Analyzing " ++ transactionType ++ " transaction from " ++ from ++ " to " ++ to in
    let proposedActions :=
      [mkAction "verifyRecipient" [("address", lookup "to" cd)]
         "Ensure recipient is valid and not flagged for scams"] in
    positive <- gt (lookup "value" cd) (of_Z 0) ;;
    let proposedActions :=
      if positive then
        (proposedActions ++
         [mkAction "executeTransaction"
            [("to", lookup "to" cd); ("value", lookup "value" cd); ("data", lookup "data" cd)]
            "Transaction parameters validated, value is positive"])%list
      else proposedActions in
    let proposedActions :=
      (proposedActions ++
       [mkAction "checkGasPrice" [("chainId", lookup "chainId" cd)]
          "Optimize transaction cost based on current gas prices"])%list in
    let proposedActions :=
      if strict_eq_str (lookup "risk" cd) "high" then
        (proposedActions ++
         [mkAction "monitorTransaction" [("txHash", lookup "hash" cd)]
            "High-risk transaction requires additional monitoring"])%list
      else proposedActions in
    Ok {| proposedActions := proposedActions; reasoning := reasoning |}
  else if String.eqb (dataType (metadata input)) "message" then
    intent <- ToString (lookup "intent" cd) ;;
    sentiment <- ToString (lookup "sentiment" cd) ;;
    let reasoning :=
      "Processing message with intent: " ++ intent ++ " and sentiment: " ++ sentiment in
    let proposedActions :=
      [mkAction "respondToMessage"
         [("content", VString (generateContextualResponse cd)); ("context", VObject cd)]
         "Generated response based on intent, sentiment, and history"] in
    let proposedActions :=
      if strict_eq_str (lookup "intent" cd) "question" then
        (proposedActions ++
         [mkAction "searchForAnswer" [("query", lookup "content" cd)]
            "Perform search to provide accurate response"])%list
      else proposedActions in
    Ok {| proposedActions := proposedActions; reasoning := reasoning |}
  else if String.eqb (dataType (metadata input)) "event" then
    eventName <- ToString (lookup "eventName" cd) ;;
    Ok {| proposedActions :=
            [mkAction "logEvent" [("event", VObject cd)] "Record event for future reference"];
          reasoning := "Processing event: " ++ eventName |}
  else
    Ok {| proposedActions := []; reasoning := "" |}.

(** The mutable locals of [critiqueLayer]'s loop. *)
Record CritiqueState : Type := {
  st_approved : list Action;
  st_rejected : list Action;
  st_limitations : list string;
  st_uncertainties : list string;
  st_explanation : string
}.

Definition critiqueStep (st : CritiqueState) (a : Action) : result CritiqueState :=
  ethicalCheck <- categoricalImperative a ;;
  let st :=
    if approved ethicalCheck then
      {| st_approved := (st_approved st ++ [a])%list;
         st_rejected := st_rejected st;
         st_limitations := st_limitations st;
         st_uncertainties := st_uncertainties st;
         st_explanation :=
           st_explanation st ++ nl ++ "Approved: " ++ action a ++ " - " ++ reason ethicalCheck |}
    else
      {| st_approved := st_approved st;
         st_rejected := (st_rejected st ++ [a])%list;
         st_limitations :=
           (st_limitations st ++
            [("Ethical constraint: " ++ reason ethicalCheck)%string])%list;
         st_uncertainties := st_uncertainties st;
         st_explanation :=
           st_explanation st ++ nl ++ "Rejected: " ++ action a ++ " - " ++ reason ethicalCheck |} in
  boundaryCheck <- checkEpistemicBoundaries a ;;
  Ok (if uncertain boundaryCheck then
        {| st_approved := st_approved st;
           st_rejected := st_rejected st;
           st_limitations := st_limitations st;
           st_uncertainties := (st_uncertainties st ++ [uncertain_reason boundaryCheck])%list;
           st_explanation := st_explanation st |}
      else st).

Fixpoint critiqueLoop (actions : list Action) (st : CritiqueState) : result CritiqueState :=
  match actions with
  | [] => Ok st
  | a :: rest => st' <- critiqueStep st a ;; critiqueLoop rest st'
  end.

Definition initialState : CritiqueState :=
  {| st_approved := []; st_rejected := []; st_limitations := [];
     st_uncertainties := []; st_explanation := "" |}.

(** Critique Layer *)
Definition critiqueLayer (input : ReasonOutput) : result CritiqueOutput :=
  st <- critiqueLoop (proposedActions input) initialState ;;
  confidence <- calculateConfidence (st_approved st) (st_rejected st) (st_uncertainties st) ;;
  Ok {| confidence := confidence;
        limitations := st_limitations st;
        uncertainties := st_uncertainties st;
        approvedActions := st_approved st;
        rejectedActions := Some (st_rejected st);
        explanation :=
          reasoning input ++ nl ++ st_explanation st ++ nl ++
          "Confidence: " ++ Number_toString confidence |}.

End WithEngine.

End Layers.

(** ** pipeline.ts *)

Module Pipeline.
Import JS Layers.

Record DeferralDecision : Type := { shouldDefer : bool; defer_reason : string }.

Section WithEngine.
Context {E : Engine}.

(** The main CAR pipeline.  Console output ([debug], the processing-time
    warning) is not modelled; an exception of any layer is caught and
    rethrown as ["Pipeline failed: ..."]. *)
Definition carPipeline (rawInput : value) (context : value)
    (now_structure now_stamp : number) : result CritiqueOutput :=
  let body :=
    let sensibilityInput := {| rawData := rawInput; context := context |} in
    sensibilityOutput <- sensibilityLayer sensibilityInput now_structure now_stamp ;;
    understandingOutput <- understandingLayer sensibilityOutput ;;
    reasonOutput <- reasonLayer understandingOutput ;;
    critiqueOutput <- critiqueLayer reasonOutput ;;
    Ok critiqueOutput in
  match body with
  | Ok critiqueOutput => Ok critiqueOutput
  | Throw error => Throw (PipelineFailed error)
  end.

Definition defaultConfidenceThreshold : number := literal 0.7.

(** Checks if the agent should defer to human judgment.  [None] is an
    omitted threshold, which takes the default. *)
Definition checkEpistemicBoundaries (output : CritiqueOutput)
    (confidenceThreshold : option number) : DeferralDecision :=
  let confidenceThreshold :=
    match confidenceThreshold with
    | Some t => t
    | None => defaultConfidenceThreshold
    end in
  if number_lt (confidence output) confidenceThreshold then
    {| shouldDefer := true;
       defer_reason :=
         "Low confidence (" ++ Number_toFixed (confidence output) 2 ++
         ") below threshold of " ++ Number_toString confidenceThreshold |}
  else if (0 <? List.length (limitations output))%nat then
    {| shouldDefer := true;
       defer_reason := "Limitations detected: " ++ join ", " (limitations output) |}
  else if (0 <? List.length (uncertainties output))%nat then
    {| shouldDefer := true;
       defer_reason := "Uncertainties present: " ++ join ", " (uncertainties output) |}
  else
    {| shouldDefer := false; defer_reason := "Within epistemic boundaries" |}.

(** [x || 'None'] on a string *)
Definition or_None (s : string) : string :=
  if String.eqb s "" then "None" else s.

Definition generateExplanation (output : CritiqueOutput) : string :=
  let approvedActionsList :=
    or_None (join nl (map (fun a => "- " ++ action a ++ ": " ++ justification a)
                        (approvedActions output))) in
  let rejectedActionsList :=
    match rejectedActions output with
    | Some rejected =>
        join nl (map (fun a => "- " ++ action a ++ ": Rejected due to ethical constraints")
                   rejected)
    | None => "None"
    end in
  str_trim
    (nl ++ "**Decision Analysis**" ++ nl ++
     "- **Confidence Level**: " ++ Number_toFixed (confidence output) 2 ++ nl ++
     "- **Approved Actions**:" ++ nl ++
     approvedActionsList ++ nl ++
     nl ++
     "- **Rejected Actions**:" ++ nl ++
     rejectedActionsList ++ nl ++
     nl ++
     "**Reasoning**:" ++ nl ++
     explanation output ++ nl ++
     nl ++
     (if (0 <? List.length (limitations output))%nat
      then "**Limitations**:" ++ nl ++ "- " ++ join (nl ++ "- ") (limitations output)
      else "") ++ nl ++
     (if (0 <? List.length (uncertainties output))%nat
      then "**Uncertainties**:" ++ nl ++ "- " ++ join (nl ++ "- ") (uncertainties output)
      else "") ++ nl ++
     "  ").

End WithEngine.

End Pipeline.

(** ** The blockchain ethics module *)

Module BlockchainEthics.
Import JS.

Record BlockchainAction : Type := {
  action : string;
  params : value;
  justification : option string
}.

Inductive AddressCategory : Type := safe_address | suspicious | malicious | unknown.

Record BlockchainAddress : Type := {
  address : value;
  category : AddressCategory;
  address_reason : option string
}.

Record ContractSafetyResult : Type := {
  safe : bool;
  safety_reason : string;
  risks : option (list string)
}.

Record ParamsValidation : Type := { valid : bool; valid_reason : string }.

Definition knownMaliciousAddresses : list string :=
  ["0xknownScamAddress"; "0xanotherScam"].

Definition MAX_TRANSACTION_VALUE : number := of_Z 1000.

Definition blockchainActions : list string :=
  ["executeTransaction"; "deployContract"; "callContract"; "signMessage";
   "approveToken"; "transferToken"].

Section WithEngine.
Context {E : Engine}.

Definition checkAddress (address : value) : result BlockchainAddress :=
  if existsb (strict_eq_str address) knownMaliciousAddresses then
    Ok {| address := address; category := malicious;
          address_reason :=
            Some "Address is known to be associated with scams or malicious activities." |}
  else
  suspiciousPrefix <- call_startsWith address "0x000" ;;
  if suspiciousPrefix then
    Ok {| address := address; category := suspicious;
          address_reason := Some "Address matches suspicious pattern (starts with 0x000)." |}
  else
    Ok {| address := address; category := unknown;
          address_reason := Some "No information available for this address." |}.

Definition checkContractSafety (contractAddress : value) (data : value)
    : result ContractSafetyResult :=
  verified <- call_startsWith contractAddress "0xsafe" ;;
  if verified then
    Ok {| safe := true; safety_reason := "Contract is verified and safe."; risks := None |}
  else
  dangerous <- call_includes data "selfdestruct" ;;
  if dangerous then
    Ok {| safe := false;
          safety_reason := "Contract interaction includes dangerous operations (selfdestruct).";
          risks := Some ["Potential loss of funds"] |}
  else
    Ok {| safe := false;
          safety_reason := "Contract safety could not be verified.";
          risks := Some ["Unknown contract behavior"] |}.

Definition checkTransactionValue (value : JS.value) (token : JS.value)
    : result Layers.CategoricalImperativeResult :=
  exceeds <- gt value MAX_TRANSACTION_VALUE ;;
  if exceeds then
    unit <- (u <- js_or (Ok token) (Ok (VString "ETH")) ;; ToString u) ;;
    Ok {| Layers.approved := false;
          Layers.reason :=
            "Transaction value exceeds maximum allowed limit of " ++
            Number_toString MAX_TRANSACTION_VALUE ++ " " ++ unit |}
  else
    Ok {| Layers.approved := true;
          Layers.reason := "Transaction value within acceptable limits" |}.

Definition isBlockchainAction (a : BlockchainAction) : bool :=
  existsb (String.eqb (action a)) blockchainActions.

(** [!action.params.k] *)
Definition missing (a : BlockchainAction) (k : string) : result bool :=
  v <- get (params a) k ;; Ok (negb (truthy v)).

(** [!a || !b] and [!a || !b || !c] *)
Definition or_else (a : result bool) (b : result bool) : result bool :=
  x <- a ;; if x then Ok true else b.

Definition validateActionParams (a : BlockchainAction) : result ParamsValidation :=
  let all_present := {| valid := true; valid_reason := "All required parameters are present" |} in
  if String.eqb (action a) "executeTransaction" then
    m <- missing a "to" ;;
    if m then Ok {| valid := false; valid_reason := "Missing recipient address" |}
    else Ok all_present
  else if String.eqb (action a) "deployContract" then
    m <- missing a "bytecode" ;;
    if m then Ok {| valid := false; valid_reason := "Missing contract bytecode" |}
    else Ok all_present
  else if String.eqb (action a) "callContract" then
    m <- or_else (missing a "to") (missing a "data") ;;
    if m then Ok {| valid := false; valid_reason := "Missing contract address or call data" |}
    else Ok all_present
  else if String.eqb (action a) "signMessage" then
    m <- missing a "message" ;;
    if m then Ok {| valid := false; valid_reason := "Missing message to sign" |}
    else Ok all_present
  else if String.eqb (action a) "approveToken" then
    m <- or_else (or_else (missing a "token") (missing a "spender")) (missing a "amount") ;;
    if m then
      Ok {| valid := false;
            valid_reason := "Missing token approval parameters (token, spender, or amount)" |}
    else Ok all_present
  else if String.eqb (action a) "transferToken" then
    m <- or_else (or_else (missing a "token") (missing a "to")) (missing a "amount") ;;
    if m then
      Ok {| valid := false;
            valid_reason := "Missing token transfer parameters (token, recipient, or amount)" |}
    else Ok all_present
  else
    Ok {| valid := false; valid_reason := "Unknown blockchain action" |}.

Definition reject (why : string) : Layers.CategoricalImperativeResult :=
  {| Layers.approved := false; Layers.reason := why |}.

Definition approve (why : string) : Layers.CategoricalImperativeResult :=
  {| Layers.approved := true; Layers.reason := why |}.

Definition option_reason (r : option string) : string :=
  match r with
  | Some s => s
  | None => "undefined"
  end.

(** Evaluate blockchain actions against enhanced ethical constraints *)
Definition evaluateBlockchainAction (a : BlockchainAction)
    : result Layers.CategoricalImperativeResult :=
  if negb (isBlockchainAction a) then Ok (approve "Not a blockchain action") else
  validParams <- validateActionParams a ;;
  if negb (valid validParams) then Ok (reject (valid_reason validParams)) else
  to <- get (params a) "to" ;;
  addressVerdict <-
    (if truthy to then
       addressCheck <- checkAddress to ;;
       match category addressCheck with
       | malicious =>
           Ok (Some (reject ("Malicious recipient address: " ++
                             option_reason (address_reason addressCheck))))
       | suspicious =>
           Ok (Some (reject ("Suspicious recipient address: " ++
                             option_reason (address_reason addressCheck))))
       | _ => Ok None
       end
     else Ok None) ;;
  match addressVerdict with
  | Some verdict => Ok verdict
  | None =>
  data <- get (params a) "data" ;;
  hasCallData <- and_then (truthy data) (len <- get data "length" ;; gt len (of_Z 2)) ;;
  contractVerdict <-
    (if hasCallData then
       contractCheck <- checkContractSafety to data ;;
       if negb (safe contractCheck)
       then Ok (Some (reject ("Unsafe contract interaction: " ++ safety_reason contractCheck)))
       else Ok None
     else Ok None) ;;
  match contractVerdict with
  | Some verdict => Ok verdict
  | None =>
  value <- get (params a) "value" ;;
  if truthy value then
    token <- get (params a) "token" ;;
    valueCheck <- checkTransactionValue value token ;;
    if negb (Layers.approved valueCheck) then Ok valueCheck
    else Ok (approve "Blockchain action passed all ethical checks")
  else Ok (approve "Blockchain action passed all ethical checks")
  end
  end.

End WithEngine.

End BlockchainEthics.

(** ** The extension: [car(options)] *)

Module CarExtension.
Import JS Layers Pipeline.

(** What the host supplies for the decision log: the text that
    [JSON.stringify] yields inside a template, and the engine's wording of a
    [TypeError] (one text stands for the wording of every site). *)
Class Host : Type := {
  JSON_stringify : value -> string;
  TypeError_message : string
}.

(** [logDecisions]: a function, whose calls are modelled by the list of the
    messages it receives, or any other value, as in the example agent, which
    passes [true]. *)
Inductive Logger : Type :=
| Function
| NotAFunction (v : value).

(** The options that the hooks read.  [None] is an omitted option; [debug]
    is console output only. *)
Record CARExtensionOptions : Type := {
  confidenceThreshold : option number;
  enableExplanations : option bool;
  enableDeferral : option bool;
  logDecisions : option Logger;
  deferralMessage : option string
}.

(** A destructuring default: taken when the option is omitted. *)
Definition default {A : Type} (o : option A) (d : A) : A :=
  match o with
  | Some a => a
  | None => d
  end.

(** The default of [logDecisions] is [console.log]; [undefined] counts as
    omitted. *)
Definition logger (o : option Logger) : Logger :=
  match o with
  | None | Some (NotAFunction VUndefined) => Function
  | Some l => l
  end.

(** ToBoolean of the logger *)
Definition enabled (l : Logger) : bool :=
  match l with
  | Function => true
  | NotAFunction v => truthy v
  end.

(** A computation that logs: the messages logged, and its result. *)
Definition logging (A : Type) : Type := (list string * result A)%type.

Definition ret {A : Type} (a : A) : logging A := ([], Ok a).

Definition raise {A : Type} (e : exn) : logging A := ([], Throw e).

Definition lbind {A B : Type} (m : logging A) (f : A -> logging B) : logging B :=
  match m with
  | (messages, Ok a) => let '(messages', r) := f a in ((messages ++ messages')%list, r)
  | (messages, Throw e) => (messages, Throw e)
  end.

(** [logDecisions(message)] *)
Definition say (l : Logger) (message : string) : logging unit :=
  match l with
  | Function => ([message], Ok tt)
  | NotAFunction _ => raise TypeError
  end.

(** [context.car] as [beforeRun] writes it: the pipeline's output with
    [deferred], [deferReason] and [explanation] laid over it, or the record
    of a failure. *)
Inductive CarEntry : Type :=
| Analysis (carOutput : CritiqueOutput) (deferred : bool) (deferReason : string)
    (explanation : option string)
| Failure (error : string) (deferred : bool) (deferReason : string).

(** Property reads on the entry; [None] is [undefined]. *)
Definition entry_confidence (c : CarEntry) : option number :=
  match c with
  | Analysis carOutput _ _ _ => Some (confidence carOutput)
  | Failure _ _ _ => None
  end.

Definition entry_approvedActions (c : CarEntry) : option (list Action) :=
  match c with
  | Analysis carOutput _ _ _ => Some (approvedActions carOutput)
  | Failure _ _ _ => None
  end.

Definition entry_error (c : CarEntry) : option string :=
  match c with
  | Analysis _ _ _ _ => None
  | Failure error _ _ => Some error
  end.

Definition entry_deferred (c : CarEntry) : bool :=
  match c with
  | Analysis _ deferred _ _ => deferred
  | Failure _ deferred _ => deferred
  end.

Definition entry_deferReason (c : CarEntry) : string :=
  match c with
  | Analysis _ _ deferReason _ => deferReason
  | Failure _ _ deferReason => deferReason
  end.

Definition entry_explanation (c : CarEntry) : option string :=
  match c with
  | Analysis _ _ _ explanation => explanation
  | Failure _ _ _ => None
  end.

Definition entry_limitations (c : CarEntry) : option (list string) :=
  match c with
  | Analysis carOutput _ _ _ => Some (limitations carOutput)
  | Failure _ _ _ => None
  end.

Definition entry_uncertainties (c : CarEntry) : option (list string) :=
  match c with
  | Analysis carOutput _ _ _ => Some (uncertainties carOutput)
  | Failure _ _ _ => None
  end.

(** The agent context: the properties it had, and [car] laid over them. *)
Record Context : Type := {
  inherited : object;
  car : option CarEntry
}.

(** ToBoolean of an optional string *)
Definition truthy_text (s : option string) : bool :=
  match s with
  | Some s => negb (String.eqb s "")
  | None => false
  end.

Section WithHost.
Context {E : Engine} {H : Host}.

(** [error.message] *)
Fixpoint message (error : exn) : string :=
  match error with
  | TypeError => TypeError_message
  | PipelineFailed cause => "Pipeline failed: " ++ message cause
  end.

Variable options : CARExtensionOptions.

(** Hook executed before the agent's main logic.  What the pipeline throws
    is always an [Error]; the handler itself raises when the logger is not a
    function. *)
Definition beforeRun (input context : value) (now_structure now_stamp : number)
    : logging Context :=
  let confidenceThreshold := default (confidenceThreshold options) (literal 0.7) in
  let enableExplanations := default (enableExplanations options) true in
  let enableDeferral := default (enableDeferral options) true in
  let logDecisions := logger (logDecisions options) in
  match carPipeline input context now_structure now_stamp with
  | Ok carOutput =>
      let '(deferred, deferReason) :=
        if enableDeferral then
          let humilityCheck := checkEpistemicBoundaries carOutput (Some confidenceThreshold) in
          if shouldDefer humilityCheck then (true, defer_reason humilityCheck)
          else (false, "")
        else (false, "") in
      let explanation :=
        if enableExplanations then Some (generateExplanation carOutput) else None in
      ret {| inherited := spread context;
             car := Some (Analysis carOutput deferred deferReason explanation) |}
  | Throw error =>
      let errorMessage := message error in
      lbind (say logDecisions ("[CAR] Error in pipeline: " ++ errorMessage)) (fun _ =>
      ret {| inherited := spread context;
             car := Some (Failure errorMessage true "Pipeline error occurred") |})
  end.

(** Hook executed after the agent's main logic *)
Definition afterRun (input output : value) (context : Context) : logging value :=
  let enableExplanations := default (enableExplanations options) true in
  let logDecisions := logger (logDecisions options) in
  let deferralMessage :=
    default (deferralMessage options) "I need to defer to human judgment" in
  match car context with
  | None => ret output
  | Some car =>
      lbind
        (if enabled logDecisions then
           lbind (say logDecisions ("[CAR] Decision for input: " ++ JSON_stringify input))
             (fun _ =>
           lbind (say logDecisions
                    ("[CAR] Confidence: " ++
                     match entry_confidence car with
                     | Some c => Number_toString c
                     | None => "undefined"
                     end)) (fun _ =>
           lbind (match entry_approvedActions car with
                  | Some approved => ret approved
                  | None => raise TypeError
                  end) (fun approved =>
           lbind (say logDecisions
                    ("[CAR] Approved actions: " ++
                     Number_toString (of_nat (List.length approved)))) (fun _ =>
           if entry_deferred car
           then say logDecisions
                  ("[CAR] Deferred to human judgment: " ++ entry_deferReason car)
           else ret tt))))
         else ret tt) (fun _ =>
      let explained :=
        match entry_explanation car with
        | Some text => enableExplanations && negb (String.eqb text "")
        | None => false
        end in
      if truthy_text (entry_error car) then
        ret (VObject
               (set_prop "deferred" (VBool true)
                  (set_prop "message"
                     (VString (deferralMessage ++ ": " ++ entry_deferReason car))
                     (spread output))))
      else if entry_deferred car then
        ret (VObject
               (set_prop "deferred" (VBool true)
                  (set_prop "message"
                     (VString (deferralMessage ++ ": " ++ entry_deferReason car ++
                               (if explained
                                then nl ++ nl ++ default (entry_explanation car) ""
                                else "")))
                     (spread output))))
      else if explained then
        ret (VObject
               (set_prop "carExplanation"
                  (VString (default (entry_explanation car) ""))
                  (spread output)))
      else ret output)
  end.

End WithHost.

End CarExtension.

(** ** The example agent: its [run] handler *)

Module ExampleAgent.
Import JS Layers CarExtension.

(** Mock function for recipient verification *)
Definition knownScamAddresses : list string := ["0xknownScamAddress"].

Definition verifyRecipient (address : value) : bool :=
  negb (existsb (strict_eq_str address) knownScamAddresses).

(** An action object as a value. *)
Definition of_action (a : Action) : value :=
  VObject [("action", VString (action a)); ("params", params a);
           ("justification", VString (justification a))].

Definition of_text (s : option string) : value :=
  match s with
  | Some s => VString s
  | None => VUndefined
  end.

(** [carContext?.list || []] *)
Definition of_list (l : option (list string)) : value :=
  match l with
  | Some l => VArray (map VString l)
  | None => VArray []
  end.

(** [carContext?.k], where [None] is [undefined]. *)
Definition read {A : Type} (carContext : option CarEntry) (k : CarEntry -> option A)
    : option A :=
  match carContext with
  | Some c => k c
  | None => None
  end.

Section WithEngine.
Context {E : Engine}.

(** [`${action.params.k}`] *)
Definition param_text (a : Action) (k : string) : result string :=
  v <- get (params a) k ;; ToString v.

(** The handler that runs after [beforeRun]; [carContext] is [context.car].
    Console output is not modelled. *)
Definition run (input : value) (context : Context) : result value :=
  let carContext := car context in
  if truthy_text (read carContext entry_error) then
    Ok (VObject
          [("message",
            VString ("An error occurred: " ++ default (read carContext entry_error) ""));
           ("deferred", VBool true)])
  else if default (read carContext (fun c => Some (entry_deferred c))) false then
    Ok (VObject
          [("message",
            VString ("I need human guidance: " ++
                     default (read carContext (fun c => Some (entry_deferReason c))) ""));
           ("explanation", of_text (read carContext entry_explanation))])
  else
  let explanation := of_text (read carContext entry_explanation) in
  match read carContext entry_approvedActions with
  | Some (action :: _) =>
      if String.eqb (Layers.action action) "executeTransaction" then
        to <- param_text action "to" ;;
        value <- param_text action "value" ;;
        Ok (VObject
              [("message",
                VString ("Transaction executed successfully to " ++ to ++
                         " with value " ++ value));
               ("explanation", explanation); ("action", of_action action)])
      else if String.eqb (Layers.action action) "respondToMessage" then
        content <- get (params action) "content" ;;
        Ok (VObject
              [("message", content);
               ("explanation", explanation); ("action", of_action action)])
      else if String.eqb (Layers.action action) "monitorTransaction" then
        txHash <- param_text action "txHash" ;;
        Ok (VObject
              [("message", VString ("Transaction monitoring set up for " ++ txHash));
               ("explanation", explanation); ("action", of_action action)])
      else if String.eqb (Layers.action action) "verifyRecipient" then
        address <- get (params action) "address" ;;
        let isValid := verifyRecipient address in
        text <- ToString address ;;
        if isValid then
          Ok (VObject
                [("message", VString ("Recipient verified: " ++ text));
                 ("explanation", explanation); ("action", of_action action)])
        else
          Ok (VObject
                [("message", VString ("Recipient verification failed: " ++ text));
                 ("explanation", explanation); ("action", of_action action)])
      else
        Ok (VObject
              [("message",
                VString ("Executing unrecognized action: " ++ Layers.action action));
               ("explanation", explanation); ("action", of_action action)])
  | _ =>
      Ok (VObject
            [("message",
              VString "I've processed your request, but no actions were approved. Please provide more information or clarify your request.");
             ("limitations", of_list (read carContext entry_limitations));
             ("uncertainties", of_list (read carContext entry_uncertainties))])
  end.

End WithEngine.

End ExampleAgent.

(** ** A sample engine

    Used to evaluate the model on concrete inputs.  It parses decimal
    notation, rounded to binary64, and prints a number in plain decimal
    notation with at most 20 decimals (not the shortest form that
    round-trips, and no exponent notation); every theorem below that is not
    about one concrete input holds for any engine. *)

Module SampleEngine.
Import JS.

Definition digit_of (base : Z) (c : ascii) : option Z :=
  let n := Z.of_nat (nat_of_ascii c) in
  let d :=
    if ((48 <=? n) && (n <=? 57))%Z then Some (n - 48)%Z
    else if ((97 <=? n) && (n <=? 102))%Z then Some (n - 87)%Z
    else if ((65 <=? n) && (n <=? 70))%Z then Some (n - 55)%Z
    else None in
  match d with
  | Some v => if (v <? base)%Z then Some v else None
  | None => None
  end.

(** Reads the longest prefix of digits: the value read on top of [acc], the
    count of digits on top of [n], and the rest. *)
Fixpoint read_digits (base : Z) (s : string) (acc n : Z) : Z * Z * string :=
  match s with
  | String c rest =>
      match digit_of base c with
      | Some d => read_digits base rest (acc * base + d)%Z (n + 1)%Z
      | None => (acc, n, s)
      end
  | EmptyString => (acc, n, s)
  end.

Definition read_sign (s : string) : bool * string :=
  match s with
  | String "-" rest => (true, rest)
  | String "+" rest => (false, rest)
  | _ => (false, s)
  end.

Definition read_exponent (s : string) : option Z :=
  match s with
  | EmptyString => Some 0%Z
  | String c rest =>
      if Ascii.eqb c "e" || Ascii.eqb c "E" then
        let '(neg, rest) := read_sign rest in
        let '(v, n, rest) := read_digits 10 rest 0 0 in
        if (0 <? n)%Z && String.eqb rest ""
        then Some (if neg then - v else v)%Z else None
      else None
  end.

Definition parse_decimal (s : string) : number :=
  let '(neg, s) := read_sign s in
  if String.eqb s "Infinity" then Inf neg else
  let '(ip, ni, s) := read_digits 10 s 0 0 in
  let '(m, nf, s) :=
    match s with
    | String "." rest => read_digits 10 rest ip 0
    | _ => (ip, 0%Z, s)
    end in
  if (ni + nf =? 0)%Z then NaN else
  match read_exponent s with
  | Some e =>
      let q := (inject_Z m * Qpower (inject_Z 10) (e - nf))%Q in
      round64 (if neg then - q else q)%Q
  | None => NaN
  end.

Definition parse_radix (base : Z) (s : string) : number :=
  let '(v, n, rest) := read_digits base s 0 0 in
  if (0 <? n)%Z && String.eqb rest "" then round64 (inject_Z v) else NaN.

Definition parse (s : string) : number :=
  let s := str_trim s in
  match s with
  | EmptyString => of_Z 0
  | String "0" (String c rest) =>
      if Ascii.eqb c "x" || Ascii.eqb c "X" then parse_radix 16 rest
      else if Ascii.eqb c "o" || Ascii.eqb c "O" then parse_radix 8 rest
      else if Ascii.eqb c "b" || Ascii.eqb c "B" then parse_radix 2 rest
      else parse_decimal s
  | _ => parse_decimal s
  end.

Definition digits (z : Z) : string := NilZero.string_of_uint (N.to_uint (Z.to_N z)).

(** Up to [fuel] decimal places of [num / den], for [0 <= num < den]. *)
Fixpoint frac_digits (fuel : nat) (num den : Z) : string :=
  match fuel with
  | O => ""
  | S fuel' =>
      if (num =? 0)%Z then "" else
      String (ascii_of_nat (48 + Z.to_nat (num * 10 / den)))
        (frac_digits fuel' ((num * 10) mod den)%Z den)
  end.

Definition print (x : number) : string :=
  match x with
  | NaN => "NaN"
  | Inf false => "Infinity"
  | Inf true => "-Infinity"
  | Fin q =>
      let q := Qred q in
      let n := Z.abs (Qnum q) in
      let d := Zpos (Qden q) in
      let body :=
        digits (n / d) ++
        (if (n mod d =? 0)%Z then "" else "." ++ frac_digits 20 (n mod d) d) in
      if (Qnum q <? 0)%Z then "-" ++ body else body
  end.

Fixpoint zeros (n : nat) : string :=
  match n with
  | O => ""
  | S n' => String "0" (zeros n')
  end.

(** [x.toFixed(f)]: the nearest multiple of [10^-f], ties upward in
    magnitude. *)
Definition toFixed (x : number) (f : nat) : string :=
  match x with
  | Fin q =>
      let scale := (10 ^ Z.of_nat f)%Z in
      let n := Qfloor (Qabs q * inject_Z scale + (1 # 2))%Q in
      let fp := digits (n mod scale) in
      let body :=
        digits (n / scale) ++
        (if (f =? 0)%nat then ""
         else "." ++ zeros (f - String.length fp) ++ fp) in
      if (Qnum q <? 0)%Z then "-" ++ body else body
  | _ => print x
  end.

#[export] Instance engine : Engine := {
  Number_toString := print;
  Number_toFixed := toFixed;
  StringToNumber := parse
}.

End SampleEngine.

(** ** A sample host

    Prints values as JSON; strings are quoted with the two-character escapes
    for the quote and the backslash only, which is what the sample inputs
    need. *)

Module SampleHost.
Import JS CarExtension.

Definition quotation_mark : ascii := ascii_of_nat 34.
Definition reverse_solidus : ascii := ascii_of_nat 92.

Fixpoint quote_chars (s : string) : string :=
  match s with
  | EmptyString => EmptyString
  | String c rest =>
      if Ascii.eqb c quotation_mark || Ascii.eqb c reverse_solidus
      then String reverse_solidus (String c (quote_chars rest))
      else String c (quote_chars rest)
  end.

Definition quote (s : string) : string :=
  String quotation_mark (quote_chars s ++ String quotation_mark EmptyString).

Fixpoint stringify (v : value) : option string :=
  match v with
  | VUndefined => None
  | VNull => Some "null"
  | VBool true => Some "true"
  | VBool false => Some "false"
  | VNumber (Fin q) => Some (SampleEngine.print (Fin q))
  | VNumber _ => Some "null"
  | VString s => Some (quote s)
  | VArray l =>
      let fix elements (l : list value) : list string :=
        match l with
        | [] => []
        | x :: rest => default (stringify x) "null" :: elements rest
        end in
      Some ("[" ++ join "," (elements l) ++ "]")
  | VObject o =>
      let fix members (o : object) : list string :=
        match o with
        | [] => []
        | (k, x) :: rest =>
            match stringify x with
            | Some text => (quote k ++ ":" ++ text)%string :: members rest
            | None => members rest
            end
        end in
      Some ("{" ++ join "," (members o) ++ "}")
  end.

#[export] Instance host : Host := {
  JSON_stringify := fun v => default (stringify v) "undefined";
  TypeError_message := "Cannot read properties of undefined"
}.

End SampleHost.

(** ** Sample inputs, used by the closed examples below *)

Module Samples.
Import JS Layers.

(** The transaction scenario: value 1.5, empty call data, chain 1. *)
Definition transaction : value :=
  VObject [("hash", VString "0x1"); ("from", VString "0xA"); ("to", VString "0xB");
           ("value", VNumber (Fin 1.5%Q)); ("data", VString "0x");
           ("chainId", VString "1")].

Definition message : value :=
  VObject [("content", VString "Hello, can you help me with my investment portfolio?")].

Definition unclassifiable : value :=
  VObject [("type", VString "unknown"); ("data", VString "...")].

Definition someOutput : CritiqueOutput :=
  {| confidence := Fin 0.5%Q;
     limitations := ["Ethical constraint: x"];
     uncertainties := ["y"];
     approvedActions := [];
     rejectedActions := Some [];
     explanation := "" |}.

(** A transfer of 2000 to the known scam address. *)
Definition scamTransaction : value :=
  VObject [("hash", VString "0x2"); ("from", VString "0xA");
           ("to", VString "0xknownScamAddress"); ("value", VNumber (Fin 2000%Q));
           ("chainId", VString "1")].

(** A proposal with one approved high-value transaction, one transaction to
    the known scam address and one harmless reply. *)
Definition proposal : ReasonOutput :=
  {| proposedActions :=
       [mkAction "executeTransaction"
          [("to", VString "0xB"); ("value", VNumber (Fin 2000%Q)); ("data", VString "")] "";
        mkAction "executeTransaction"
          [("to", VString "0xknownScamAddress"); ("value", VNumber (Fin 5%Q));
           ("data", VString "")] "";
        mkAction "respondToMessage" [("content", VString "hi")] ""];
     reasoning := "" |}.

(** A reply that carries no content, and a small transfer. *)
Definition replyWithoutContent : Action := mkAction "respondToMessage" [] "".

Definition smallTransfer : Action :=
  mkAction "executeTransaction" [("to", VString "0xB"); ("value", VNumber (Fin 5%Q))] "".

(** A record of no category whose chain id cannot be printed. *)
Definition unprintableChain : value :=
  VObject [("chainId", VObject [("toString", VNumber (of_Z 1))])].

(** A proposal of three high-value transactions. *)
Definition threeTransfers : ReasonOutput :=
  {| proposedActions :=
       [mkAction "executeTransaction" [("to", VString "0xB"); ("value", VNumber (Fin 2000%Q))] "";
        mkAction "executeTransaction" [("to", VString "0xC"); ("value", VNumber (Fin 3000%Q))] "";
        mkAction "executeTransaction" [("to", VString "0xD"); ("value", VNumber (Fin 4000%Q))] ""];
     reasoning := "" |}.

(** A call of a verified contract with a small value, a transfer to a
    listed address, and a deployment whose call data has no recipient. *)
Definition verifiedCall : BlockchainEthics.BlockchainAction :=
  {| BlockchainEthics.action := "callContract";
     BlockchainEthics.params :=
       VObject [("to", VString "0xsafe01"); ("data", VString "0xa9059cbb");
                ("value", VNumber (Fin 5%Q))];
     BlockchainEthics.justification := None |}.

Definition scamTransfer : BlockchainEthics.BlockchainAction :=
  {| BlockchainEthics.action := "transferToken";
     BlockchainEthics.params :=
       VObject [("token", VString "DAI"); ("to", VString "0xanotherScam");
                ("amount", VNumber (Fin 1%Q))];
     BlockchainEthics.justification := None |}.

Definition deployment : BlockchainEthics.BlockchainAction :=
  {| BlockchainEthics.action := "deployContract";
     BlockchainEthics.params :=
       VObject [("bytecode", VString "0x6080"); ("data", VString "0x6080")];
     BlockchainEthics.justification := None |}.

(** [car()] with no option given, and an agent output. *)
Definition defaults : CarExtension.CARExtensionOptions :=
  {| CarExtension.confidenceThreshold := None;
     CarExtension.enableExplanations := None;
     CarExtension.enableDeferral := None;
     CarExtension.logDecisions := None;
     CarExtension.deferralMessage := None |}.

(** The options of the example agent, which passes [true] as the logger. *)
Definition exampleAgent : CarExtension.CARExtensionOptions :=
  {| CarExtension.confidenceThreshold := Some (literal 0.7);
     CarExtension.enableExplanations := Some true;
     CarExtension.enableDeferral := Some true;
     CarExtension.logDecisions := Some (CarExtension.NotAFunction (VBool true));
     CarExtension.deferralMessage := None |}.

Definition agentOutput : value :=
  VObject [("message", VString "Done."); ("status", VString "ok")].

(** The same deployment sent to an address. *)
Definition addressedDeployment : BlockchainEthics.BlockchainAction :=
  {| BlockchainEthics.action := "deployContract";
     BlockchainEthics.params :=
       VObject [("bytecode", VString "0x6080"); ("data", VString "0x6080");
                ("to", VString "0xB")];
     BlockchainEthics.justification := None |}.

End Samples.

(** ** Definitions used to state the properties *)

Import JS.

(** The literal checks of the three sub-tests, as the specification words
    them, on an action whose parameters are a record: an [executeTransaction]
    with negative value, carrying a [force] parameter, or targeting the known
    scam address; a [respondToMessage] whose content contains "mislead",
    "manipulate" or "hate speech". *)
Definition contains (text phrase : string) : Prop :=
  exists before after, text = before ++ phrase ++ after.

Definition negative (v : value) : Prop :=
  v = VNumber (Inf true) \/ exists q, v = VNumber (Fin q) /\ (q < 0)%Q.

Inductive matchesLiteralCheck (a : Layers.Action) : Prop :=
| NegativeValue (ps : object) :
    Layers.action a = "executeTransaction" -> Layers.params a = VObject ps ->
    negative (lookup "value" ps) -> matchesLiteralCheck a
| CarriesForce (ps : object) :
    Layers.action a = "executeTransaction" -> Layers.params a = VObject ps ->
    has_key "force" ps = true -> matchesLiteralCheck a
| TargetsScam (ps : object) :
    Layers.action a = "executeTransaction" -> Layers.params a = VObject ps ->
    lookup "to" ps = VString "0xknownScamAddress" -> matchesLiteralCheck a
| ContentContains (ps : object) (text phrase : string) :
    Layers.action a = "respondToMessage" -> Layers.params a = VObject ps ->
    lookup "content" ps = VString text ->
    In phrase ["mislead"; "manipulate"; "hate speech"] -> contains text phrase ->
    matchesLiteralCheck a.

(** The parameters the checks look at have the types the action's producer
    gives them: the parameters are a record, the value of a transaction is a
    number when present, the content of a reply is a string. *)
Definition wellTyped (a : Layers.Action) : Prop :=
  exists ps, Layers.params a = VObject ps /\
    (Layers.action a = "executeTransaction" ->
     lookup "value" ps = VUndefined \/ exists n, lookup "value" ps = VNumber n) /\
    (Layers.action a = "respondToMessage" ->
     exists text, lookup "content" ps = VString text).

Definition approvedVerdict : Layers.CategoricalImperativeResult :=
  {| Layers.approved := true;
     Layers.reason := "Action passes all three formulations of the categorical imperative" |}.

(** The quantities the confidence formula counts, read off one action. *)
Section CritiqueSpec.
Context {E : Engine}.
Import Layers.

(** The Ethical Evaluator approves [a]. *)
Definition isApproved (a : Action) : bool :=
  match categoricalImperative a with
  | Ok verdict => approved verdict
  | Throw _ => false
  end.

Definition isRejected (a : Action) : bool := negb (isApproved a).

(** The Epistemic Checker flags [a]. *)
Definition isUncertain (a : Action) : bool :=
  match checkEpistemicBoundaries a with
  | Ok flag => uncertain flag
  | Throw _ => false
  end.

(** [a] is an [executeTransaction] whose [params.value] exceeds 1000. *)
Definition isHighValue (a : Action) : bool :=
  match and_then (String.eqb (action a) "executeTransaction")
          (v <- get (params a) "value" ;; gt v (of_Z 1000)) with
  | Ok b => b
  | Throw _ => false
  end.

(** The counts that the confidence depends on. *)
Definition rejectedCount (proposed : list Action) : nat :=
  List.length (filter isRejected proposed).

Definition uncertainCount (proposed : list Action) : nat :=
  List.length (filter isUncertain proposed).

Definition highValueCount (proposed : list Action) : nat :=
  List.length (filter (fun a => isApproved a && isHighValue a) proposed).

(** max(0, 1.0 - 0.2 rejected - 0.1 uncertain - 0.1 approved high-value),
    in exact arithmetic. *)
Definition exact_confidence (rejected uncertain highValue : nat) : Q :=
  Qmax 0 (1 - 0.2 * inject_Z (Z.of_nat rejected) - 0.1 * inject_Z (Z.of_nat uncertain)
          - 0.1 * inject_Z (Z.of_nat highValue))%Q.

(** The same in binary64, every operation rounded: from 1.0, 0.2 times the
    number of rejections is taken off if there is one, then 0.1 times the
    number of uncertainties if there is one, then 0.1 once for each approved
    high-value transaction; the result is not below 0. *)
Definition rounded_steps (rejected uncertain highValue : nat) : number :=
  let c := of_Z 1 in
  let c :=
    if (0 <? rejected)%nat
    then number_sub c (number_mul (literal 0.2) (of_nat rejected)) else c in
  let c :=
    if (0 <? uncertain)%nat
    then number_sub c (number_mul (literal 0.1) (of_nat uncertain)) else c in
  Nat.iter highValue (fun c => number_sub c (literal 0.1)) c.

Definition rounded_confidence (rejected uncertain highValue : nat) : number :=
  number_max (of_Z 0) (rounded_steps rejected uncertain highValue).

(** The formula read as one binary64 expression,
    [Math.max(0, 1.0 - 0.2 * rejected - 0.1 * uncertain - 0.1 * highValue)]. *)
Definition formula64 (rejected uncertain highValue : nat) : number :=
  number_max (of_Z 0)
    (number_sub
       (number_sub
          (number_sub (of_Z 1) (number_mul (literal 0.2) (of_nat rejected)))
          (number_mul (literal 0.1) (of_nat uncertain)))
       (number_mul (literal 0.1) (of_nat highValue))).

(** The rounding error allowed between the code and the exact formula. *)
Definition confidence_tolerance : Q := 1 # (2 ^ 52).

(** [n] is a number that is at most, or at least, [b]. *)
Definition le_num (n : number) (b : Q) : Prop :=
  match n with
  | Fin q => (q <= b)%Q
  | Inf negative => negative = true
  | NaN => False
  end.

Definition ge_num (n : number) (b : Q) : Prop :=
  match n with
  | Fin q => (b <= q)%Q
  | Inf negative => negative = false
  | NaN => False
  end.

(** The counts for which the confidence can be positive are few: they are
    checked one by one. *)
Definition close (rejected uncertain highValue : nat) : bool :=
  match rounded_confidence rejected uncertain highValue with
  | Fin c =>
      Qle_bool (Qabs (c - exact_confidence rejected uncertain highValue))
        confidence_tolerance
  | _ => false
  end.

Definition exhausted (rejected uncertain : nat) : bool :=
  match rounded_steps rejected uncertain 11 with
  | Fin c => Qle_bool c 0
  | Inf negative => negative
  | NaN => false
  end.

End CritiqueSpec.

(** The four strings [generateContextualResponse] can return. *)
Definition responseTemplates : list string :=
  ["Hello! How can I assist you with blockchain or AI tasks?";
   "Let me look that up for you. I'll respond shortly.";
   "I can assist with blockchain transactions. Please provide more details.";
   "Thank you for your message. I'll process it accordingly."].

(** What the pipeline returns for an input it cannot classify, given the
    engine's printing of the confidence. *)
Definition emptyCritique {E : Engine} : Layers.CritiqueOutput :=
  {| Layers.confidence := Fin 1%Q;
     Layers.limitations := [];
     Layers.uncertainties := [];
     Layers.approvedActions := [];
     Layers.rejectedActions := Some [];
     Layers.explanation :=
       "" ++ Layers.nl ++ "" ++ Layers.nl ++ "Confidence: " ++ Number_toString (Fin 1%Q) |}.

(** The fields the Enricher derives, per category. *)
Definition derivedFields (type : string) : list string :=
  if String.eqb type "transaction" then ["transactionType"; "risk"]
  else if String.eqb type "message" then ["intent"; "sentiment"]
  else if String.eqb type "event" then ["eventCategory"]
  else [].

(** Two runs compared: both return, with related results, or both raise the
    same exception. *)
Definition result_rel {A : Type} (R : A -> A -> Prop) (m m' : result A) : Prop :=
  match m, m' with
  | Ok a, Ok a' => R a a'
  | Throw e, Throw e' => e = e'
  | _, _ => False
  end.

(** Records that agree on every field but [timestamp]. *)
Definition same_but_timestamp (o o' : object) : Prop :=
  forall k, k <> "timestamp" -> lookup k o = lookup k o'.

(** Stage outputs that agree on everything but the two time stamps. *)
Definition same_but_time (s s' : Layers.UnderstandingOutput) : Prop :=
  Layers.dataType (Layers.metadata s) = Layers.dataType (Layers.metadata s') /\
  Layers.source (Layers.metadata s) = Layers.source (Layers.metadata s') /\
  same_but_timestamp (Layers.categorizedData s) (Layers.categorizedData s').

(** Parameters with the same name and the same value, except that a
    [context] or [event] parameter may hold records that differ in their
    [timestamp] field. *)
Definition same_param (p p' : string * value) : Prop :=
  fst p = fst p' /\
  (snd p = snd p' \/
   In (fst p) ["context"; "event"] /\
   exists o o', snd p = VObject o /\ snd p' = VObject o' /\ same_but_timestamp o o').

(** Actions that agree on the name, the justification and the parameters,
    up to that time stamp. *)
Definition same_action (a a' : Layers.Action) : Prop :=
  Layers.action a = Layers.action a' /\
  Layers.justification a = Layers.justification a' /\
  (Layers.params a = Layers.params a' \/
   exists ps ps', Layers.params a = VObject ps /\ Layers.params a' = VObject ps' /\
     Forall2 same_param ps ps').

Definition same_proposal (r r' : Layers.ReasonOutput) : Prop :=
  Layers.reasoning r = Layers.reasoning r' /\
  Forall2 same_action (Layers.proposedActions r) (Layers.proposedActions r').

(** Critiques that agree on everything but that time stamp inside the
    listed actions. *)
Definition same_critique (c c' : Layers.CritiqueOutput) : Prop :=
  Layers.confidence c = Layers.confidence c' /\
  Layers.limitations c = Layers.limitations c' /\
  Layers.uncertainties c = Layers.uncertainties c' /\
  Layers.explanation c = Layers.explanation c' /\
  Forall2 same_action (Layers.approvedActions c) (Layers.approvedActions c') /\
  match Layers.rejectedActions c, Layers.rejectedActions c' with
  | Some l, Some l' => Forall2 same_action l l'
  | None, None => True
  | _, _ => False
  end.

(** Loop states of [critiqueLayer] that agree in the same way. *)
Definition same_state (st st' : Layers.CritiqueState) : Prop :=
  Forall2 same_action (Layers.st_approved st) (Layers.st_approved st') /\
  Forall2 same_action (Layers.st_rejected st) (Layers.st_rejected st') /\
  Layers.st_limitations st = Layers.st_limitations st' /\
  Layers.st_uncertainties st = Layers.st_uncertainties st' /\
  Layers.st_explanation st = Layers.st_explanation st'.

(** What one action contributes to the critique's lists and explanation. *)
Section CritiqueLines.
Context {E : Engine}.
Import Layers.

Definition limitationOf (a : Action) : string :=
  match categoricalImperative a with
  | Ok verdict => "Ethical constraint: " ++ reason verdict
  | Throw _ => ""
  end.

Definition uncertaintyOf (a : Action) : string :=
  match checkEpistemicBoundaries a with
  | Ok flag => uncertain_reason flag
  | Throw _ => ""
  end.

Definition explanationLine (a : Action) : string :=
  match categoricalImperative a with
  | Ok verdict =>
      nl ++ (if approved verdict then "Approved: " else "Rejected: ") ++
      action a ++ " - " ++ reason verdict
  | Throw _ => ""
  end.

Fixpoint concatAll (l : list string) : string :=
  match l with
  | [] => ""
  | x :: rest => x ++ concatAll rest
  end.

End CritiqueLines.

(** Proposed actions, as the critique sees them: an action that is approved
    and not flagged, or the one [executeTransaction] of the proposer. *)
Section ProposalShape.
Context {E : Engine}.
Import Layers.

Definition benign (a : Action) : Prop :=
  String.eqb (action a) "executeTransaction" = false /\
  isApproved a = true /\ isUncertain a = false.

Definition proposedTransfer (a : Action) : Prop :=
  exists to value data,
    a = mkAction "executeTransaction" [("to", to); ("value", value); ("data", data)]
          "Transaction parameters validated, value is positive" /\
    gt value (of_Z 0) = Ok true.

Definition scamLimitation : string :=
  "Ethical constraint: Fails kingdom of ends: Supporting scams is incompatible with a moral community".

Definition highValueSentence : string :=
  "High-value transactions exceed confidence boundaries".

End ProposalShape.

(** The parameters [validateActionParams] requires, per action name. *)
Definition requiredParams (name : string) : option (list string) :=
  if String.eqb name "executeTransaction" then Some ["to"]
  else if String.eqb name "deployContract" then Some ["bytecode"]
  else if String.eqb name "callContract" then Some ["to"; "data"]
  else if String.eqb name "signMessage" then Some ["message"]
  else if String.eqb name "approveToken" then Some ["token"; "spender"; "amount"]
  else if String.eqb name "transferToken" then Some ["token"; "to"; "amount"]
  else None.

(** [params.data && params.data.length > 2] *)
Definition hasCallData {E : Engine} (ps : value) : result bool :=
  data <- get ps "data" ;;
  and_then (truthy data) (len <- get data "length" ;; gt len (of_Z 2)).

(** The two action sections of the explanation text. *)
Definition approvedSection (output : Layers.CritiqueOutput) : string :=
  match Layers.approvedActions output with
  | [] => "None"
  | approved =>
      join Layers.nl
        (map (fun a => "- " ++ Layers.action a ++ ": " ++ Layers.justification a) approved)
  end.

Definition rejectedSection (output : Layers.CritiqueOutput) : string :=
  match Layers.rejectedActions output with
  | Some rejected =>
      join Layers.nl
        (map (fun a => "- " ++ Layers.action a ++ ": Rejected due to ethical constraints")
           rejected)
  | None => "None"
  end.

(** A value that is not an array or an object. *)
Definition scalar (v : value) : bool :=
  match v with
  | VArray _ | VObject _ => false
  | _ => true
  end.

(** A string, or a falsy value. *)
Definition textual (v : value) : bool :=
  match v with
  | VString _ => true
  | _ => negb (truthy v)
  end.

(** Raw inputs on which no layer raises: any primitive or array, and any
    record whose fields read as numbers or printed are scalars and whose
    message text is a string when present. *)
Definition wellFormed (raw : value) : bool :=
  match raw with
  | VUndefined | VNull => false
  | VObject o =>
      forallb (fun k => scalar (lookup k o))
        ["from"; "to"; "value"; "data"; "chainId"; "event"] &&
      forallb (fun k => textual (lookup k o)) ["content"; "message"]
  | _ => true
  end.

(** Every evaluator returns on [a]. *)
Definition evaluable {E : Engine} (a : Layers.Action) : Prop :=
  (exists verdict, Layers.categoricalImperative a = Ok verdict) /\
  (exists flag, Layers.checkEpistemicBoundaries a = Ok flag) /\
  (forall c, exists c', Layers.highValueStep c a = Ok c').

(** An action of the pipeline, handed to the monetary evaluator. *)
Definition asBlockchainAction (a : Layers.Action) : BlockchainEthics.BlockchainAction :=
  {| BlockchainEthics.action := Layers.action a;
     BlockchainEthics.params := Layers.params a;
     BlockchainEthics.justification := Some (Layers.justification a) |}.




(** [data.value || 0], the value that [structureData] stores. *)
Definition transferValue (o : object) : value :=
  if truthy (lookup "value" o) then lookup "value" o else VNumber (of_Z 0).

(** * Properties *)

(** ** The result monad *)

Lemma bind_Ok {A B : Type} (m : result A) (f : A -> result B) (b : B) :
  bind m f = Ok b -> exists a, m = Ok a /\ f a = Ok b.
Proof.
  destruct m as [a|e]; simpl; intros H; [eauto | discriminate].
Qed.

Lemma bind_Throw {A B : Type} (m : result A) (f : A -> result B) (e : exn) :
  bind m f = Throw e -> m = Throw e \/ exists a, m = Ok a /\ f a = Throw e.
Proof.
  destruct m as [a|e']; simpl; intros H; [right; eauto | left; congruence].
Qed.

Lemma and_then_false (b : result bool) : and_then false b = Ok false.
Proof. reflexivity. Qed.

(** Splits a hypothesis [x <- m ;; k = Ok b] into its two steps. *)
Ltac bind_inv H :=
  let a := fresh "a" in
  let Ha := fresh "Ha" in
  apply bind_Ok in H; destruct H as [a [Ha H]].

(** ** The Boundary Decider *)

Section BoundaryDecider.
Context {E : Engine}.
Import Layers Pipeline.

Lemma length_pos_nonempty {A : Type} (l : list A) :
  (0 <? List.length l)%nat = true <-> l <> [].
Proof.
  destruct l; simpl; split; intros H; try discriminate; try congruence; auto.
Qed.

Lemma length_zero_empty {A : Type} (l : list A) :
  (0 <? List.length l)%nat = false <-> l = [].
Proof.
  destruct l; simpl; split; intros H; try discriminate; auto.
Qed.

(** C1.  [checkEpistemicBoundaries] of pipeline.ts defers exactly when the
    confidence is below the threshold (the double 0.7 when none is given), or there is
    a limitation, or there is an uncertainty.  The three conditions are
    tried in that order and the reason is the one of the first that holds;
    when none holds the decision is to proceed, "Within epistemic
    boundaries". *)
Theorem boundary_decision_priority (output : CritiqueOutput) (threshold : option number) :
  let t := match threshold with Some t => t | None => literal 0.7 end in
  let d := checkEpistemicBoundaries output threshold in
  (shouldDefer d = true <->
     number_lt (confidence output) t = true \/ limitations output <> [] \/
     uncertainties output <> []) /\
  (number_lt (confidence output) t = true ->
     d = {| shouldDefer := true;
            defer_reason := "Low confidence (" ++ Number_toFixed (confidence output) 2 ++
                            ") below threshold of " ++ Number_toString t |}) /\
  (number_lt (confidence output) t = false -> limitations output <> [] ->
     d = {| shouldDefer := true;
            defer_reason := "Limitations detected: " ++ join ", " (limitations output) |}) /\
  (number_lt (confidence output) t = false -> limitations output = [] ->
   uncertainties output <> [] ->
     d = {| shouldDefer := true;
            defer_reason := "Uncertainties present: " ++ join ", " (uncertainties output) |}) /\
  (number_lt (confidence output) t = false -> limitations output = [] ->
   uncertainties output = [] ->
     d = {| shouldDefer := false; defer_reason := "Within epistemic boundaries" |}).
Proof.
  intros t d. subst d. unfold checkEpistemicBoundaries.
  fold t. unfold defaultConfidenceThreshold.
  replace (match threshold with Some t0 => t0 | None => literal 0.7 end) with t by reflexivity.
  destruct (number_lt (confidence output) t) eqn:Hc.
  - repeat split; simpl; auto; intros; try discriminate.
  - destruct (0 <? List.length (limitations output))%nat eqn:Hl.
    + apply length_pos_nonempty in Hl.
      repeat split; simpl; auto; intros; try discriminate; try contradiction; congruence.
    + apply length_zero_empty in Hl.
      destruct (0 <? List.length (uncertainties output))%nat eqn:Hu.
      * apply length_pos_nonempty in Hu.
        repeat split; simpl; auto; intros; try discriminate; try contradiction; congruence.
      * apply length_zero_empty in Hu.
        repeat split; simpl; auto; intros; try discriminate; try contradiction;
          try congruence.
        destruct H as [H | [H | H]]; [discriminate | congruence | congruence].
Qed.

End BoundaryDecider.

(** ** The Ethical Evaluator *)

Section EthicalEvaluator.
Context {E : Engine}.
Import Layers.

Lemma other_action_passes (a : Action) :
  String.eqb (action a) "executeTransaction" = false ->
  String.eqb (action a) "respondToMessage" = false ->
  universalizabilityTest a = Ok {| passes := true; test_reason := "Action can be universalized" |} /\
  humanityAsEndTest a = Ok {| passes := true; test_reason := "Action respects humanity as an end" |} /\
  kingdomOfEndsTest a =
    Ok {| passes := true; test_reason := "Action is compatible with a moral community" |}.
Proof.
  intros H1 H2.
  unfold universalizabilityTest, humanityAsEndTest, kingdomOfEndsTest.
  rewrite H1, H2. simpl. auto.
Qed.

Lemma prefix_app (p s : string) :
  String.prefix p s = true -> exists post, s = p ++ post.
Proof.
  revert s. induction p as [|c p IH]; intros s H.
  - exists s. reflexivity.
  - destruct s as [|c' s]; [discriminate H|]. simpl in H.
    destruct (Ascii.ascii_dec c c') as [<-|]; [|discriminate H].
    destruct (IH s H) as [post ->]. exists post. reflexivity.
Qed.

Lemma str_includes_contains (s phrase : string) :
  str_includes s phrase = true -> contains s phrase.
Proof.
  induction s as [|c s IH]; intros H.
  - destruct phrase; [|discriminate H]. exists "", "". reflexivity.
  - cbn [str_includes] in H. apply orb_true_iff in H. destruct H as [H|H].
    + destruct (prefix_app _ _ H) as [post Hpost]. exists "", post. exact Hpost.
    + destruct (IH H) as [before [after ->]]. exists (String c before), after. reflexivity.
Qed.

Lemma lookup_absent (k : string) (o : object) :
  has_key k o = false -> lookup k o = VUndefined.
Proof.
  induction o as [|[k' v] o IH]; simpl; [reflexivity|].
  destruct (String.eqb k k'); simpl; [discriminate | exact IH].
Qed.

Lemma not_negative (n : number) :
  ~ negative (VNumber n) -> number_lt n (of_Z 0) = false.
Proof.
  intros Hn. destruct n as [|[]|q]; try reflexivity.
  - exfalso. apply Hn. left. reflexivity.
  - unfold number_lt, of_Z. apply negb_false_iff. apply Qle_bool_iff.
    destruct (Qlt_le_dec q (inject_Z 0)) as [Hlt|Hle]; [|exact Hle].
    exfalso. apply Hn. right. exists q. split; [reflexivity | exact Hlt].
Qed.

(** C3.  The Ethical Evaluator runs universalizability, humanity-as-end and
    kingdom-of-ends in that order and stops at the first failing sub-test,
    reporting that sub-test's reason under its formulation; when all three
    pass the verdict is the fixed approval; and a sub-test that raises makes
    the evaluator raise, later sub-tests not being run.  An action whose
    name is neither [executeTransaction] nor [respondToMessage] is approved
    whatever its parameters are; a well-typed action that none of the
    literal checks matches is approved. *)
Theorem ethical_evaluator_first_failure (a : Action) :
  (forall u, universalizabilityTest a = Ok u -> passes u = false ->
     categoricalImperative a =
       Ok {| approved := false;
             reason := "Fails universalizability: " ++ test_reason u |}) /\
  (forall u h, universalizabilityTest a = Ok u -> passes u = true ->
     humanityAsEndTest a = Ok h -> passes h = false ->
     categoricalImperative a =
       Ok {| approved := false; reason := "Fails humanity as end: " ++ test_reason h |}) /\
  (forall u h k, universalizabilityTest a = Ok u -> passes u = true ->
     humanityAsEndTest a = Ok h -> passes h = true ->
     kingdomOfEndsTest a = Ok k -> passes k = false ->
     categoricalImperative a =
       Ok {| approved := false; reason := "Fails kingdom of ends: " ++ test_reason k |}) /\
  (forall u h k, universalizabilityTest a = Ok u -> passes u = true ->
     humanityAsEndTest a = Ok h -> passes h = true ->
     kingdomOfEndsTest a = Ok k -> passes k = true ->
     categoricalImperative a = Ok approvedVerdict) /\
  (forall e, universalizabilityTest a = Throw e -> categoricalImperative a = Throw e) /\
  (forall u e, universalizabilityTest a = Ok u -> passes u = true ->
     humanityAsEndTest a = Throw e -> categoricalImperative a = Throw e) /\
  (forall u h e, universalizabilityTest a = Ok u -> passes u = true ->
     humanityAsEndTest a = Ok h -> passes h = true ->
     kingdomOfEndsTest a = Throw e -> categoricalImperative a = Throw e) /\
  (action a <> "executeTransaction" -> action a <> "respondToMessage" ->
     categoricalImperative a = Ok approvedVerdict) /\
  (wellTyped a -> ~ matchesLiteralCheck a ->
     categoricalImperative a = Ok approvedVerdict).
Proof.
  assert (Hother : action a <> "executeTransaction" -> action a <> "respondToMessage" ->
                   categoricalImperative a = Ok approvedVerdict).
  { intros Hx Hr.
    apply String.eqb_neq in Hx. apply String.eqb_neq in Hr.
    destruct (other_action_passes a Hx Hr) as [Hu [Hh Hk]].
    unfold categoricalImperative. rewrite Hu. simpl. rewrite Hh. simpl. rewrite Hk.
    reflexivity. }
  repeat split.
  - intros u Hu Hp. unfold categoricalImperative. rewrite Hu. simpl. rewrite Hp. reflexivity.
  - intros u h Hu Hpu Hh Hph. unfold categoricalImperative.
    rewrite Hu. simpl. rewrite Hpu. simpl. rewrite Hh. simpl. rewrite Hph. reflexivity.
  - intros u h k Hu Hpu Hh Hph Hk Hpk. unfold categoricalImperative.
    rewrite Hu. simpl. rewrite Hpu. simpl. rewrite Hh. simpl. rewrite Hph. simpl.
    rewrite Hk. simpl. rewrite Hpk. reflexivity.
  - intros u h k Hu Hpu Hh Hph Hk Hpk. unfold categoricalImperative.
    rewrite Hu. simpl. rewrite Hpu. simpl. rewrite Hh. simpl. rewrite Hph. simpl.
    rewrite Hk. simpl. rewrite Hpk. reflexivity.
  - intros e He. unfold categoricalImperative. rewrite He. reflexivity.
  - intros u e Hu Hpu He. unfold categoricalImperative.
    rewrite Hu. simpl. rewrite Hpu. simpl. rewrite He. reflexivity.
  - intros u h e Hu Hpu Hh Hph He. unfold categoricalImperative.
    rewrite Hu. simpl. rewrite Hpu. simpl. rewrite Hh. simpl. rewrite Hph. simpl.
    rewrite He. reflexivity.
  - exact Hother.
  - intros (ps & Hps & Hvalue & Hcontent) Hnone.
    destruct (String.eqb (action a) "executeTransaction") eqn:Hx.
    + apply String.eqb_eq in Hx.
      assert (Hlt : lt (lookup "value" ps) (of_Z 0) = Ok false).
      { destruct (Hvalue Hx) as [Hv | [n Hv]].
        - rewrite Hv. reflexivity.
        - rewrite Hv. unfold lt. cbn [ToNumber bind]. f_equal.
          apply not_negative. intros Hneg. apply Hnone.
          apply (NegativeValue a ps Hx Hps). rewrite Hv. exact Hneg. }
      assert (Hforce : truthy (lookup "force" ps) = false).
      { destruct (has_key "force" ps) eqn:Hk.
        - exfalso. apply Hnone. exact (CarriesForce a ps Hx Hps Hk).
        - rewrite (lookup_absent _ _ Hk). reflexivity. }
      assert (Hto : strict_eq_str (lookup "to" ps) "0xknownScamAddress" = false).
      { destruct (strict_eq_str (lookup "to" ps) "0xknownScamAddress") eqn:Hs;
          [|reflexivity].
        exfalso. apply Hnone. apply (TargetsScam a ps Hx Hps).
        destruct (lookup "to" ps); try discriminate Hs.
        simpl in Hs. apply String.eqb_eq in Hs. subst. reflexivity. }
      unfold categoricalImperative, universalizabilityTest, humanityAsEndTest,
        kingdomOfEndsTest.
      rewrite Hx, Hps. cbn [String.eqb Ascii.eqb Bool.eqb and_then get bind].
      rewrite Hlt. cbn [bind negb passes]. rewrite Hforce. cbn [bind negb passes].
      rewrite Hto. reflexivity.
    + apply String.eqb_neq in Hx.
      destruct (String.eqb (action a) "respondToMessage") eqn:Hr;
        [|apply String.eqb_neq in Hr; exact (Hother Hx Hr)].
      apply String.eqb_eq in Hr. destruct (Hcontent Hr) as [text Htext].
      assert (Hphrase : forall phrase,
                In phrase ["mislead"; "manipulate"; "hate speech"] ->
                content_includes a phrase = Ok false).
      { intros phrase Hin. unfold content_includes. rewrite Hps. cbn [get bind].
        rewrite Htext. cbn [call_includes]. f_equal.
        destruct (str_includes text phrase) eqn:Hs; [|reflexivity].
        exfalso. apply Hnone.
        exact (ContentContains a ps text phrase Hr Hps Htext Hin
                 (str_includes_contains _ _ Hs)). }
      unfold categoricalImperative, universalizabilityTest, humanityAsEndTest,
        kingdomOfEndsTest.
      rewrite Hr. cbn [String.eqb Ascii.eqb Bool.eqb and_then bind].
      rewrite (Hphrase "mislead" ltac:(simpl; auto)). cbn [bind negb passes].
      rewrite (Hphrase "manipulate" ltac:(simpl; auto)). cbn [bind negb passes].
      rewrite (Hphrase "hate speech" ltac:(simpl; auto)). reflexivity.
Qed.

End EthicalEvaluator.

Lemma ethical_evaluator_first_failure_witness :
  wellTyped Samples.smallTransfer /\
  ~ matchesLiteralCheck Samples.smallTransfer /\
  Layers.categoricalImperative (E := SampleEngine.engine) Samples.smallTransfer =
    Ok approvedVerdict.
Proof.
  assert (Htyped : wellTyped Samples.smallTransfer).
  { eexists. split; [reflexivity|]. split.
    - intros _. right. eexists. reflexivity.
    - intros H. discriminate H. }
  assert (Hnone : ~ matchesLiteralCheck Samples.smallTransfer).
  { intros [ps Hname Hps Hneg | ps Hname Hps Hforce | ps Hname Hps Hto
           | ps text phrase Hname _ _ _ _]; try discriminate Hname;
      injection Hps as <-.
    - destruct Hneg as [Hinf | [q [Hq Hlt]]]; [discriminate Hinf|].
      simpl in Hq. injection Hq as <-. discriminate Hlt.
    - discriminate Hforce.
    - discriminate Hto. }
  split; [exact Htyped|]. split; [exact Hnone|].
  apply (ethical_evaluator_first_failure (E := SampleEngine.engine) Samples.smallTransfer);
    assumption.
Defined.

(** C3 as the claim states it fails: a [respondToMessage] that carries no
    [content] is matched by none of the literal checks, yet the evaluator
    does not approve it; the first sub-test raises a TypeError, since
    [undefined] has no [includes]. *)
Lemma ethical_evaluator_counterexample :
  ~ matchesLiteralCheck Samples.replyWithoutContent /\
  Layers.universalizabilityTest (E := SampleEngine.engine) Samples.replyWithoutContent =
    Throw TypeError /\
  Layers.categoricalImperative (E := SampleEngine.engine) Samples.replyWithoutContent =
    Throw TypeError.
Proof.
  split; [|split; reflexivity].
  intros [ps Hname _ _ | ps Hname _ _ | ps Hname _ _
         | ps text phrase _ Hps Htext _ _]; try discriminate Hname.
  injection Hps as <-. discriminate Htext.
Qed.

(** ** Rounding to binary64 *)

Section Rounding.
Open Scope Z_scope.

Lemma rne_le (n d N : Z) : 0 < d -> n <= N * d -> rne n d <= N.
Proof.
  intros Hd Hn. unfold rne.
  pose proof (Z.div_mod n d ltac:(lia)) as Hdm.
  pose proof (Z.mod_pos_bound n d Hd) as Hr.
  assert (Hq : n / d <= N) by (apply Z.div_le_upper_bound; lia).
  assert (Hlt : n / d < N \/ (n / d = N /\ n mod d = 0)).
  { destruct (Z.eq_dec (n / d) N) as [Heq|Hne]; [right | left; lia].
    split; [exact Heq|]. rewrite Heq in Hdm. replace (N * d)%Z with (d * N)%Z in Hn by ring. lia. }
  destruct Hlt as [Hlt | [Heq H0]].
  - destruct (2 * (n mod d) ?= d); [destruct (Z.even (n / d))| |]; lia.
  - rewrite H0, Z.mul_0_r. destruct (0 ?= d) eqn:Hc.
    + apply Z.compare_eq in Hc. lia.
    + lia.
    + apply Z.compare_gt_iff in Hc. lia.
Qed.

Lemma rne_ge (n d N : Z) : 0 < d -> N * d <= n -> N <= rne n d.
Proof.
  intros Hd Hn. unfold rne.
  assert (Hq : N <= n / d) by (apply Z.div_le_lower_bound; lia).
  destruct (2 * (n mod d) ?= d); [destruct (Z.even (n / d))| |]; lia.
Qed.

Lemma ilog2_le (n d : Z) : 0 < n -> n <= d -> ilog2 n d <= 0.
Proof.
  intros Hn Hd. unfold ilog2.
  pose proof (Z.log2_le_mono n d Hd) as Hl.
  destruct (0 <=? Z.log2 n - Z.log2 d) eqn:Hk.
  - apply Z.leb_le in Hk. destruct (_ <=? n); lia.
  - apply Z.leb_gt in Hk. destruct (_ <=? _); lia.
Qed.

Lemma ilog2_lower (n d : Z) :
  0 < n -> 0 < d -> 0 <= ilog2 n d -> d * 2 ^ ilog2 n d <= n.
Proof.
  intros Hn Hd. unfold ilog2.
  pose proof (Z.log2_spec n Hn) as [Hn1 _].
  pose proof (Z.log2_spec d Hd) as [_ Hd2].
  pose proof (Z.log2_nonneg n). pose proof (Z.log2_nonneg d).
  set (k := Z.log2 n - Z.log2 d) in *.
  destruct (0 <=? k) eqn:Hk.
  - apply Z.leb_le in Hk.
    destruct (d * 2 ^ k <=? n) eqn:Hc; intros Hi.
    + apply Z.leb_le in Hc. exact Hc.
    + assert (Hpow : 2 ^ Z.succ (Z.log2 d) * 2 ^ (k - 1) = 2 ^ Z.log2 n).
      { rewrite <- Z.pow_add_r by lia. f_equal. unfold k. lia. }
      assert (0 < 2 ^ (k - 1)) by (apply Z.pow_pos_nonneg; lia).
      nia.
  - apply Z.leb_gt in Hk. destruct (_ <=? _); intros; lia.
Qed.

Close Scope Z_scope.

Lemma of_binary_le (negative : bool) (m e : Z) (b : Z) :
  (0 <= m)%Z -> (0 <= b)%Z ->
  (negative = true \/ ((e < 0)%Z /\ (m <= b * 2 ^ (- e))%Z)) ->
  le_num (of_binary negative (m, e)) (inject_Z b).
Proof.
  intros Hm Hb H. unfold of_binary.
  assert (Hpow : (0 <= e -> 0 < 2 ^ e)%Z) by (intros; apply Z.pow_pos_nonneg; lia).
  destruct (0 <=? e)%Z eqn:He.
  - apply Z.leb_le in He. destruct H as [-> | [Hlt _]]; [|lia].
    destruct (2 ^ 1024 <=? m * 2 ^ e)%Z; cbv beta iota delta [le_num]; [reflexivity|].
    rewrite <- Zle_Qle. specialize (Hpow He).
    assert (0 <= m * 2 ^ e)%Z by (apply Z.mul_nonneg_nonneg; lia). lia.
  - apply Z.leb_gt in He. cbv beta iota delta [le_num].
    assert (Hp : (0 < 2 ^ (- e))%Z) by (apply Z.pow_pos_nonneg; lia).
    rewrite Qred_correct. unfold Qle. cbn [Qnum Qden inject_Z].
    rewrite Z2Pos.id by exact Hp.
    assert (0 <= b * 2 ^ (- e))%Z by (apply Z.mul_nonneg_nonneg; lia).
    destruct H as [-> | [_ Hle]]; [|destruct negative]; lia.
Qed.

Lemma of_binary_ge (negative : bool) (m e : Z) (b : Z) :
  (0 <= m)%Z -> (0 <= b)%Z -> negative = false ->
  ((0 <= e)%Z /\ (b <= m)%Z \/ ((e < 0)%Z /\ (b * 2 ^ (- e) <= m)%Z)) ->
  ge_num (of_binary negative (m, e)) (inject_Z b).
Proof.
  intros Hm Hb -> H. unfold of_binary.
  destruct (0 <=? e)%Z eqn:He.
  - apply Z.leb_le in He. destruct H as [[_ Hle] | [Hlt _]]; [|lia].
    assert (Hpow : (0 < 2 ^ e)%Z) by (apply Z.pow_pos_nonneg; lia).
    destruct (2 ^ 1024 <=? m * 2 ^ e)%Z; cbv beta iota delta [ge_num]; [reflexivity|].
    rewrite <- Zle_Qle.
    assert (m * 1 <= m * 2 ^ e)%Z by (apply Z.mul_le_mono_nonneg_l; lia). lia.
  - apply Z.leb_gt in He. cbv beta iota delta [ge_num].
    assert (Hp : (0 < 2 ^ (- e))%Z) by (apply Z.pow_pos_nonneg; lia).
    rewrite Qred_correct. unfold Qle. cbn [Qnum Qden inject_Z].
    rewrite Z2Pos.id by exact Hp.
    destruct H as [[Hle _] | [_ Hle]]; lia.
Qed.

Lemma nearest_nonneg (n d : Z) : (0 < n)%Z -> (0 < d)%Z -> (0 <= fst (nearest n d))%Z.
Proof.
  intros Hn Hd. unfold nearest. cbn [fst].
  destruct (0 <=? _)%Z eqn:He.
  - apply Z.leb_le in He. apply rne_ge; [|lia].
    assert (0 < 2 ^ Z.max (ilog2 n d - 52) (-1074))%Z by (apply Z.pow_pos_nonneg; lia). nia.
  - apply Z.leb_gt in He. apply rne_ge; [lia|].
    assert (0 < 2 ^ (- Z.max (ilog2 n d - 52) (-1074)))%Z by (apply Z.pow_pos_nonneg; lia).
    nia.
Qed.

Lemma round64_le0 (x : Q) : (x <= 0)%Q -> le_num (round64 x) 0.
Proof.
  intros Hx. unfold round64. destruct x as [[|n|n] d]; cbn [Qnum Qden].
  - simpl. apply Qle_refl.
  - exfalso. unfold Qle in Hx. simpl in Hx. lia.
  - pose proof (nearest_nonneg (Zpos n) (Zpos d) ltac:(lia) ltac:(lia)) as Hm.
    destruct (nearest (Zpos n) (Zpos d)) as [m e]. cbn [fst] in Hm.
    apply (of_binary_le true m e 0 Hm); [lia | left; reflexivity].
Qed.

Lemma round64_ge0 (x : Q) : (0 <= x)%Q -> ge_num (round64 x) 0.
Proof.
  intros Hx. unfold round64. destruct x as [[|n|n] d]; cbn [Qnum Qden].
  - simpl. apply Qle_refl.
  - pose proof (nearest_nonneg (Zpos n) (Zpos d) ltac:(lia) ltac:(lia)) as Hm.
    destruct (nearest (Zpos n) (Zpos d)) as [m e]. cbn [fst] in Hm.
    apply (of_binary_ge false m e 0 Hm); [lia | reflexivity |].
    destruct (Z_lt_le_dec e 0); [right | left]; lia.
  - exfalso. unfold Qle in Hx. simpl in Hx. lia.
Qed.

Lemma round64_le1 (x : Q) : (x <= 1)%Q -> le_num (round64 x) 1.
Proof.
  intros Hx. unfold round64. destruct x as [[|n|n] d]; cbn [Qnum Qden].
  - simpl. discriminate.
  - unfold Qle in Hx. simpl in Hx.
    pose proof (ilog2_le (Zpos n) (Zpos d) ltac:(lia) ltac:(lia)) as Hi.
    pose proof (nearest_nonneg (Zpos n) (Zpos d) ltac:(lia) ltac:(lia)) as Hm.
    unfold nearest in *. cbn [fst] in Hm.
    set (e := Z.max (ilog2 (Zpos n) (Zpos d) - 52) (-1074)) in *.
    assert (He : (e < 0)%Z) by lia.
    assert (Hb : (0 <=? e)%Z = false) by (apply Z.leb_gt; exact He).
    rewrite Hb in *.
    apply (of_binary_le false _ e 1 Hm); [lia|]. right. split; [exact He|].
    apply rne_le; [lia|].
    assert (0 < 2 ^ (- e))%Z by (apply Z.pow_pos_nonneg; lia). nia.
  - pose proof (nearest_nonneg (Zpos n) (Zpos d) ltac:(lia) ltac:(lia)) as Hm.
    destruct (nearest (Zpos n) (Zpos d)) as [m e]. cbn [fst] in Hm.
    apply (of_binary_le true m e 1 Hm); [lia | left; reflexivity].
Qed.

Lemma round64_ge1 (x : Q) : (1 <= x)%Q -> ge_num (round64 x) 1.
Proof.
  intros Hx. unfold round64. destruct x as [[|n|n] d]; cbn [Qnum Qden];
    unfold Qle in Hx; simpl in Hx; try lia.
  pose proof (nearest_nonneg (Zpos n) (Zpos d) ltac:(lia) ltac:(lia)) as Hm.
  pose proof (ilog2_lower (Zpos n) (Zpos d) ltac:(lia) ltac:(lia)) as Hlow.
  unfold nearest in *. cbn [fst] in Hm.
  set (e := Z.max (ilog2 (Zpos n) (Zpos d) - 52) (-1074)) in *.
  destruct (0 <=? e)%Z eqn:Hb.
  - apply Z.leb_le in Hb.
    apply (of_binary_ge false _ e 1 Hm); [lia | reflexivity|]. left. split; [exact Hb|].
    apply rne_ge.
    + assert (0 < 2 ^ e)%Z by (apply Z.pow_pos_nonneg; lia). nia.
    + assert (Hi : (0 <= ilog2 (Zpos n) (Zpos d))%Z) by lia.
      specialize (Hlow Hi).
      assert (He : e = (ilog2 (Zpos n) (Zpos d) - 52)%Z) by lia.
      assert (Hle : (2 ^ e <= 2 ^ ilog2 (Zpos n) (Zpos d))%Z)
        by (apply Z.pow_le_mono_r; lia).
      nia.
  - apply Z.leb_gt in Hb.
    apply (of_binary_ge false _ e 1 Hm); [lia | reflexivity|]. right. split; [exact Hb|].
    apply rne_ge; [lia|].
    assert (0 < 2 ^ (- e))%Z by (apply Z.pow_pos_nonneg; lia). nia.
Qed.

End Rounding.

(** ** The Critique Aggregator *)

Section CritiqueAggregator.
Context {E : Engine}.
Import Layers.

(** One pass of the loop body: the action goes to exactly one of the two
    lists, a rejection adds one limitation, a flag adds one uncertainty. *)
Lemma critiqueStep_Ok (st st' : CritiqueState) (a : Action) :
  critiqueStep st a = Ok st' ->
  st_approved st' = (st_approved st ++ filter isApproved [a])%list /\
  st_rejected st' = (st_rejected st ++ filter isRejected [a])%list /\
  List.length (st_limitations st') =
    (List.length (st_limitations st) + List.length (filter isRejected [a]))%nat /\
  List.length (st_uncertainties st') =
    (List.length (st_uncertainties st) + List.length (filter isUncertain [a]))%nat.
Proof.
  unfold critiqueStep. intros H.
  apply bind_Ok in H. destruct H as [verdict [Hv H]].
  apply bind_Ok in H. destruct H as [flag [Hf H]].
  injection H as H. subst st'.
  unfold isRejected, isApproved, isUncertain. simpl filter. rewrite Hv, Hf.
  destruct (approved verdict), (uncertain flag); simpl;
    rewrite ?app_nil_r, ?length_app; simpl; repeat split; lia.
Qed.

Lemma critiqueLoop_Ok (actions : list Action) : forall st st',
  critiqueLoop actions st = Ok st' ->
  st_approved st' = (st_approved st ++ filter isApproved actions)%list /\
  st_rejected st' = (st_rejected st ++ filter isRejected actions)%list /\
  List.length (st_limitations st') =
    (List.length (st_limitations st) + List.length (filter isRejected actions))%nat /\
  List.length (st_uncertainties st') =
    (List.length (st_uncertainties st) + List.length (filter isUncertain actions))%nat.
Proof.
  induction actions as [|a rest IH]; intros st st' H; simpl in H.
  - injection H as H. subst st'. simpl. rewrite !app_nil_r. repeat split; lia.
  - apply bind_Ok in H. destruct H as [st1 [Hstep H]].
    apply critiqueStep_Ok in Hstep. destruct Hstep as [Ha [Hr [Hl Hu]]].
    apply IH in H. destruct H as [Ha' [Hr' [Hl' Hu']]].
    rewrite Ha', Hr', Hl', Hu', Ha, Hr, Hl, Hu.
    change (a :: rest) with ([a] ++ rest)%list.
    rewrite !filter_app, !length_app. rewrite <- !app_assoc.
    repeat split; lia.
Qed.

Lemma iter_succ_r {A : Type} (f : A -> A) (n : nat) (x : A) :
  Nat.iter (S n) f x = Nat.iter n f (f x).
Proof.
  induction n as [|n IH]; [reflexivity|].
  change (Nat.iter (S (S n)) f x) with (f (Nat.iter (S n) f x)).
  rewrite IH. reflexivity.
Qed.

Lemma iter_add {A : Type} (f : A -> A) (n m : nat) (x : A) :
  Nat.iter (n + m) f x = Nat.iter n f (Nat.iter m f x).
Proof.
  induction n as [|n IH]; [reflexivity|]. simpl. rewrite IH. reflexivity.
Qed.

(** [approved.forEach]: 0.1 is taken off once for every high-value
    transaction. *)
Lemma forEach_Ok (l : list Action) : forall c c',
  forEach l c = Ok c' ->
  c' = Nat.iter (List.length (filter isHighValue l))
         (fun c => number_sub c (literal 0.1)) c.
Proof.
  induction l as [|a rest IH]; intros c c' H; simpl in H.
  - injection H as <-. reflexivity.
  - apply bind_Ok in H. destruct H as [c1 [Hstep H]].
    apply IH in H. subst c'.
    unfold highValueStep in Hstep.
    apply bind_Ok in Hstep. destruct Hstep as [b [Hb Hstep]].
    injection Hstep as <-.
    simpl filter. unfold isHighValue at 2. rewrite Hb.
    destruct b; [|reflexivity].
    cbn [List.length]. rewrite iter_succ_r. reflexivity.
Qed.

Lemma calculateConfidence_Ok approved rejected (uncertainties : list string) conf :
  calculateConfidence approved rejected uncertainties = Ok conf ->
  conf = rounded_confidence (List.length rejected) (List.length uncertainties)
           (List.length (filter isHighValue approved)).
Proof.
  unfold calculateConfidence. intros H.
  apply bind_Ok in H. destruct H as [c [Hc H]].
  injection H as <-.
  apply forEach_Ok in Hc. subst c. reflexivity.
Qed.

Lemma filter_filter {A : Type} (p q : A -> bool) (l : list A) :
  filter q (filter p l) = filter (fun x => p x && q x) l.
Proof.
  induction l as [|x l IH]; simpl; [reflexivity|].
  destruct (p x); simpl; [destruct (q x)|]; rewrite IH; reflexivity.
Qed.

(** *** The arithmetic *)

Lemma literal_tenth : literal 0.1 = Fin (3602879701896397 # 36028797018963968).
Proof. vm_compute. reflexivity. Qed.

Lemma literal_fifth : literal 0.2 = Fin (3602879701896397 # 18014398509481984).
Proof. vm_compute. reflexivity. Qed.

Lemma of_nat_nonneg (n : nat) : (0 <= inject_Z (Z.of_nat n))%Q.
Proof. change 0%Q with (inject_Z 0). rewrite <- Zle_Qle. lia. Qed.

Lemma of_nat_ge (n m : nat) : (m <= n)%nat -> (inject_Z (Z.of_nat m) <= inject_Z (Z.of_nat n))%Q.
Proof. intros H. rewrite <- Zle_Qle. lia. Qed.

Lemma sub_le (a b : number) (B : Q) :
  (forall x, (x <= B)%Q -> le_num (round64 x) B) ->
  le_num a B -> ge_num b 0 -> le_num (number_sub a b) B.
Proof.
  intros Hround Ha Hb.
  destruct a as [|s|x], b as [|s'|y]; simpl in *; try contradiction; subst; try reflexivity.
  apply Hround. lra.
Qed.

Lemma sub_le0_of_ge1 (a b : number) :
  le_num a 1 -> ge_num b 1 -> le_num (number_sub a b) 0.
Proof.
  intros Ha Hb.
  destruct a as [|s|x], b as [|s'|y]; simpl in *; try contradiction; subst; try reflexivity.
  apply round64_le0. lra.
Qed.

Lemma mul_ge0 (p : Q) (n : nat) :
  (0 <= p)%Q -> ge_num (number_mul (Fin p) (of_nat n)) 0.
Proof.
  intros Hp. unfold of_nat. cbn [number_mul]. apply round64_ge0.
  apply Qmult_le_0_compat; [exact Hp | apply of_nat_nonneg].
Qed.

Lemma mul_ge1 (p : Q) (n m : nat) :
  (0 <= p)%Q -> (1 <= p * inject_Z (Z.of_nat m))%Q -> (m <= n)%nat ->
  ge_num (number_mul (Fin p) (of_nat n)) 1.
Proof.
  intros Hp Hm Hn. unfold of_nat. cbn [number_mul]. apply round64_ge1.
  apply (Qle_trans _ _ _ Hm). rewrite !(Qmult_comm p).
  apply Qmult_le_compat_r; [apply of_nat_ge; exact Hn | exact Hp].
Qed.

Lemma tenth_ge0 : ge_num (literal 0.1) 0.
Proof. rewrite literal_tenth. simpl. discriminate. Qed.

Lemma iter_le (B : Q) (n : nat) (c : number) :
  (forall x, (x <= B)%Q -> le_num (round64 x) B) ->
  le_num c B -> le_num (Nat.iter n (fun c => number_sub c (literal 0.1)) c) B.
Proof.
  intros Hround Hc. induction n as [|n IH]; [exact Hc|].
  simpl. apply sub_le; [exact Hround | exact IH | apply tenth_ge0].
Qed.

(** Before the floor is applied, the value is at most 1. *)
Lemma rounded_steps_le1 (r u h : nat) : le_num (rounded_steps r u h) 1.
Proof.
  unfold rounded_steps. cbv zeta.
  apply iter_le; [exact round64_le1|].
  assert (H1 : le_num (of_Z 1) 1) by (simpl; apply Qle_refl).
  assert (Hr : le_num (if (0 <? r)%nat
                       then number_sub (of_Z 1) (number_mul (literal 0.2) (of_nat r))
                       else of_Z 1) 1).
  { destruct (0 <? r)%nat; [|exact H1].
    apply sub_le; [exact round64_le1 | exact H1|].
    rewrite literal_fifth. apply mul_ge0. discriminate. }
  destruct (0 <? u)%nat; [|exact Hr].
  apply sub_le; [exact round64_le1 | exact Hr|].
  rewrite literal_tenth. apply mul_ge0. discriminate.
Qed.

Lemma max_of_le (c : number) (B : Q) :
  le_num c B -> (0 <= B)%Q ->
  exists q, number_max (of_Z 0) c = Fin q /\ (0 <= q <= B)%Q /\
    ((B <= 0)%Q -> q = 0%Q).
Proof.
  intros Hc HB. destruct c as [|s|x]; simpl in Hc; [contradiction | subst |].
  - exists 0%Q. split; [reflexivity|]. split; [split; [apply Qle_refl | exact HB] | auto].
  - unfold number_max, number_lt, of_Z.
    destruct (Qle_bool x (inject_Z 0)) eqn:Hx; cbn [negb].
    + exists 0%Q. split; [reflexivity|].
      split; [split; [apply Qle_refl | exact HB] | auto].
    + exists x. split; [reflexivity|].
      assert (Hpos : ~ (x <= 0)%Q).
      { intros Hle. apply Qle_bool_iff in Hle. change (inject_Z 0) with 0%Q in Hx.
        rewrite Hle in Hx. discriminate Hx. }
      split; [split; [lra | exact Hc]|]. intros HB0. exfalso. apply Hpos. lra.
Qed.

(** The confidence for any counts lies in [0, 1]. *)
Lemma rounded_confidence_bounds (r u h : nat) :
  exists c, rounded_confidence r u h = Fin c /\ (0 <= c <= 1)%Q.
Proof.
  destruct (max_of_le _ 1 (rounded_steps_le1 r u h) ltac:(discriminate)) as [q [Hq [Hb _]]].
  exists q. split; assumption.
Qed.

Lemma exact_zero (r u h : nat) :
  (1 <= 0.2 * inject_Z (Z.of_nat r) + 0.1 * inject_Z (Z.of_nat u)
        + 0.1 * inject_Z (Z.of_nat h))%Q ->
  (exact_confidence r u h == 0)%Q.
Proof.
  intros H. unfold exact_confidence. apply Q.max_l. lra.
Qed.

Lemma confidence_zero (r u h : nat) :
  le_num (rounded_steps r u h) 0 ->
  (1 <= 0.2 * inject_Z (Z.of_nat r) + 0.1 * inject_Z (Z.of_nat u)
        + 0.1 * inject_Z (Z.of_nat h))%Q ->
  exists c, rounded_confidence r u h = Fin c /\
    (Qabs (c - exact_confidence r u h) <= confidence_tolerance)%Q.
Proof.
  intros Hle Hexact.
  destruct (max_of_le _ 0 Hle ltac:(apply Qle_refl)) as [q [Hq [_ H0]]].
  exists q. split; [exact Hq|].
  rewrite (H0 ltac:(apply Qle_refl)), (exact_zero r u h Hexact).
  vm_compute. discriminate.
Qed.

Lemma small_counts :
  forallb (fun r =>
    forallb (fun u =>
      exhausted r u && forallb (fun h => close r u h) (seq 0 12))
      (seq 0 11))
    (seq 0 6) = true.
Proof. vm_compute. reflexivity. Qed.

Lemma forallb_seq (f : nat -> bool) (n k : nat) :
  forallb f (seq 0 n) = true -> (k < n)%nat -> f k = true.
Proof.
  intros H Hk. rewrite forallb_forall in H. apply H. apply in_seq. lia.
Qed.

Lemma small_counts_spec (r u : nat) :
  (r <= 5)%nat -> (u <= 10)%nat ->
  exhausted r u = true /\ forall h, (h <= 11)%nat -> close r u h = true.
Proof.
  intros Hr Hu.
  pose proof (forallb_seq _ 6 r small_counts ltac:(lia)) as H.
  pose proof (forallb_seq _ 11 u H ltac:(lia)) as H'.
  apply andb_true_iff in H'. destruct H' as [Hex Hclose].
  split; [exact Hex|]. intros h Hh.
  exact (forallb_seq _ 12 h Hclose ltac:(lia)).
Qed.

(** The confidence for any counts is within the tolerance of the exact
    formula. *)
Lemma rounded_confidence_close (r u h : nat) :
  exists c, rounded_confidence r u h = Fin c /\
    (Qabs (c - exact_confidence r u h) <= confidence_tolerance)%Q.
Proof.
  destruct (le_lt_dec 6 r) as [Hr|Hr].
  { (* six rejections or more *)
    apply confidence_zero.
    - unfold rounded_steps. cbv zeta.
      apply iter_le; [exact round64_le0|].
      assert (H1 : le_num (number_sub (of_Z 1) (number_mul (literal 0.2) (of_nat r))) 0).
      { apply sub_le0_of_ge1; [simpl; apply Qle_refl|].
        rewrite literal_fifth. apply (mul_ge1 _ r 6); [discriminate | discriminate | exact Hr]. }
      destruct r as [|r]; [lia|]. change (0 <? S r)%nat with true. cbv iota.
      destruct (0 <? u)%nat; [|exact H1].
      apply sub_le; [exact round64_le0 | exact H1|].
      rewrite literal_tenth. apply mul_ge0. discriminate.
    - pose proof (of_nat_ge r 6 Hr) as H6. pose proof (of_nat_nonneg u).
      pose proof (of_nat_nonneg h). change (inject_Z (Z.of_nat 6)) with 6%Q in H6. lra. }
  destruct (le_lt_dec 11 u) as [Hu|Hu].
  { (* eleven uncertainties or more *)
    apply confidence_zero.
    - unfold rounded_steps. cbv zeta.
      apply iter_le; [exact round64_le0|].
      destruct u as [|u]; [lia|]. change (0 <? S u)%nat with true. cbv iota.
      apply sub_le0_of_ge1.
      + destruct (0 <? r)%nat; [|simpl; apply Qle_refl].
        apply sub_le; [exact round64_le1 | simpl; apply Qle_refl|].
        rewrite literal_fifth. apply mul_ge0. discriminate.
      + rewrite literal_tenth.
        apply (mul_ge1 _ (S u) 11); [discriminate | discriminate | exact Hu].
    - pose proof (of_nat_ge u 11 Hu) as H11. pose proof (of_nat_nonneg r).
      pose proof (of_nat_nonneg h). change (inject_Z (Z.of_nat 11)) with 11%Q in H11. lra. }
  destruct (small_counts_spec r u ltac:(lia) ltac:(lia)) as [Hex Hclose].
  destruct (le_lt_dec h 11) as [Hh|Hh].
  { (* the checked counts *)
    specialize (Hclose h Hh). unfold close in Hclose.
    destruct (rounded_confidence r u h) as [|s|c]; try discriminate Hclose.
    exists c. split; [reflexivity|]. apply Qle_bool_iff. exact Hclose. }
  (* twelve high-value transactions or more *)
  apply confidence_zero.
  - replace h with ((h - 11) + 11)%nat by lia.
    unfold rounded_steps. cbv zeta. rewrite iter_add.
    apply iter_le; [exact round64_le0|].
    unfold exhausted, rounded_steps in Hex. cbv zeta in Hex.
    match goal with
    | |- le_num ?x 0 => destruct x as [|s|c]
    end; simpl; [discriminate Hex | exact Hex | apply Qle_bool_iff; exact Hex].
  - pose proof (of_nat_ge h 12 Hh) as H12. pose proof (of_nat_nonneg r).
    pose proof (of_nat_nonneg u). change (inject_Z (Z.of_nat 12)) with 12%Q in H12. lra.
Qed.

(** C2.  Whenever the Critique Aggregator produces a result, the approved
    and rejected lists are the proposed actions the Ethical Evaluator
    approves and rejects, in proposer order, and there is one limitation
    per rejected and one uncertainty per flagged action.  The confidence is
    computed in binary64: from 1.0, 0.2 times the number of rejected actions
    is taken off if there is one, then 0.1 times the number of
    uncertainties if there is one, then 0.1 once for each approved
    [executeTransaction] with value above 1000, every operation rounded,
    and the result is not below 0.  It lies in [0, 1] and differs from
    max(0, 1 - 0.2 rejected - 0.1 uncertainties - 0.1 approved high-value)
    by at most 2^-52. *)
Theorem critique_confidence_formula (input : ReasonOutput) (out : CritiqueOutput) :
  critiqueLayer input = Ok out ->
  let r := rejectedCount (proposedActions input) in
  let u := uncertainCount (proposedActions input) in
  let h := highValueCount (proposedActions input) in
  approvedActions out = filter isApproved (proposedActions input) /\
  rejectedActions out = Some (filter isRejected (proposedActions input)) /\
  List.length (limitations out) = r /\
  List.length (uncertainties out) = u /\
  confidence out = rounded_confidence r u h /\
  exists c : Q,
    confidence out = Fin c /\
    (0 <= c <= 1)%Q /\
    (Qabs (c - exact_confidence r u h) <= confidence_tolerance)%Q.
Proof.
  intros H r u h. unfold critiqueLayer in H.
  apply bind_Ok in H. destruct H as [st [Hloop H]].
  apply bind_Ok in H. destruct H as [conf [Hconf H]].
  injection H as H. subst out. cbn [approvedActions rejectedActions limitations
                                     uncertainties confidence].
  apply critiqueLoop_Ok in Hloop. simpl in Hloop.
  destruct Hloop as [Ha [Hr [Hl Hu]]].
  apply calculateConfidence_Ok in Hconf.
  assert (Hspec : conf = rounded_confidence r u h).
  { rewrite Hconf. unfold r, u, h, rejectedCount, uncertainCount, highValueCount.
    rewrite Ha, Hr, Hu, filter_filter. reflexivity. }
  repeat (split; [assumption || congruence|]).
  destruct (rounded_confidence_bounds r u h) as [c [Hc Hb]].
  destruct (rounded_confidence_close r u h) as [c' [Hc' Hclose]].
  rewrite Hc in Hc'. injection Hc' as <-.
  exists c. rewrite Hspec. auto.
Qed.

End CritiqueAggregator.

(** ** The transaction scenario *)

Section TransactionScenario.
Context {E : Engine}.
Import Layers Pipeline.

(** C6, as the code has it.  For the transaction
    [{hash:"0x1", from:"0xA", to:"0xB", value:1.5, data:"0x", chainId:"1"}]
    with no context, whatever the clock reads: the category is
    [transaction], the risk is [low], the proposer returns, in this order,
    [verifyRecipient], [executeTransaction] (the value is positive) and
    [checkGasPrice], with no [monitorTransaction]; every action is approved,
    nothing is flagged, the confidence is exactly 1 and the decision at the
    default threshold is not to defer. *)
Theorem transaction_scenario (now_structure now_stamp : number) :
  exists s u r out,
    sensibilityLayer {| rawData := Samples.transaction; context := VUndefined |}
      now_structure now_stamp = Ok s /\
    dataType (metadata s) = "transaction" /\
    understandingLayer s = Ok u /\
    lookup "risk" (categorizedData u) = VString "low" /\
    reasonLayer u = Ok r /\
    map action (proposedActions r) =
      ["verifyRecipient"; "executeTransaction"; "checkGasPrice"] /\
    critiqueLayer r = Ok out /\
    carPipeline Samples.transaction VUndefined now_structure now_stamp = Ok out /\
    approvedActions out = proposedActions r /\
    rejectedActions out = Some [] /\
    limitations out = [] /\
    uncertainties out = [] /\
    confidence out = Fin 1%Q /\
    shouldDefer (checkEpistemicBoundaries out None) = false.
Proof.
  do 4 eexists.
  split; [vm_compute; reflexivity|]. split; [reflexivity|].
  split; [vm_compute; reflexivity|]. split; [reflexivity|].
  split; [vm_compute; reflexivity|]. split; [reflexivity|].
  split; [vm_compute; reflexivity|]. split; [vm_compute; reflexivity|].
  repeat split; vm_compute; reflexivity.
Qed.

End TransactionScenario.

(** C6 as the claim states it fails: the proposer does not return the list
    [verifyRecipient], [checkGasPrice], [executeTransaction]. *)
Lemma transaction_scenario_order_counterexample :
  ~ exists s u r,
      Layers.sensibilityLayer (E := SampleEngine.engine)
        {| Layers.rawData := Samples.transaction; Layers.context := VUndefined |}
        (of_Z 0) (of_Z 0) = Ok s /\
      Layers.understandingLayer (E := SampleEngine.engine) s = Ok u /\
      Layers.reasonLayer (E := SampleEngine.engine) u = Ok r /\
      map Layers.action (Layers.proposedActions r) =
        ["verifyRecipient"; "checkGasPrice"; "executeTransaction"].
Proof.
  intros [s [u [r [Hs [Hu [Hr Hnames]]]]]].
  vm_compute in Hs. injection Hs as Hs. subst s.
  vm_compute in Hu. injection Hu as Hu. subst u.
  vm_compute in Hr. injection Hr as Hr. subst r.
  vm_compute in Hnames. discriminate Hnames.
Qed.


(** ** Unclassifiable input *)

Section UnknownCategory.
Context {E : Engine}.
Import Layers Pipeline.

(** A value other than [undefined] and [null] can be read at any name. *)
Lemma get_nonnullish (data : value) (k : string) :
  nullish data = false -> exists v, get data k = Ok v.
Proof.
  destruct data; simpl; intros H; try discriminate; eauto;
    destruct (String.eqb k "length"); eauto.
Qed.

Lemma get_nullish (data : value) (k : string) :
  nullish data = true -> get data k = Throw TypeError.
Proof. destruct data; simpl; intros H; try discriminate; reflexivity. Qed.

(** The shape rules of [detectDataType], in their priority order. *)
Lemma detectDataType_rules (data ctx : value)
    (hash from to content message event inputType : value) :
  get data "hash" = Ok hash -> get data "from" = Ok from -> get data "to" = Ok to ->
  get data "content" = Ok content -> get data "message" = Ok message ->
  get data "event" = Ok event -> get data "inputType" = Ok inputType ->
  detectDataType data ctx =
  Ok (if truthy hash && truthy from && truthy to then "transaction"
      else if truthy content || truthy message then "message"
      else if truthy event then "event"
      else if strict_eq_str inputType "user" then "userInput"
      else "unknown").
Proof.
  intros Hh Hf Ht Hc Hm He Hi.
  unfold detectDataType, js_and, js_or. rewrite Hh, Hf, Ht, Hc, Hm, He, Hi. simpl.
  destruct (truthy hash) eqn:Eh, (truthy from) eqn:Ef, (truthy to) eqn:Et,
    (truthy content) eqn:Ec, (truthy message) eqn:Em, (truthy event) eqn:Ee,
    (strict_eq_str inputType "user") eqn:Ei;
    repeat (progress (simpl; rewrite ?Eh, ?Ef, ?Et, ?Ec, ?Em, ?Ee, ?Ei));
    reflexivity.
Qed.

(** The answer is [unknown] exactly for a value other than [undefined] and
    [null] that matches none of the four shapes. *)
Lemma detectDataType_unknown_iff (data ctx : value) :
  detectDataType data ctx = Ok "unknown" <->
  exists hash from to content message event inputType,
    get data "hash" = Ok hash /\ get data "from" = Ok from /\ get data "to" = Ok to /\
    get data "content" = Ok content /\ get data "message" = Ok message /\
    get data "event" = Ok event /\ get data "inputType" = Ok inputType /\
    (truthy hash && truthy from && truthy to = false) /\
    truthy content = false /\ truthy message = false /\ truthy event = false /\
    strict_eq_str inputType "user" = false.
Proof.
  split.
  - intros H. destruct (nullish data) eqn:Hn.
    { unfold detectDataType, js_and in H. rewrite (get_nullish _ _ Hn) in H. discriminate H. }
    destruct (get_nonnullish data "hash" Hn) as [hash Hh].
    destruct (get_nonnullish data "from" Hn) as [from Hf].
    destruct (get_nonnullish data "to" Hn) as [to Ht].
    destruct (get_nonnullish data "content" Hn) as [content Hc].
    destruct (get_nonnullish data "message" Hn) as [message Hm].
    destruct (get_nonnullish data "event" Hn) as [event He].
    destruct (get_nonnullish data "inputType" Hn) as [inputType Hi].
    exists hash, from, to, content, message, event, inputType.
    rewrite (detectDataType_rules _ ctx _ _ _ _ _ _ _ Hh Hf Ht Hc Hm He Hi) in H.
    repeat (split; [assumption|]).
    destruct (truthy hash && truthy from && truthy to); [discriminate H|].
    destruct (truthy content); [discriminate H|].
    destruct (truthy message); [discriminate H|].
    destruct (truthy event); [discriminate H|].
    destruct (strict_eq_str inputType "user"); [discriminate H|].
    repeat split; reflexivity.
  - intros (hash & from & to & content & message & event & inputType &
            Hh & Hf & Ht & Hc & Hm & He & Hi & H1 & H2 & H3 & H4 & H5).
    rewrite (detectDataType_rules _ ctx _ _ _ _ _ _ _ Hh Hf Ht Hc Hm He Hi).
    rewrite H1, H2, H3, H4, H5. reflexivity.
Qed.

End UnknownCategory.

Section UnknownPipeline.
Context {E : Engine}.
Import Layers Pipeline.

(** The proposer and the aggregator on a category other than the three
    enriched ones. *)
Lemma reasonLayer_other (u : UnderstandingOutput) :
  dataType (metadata u) <> "transaction" ->
  dataType (metadata u) <> "message" ->
  dataType (metadata u) <> "event" ->
  reasonLayer u = Ok {| proposedActions := []; reasoning := "" |}.
Proof.
  intros Ht Hm He. unfold reasonLayer.
  apply String.eqb_neq in Ht, Hm, He. rewrite Ht, Hm, He. reflexivity.
Qed.

Lemma critiqueLayer_empty (why : string) :
  critiqueLayer {| proposedActions := []; reasoning := why |} =
  Ok {| confidence := Fin 1%Q; limitations := []; uncertainties := [];
        approvedActions := []; rejectedActions := Some [];
        explanation := why ++ nl ++ "" ++ nl ++ "Confidence: " ++ Number_toString (Fin 1%Q) |}.
Proof. vm_compute. reflexivity. Qed.

(** C7.  An input that the classifier puts in no category goes through the
    whole pipeline as follows when its source is detected: the category is
    [unknown], the structured record is a copy of the input and is not
    enriched, the proposer returns no action and the empty reasoning, and
    the critique has confidence exactly 1 and empty approved, rejected,
    limitation and uncertainty lists.  When the detection of the source
    raises, the pipeline fails with that error. *)
Theorem unclassifiable_input (raw ctx : value) (now_structure now_stamp : number) :
  detectDataType raw ctx = Ok "unknown" ->
  (forall src, detectSource raw = Ok src ->
   exists s,
    sensibilityLayer {| rawData := raw; context := ctx |} now_structure now_stamp = Ok s /\
    dataType (metadata s) = "unknown" /\
    categorizedData s = spread raw /\
    understandingLayer s = Ok s /\
    reasonLayer s = Ok {| proposedActions := []; reasoning := "" |} /\
    critiqueLayer {| proposedActions := []; reasoning := "" |} = Ok emptyCritique /\
    carPipeline raw ctx now_structure now_stamp = Ok emptyCritique /\
    confidence emptyCritique = Fin 1%Q /\
    approvedActions emptyCritique = [] /\
    rejectedActions emptyCritique = Some [] /\
    limitations emptyCritique = [] /\
    uncertainties emptyCritique = []) /\
  (forall e, detectSource raw = Throw e ->
   carPipeline raw ctx now_structure now_stamp = Throw (PipelineFailed e)).
Proof.
  intros Htype. split.
  - intros src Hsrc.
    assert (Hs : sensibilityLayer {| rawData := raw; context := ctx |}
                   now_structure now_stamp =
                 Ok {| categorizedData := spread raw;
                       metadata := {| dataType := "unknown"; source := src;
                                      timestamp := now_stamp |} |}).
    { unfold sensibilityLayer. simpl. rewrite Htype, Hsrc. reflexivity. }
    eexists. split; [exact Hs|].
    split; [reflexivity|]. split; [reflexivity|].
    assert (Hu : forall o m, dataType m = "unknown" ->
                 understandingLayer {| categorizedData := o; metadata := m |} =
                 Ok {| categorizedData := o; metadata := m |}).
    { intros o m Hm. unfold understandingLayer. simpl. rewrite Hm. reflexivity. }
    split; [apply Hu; reflexivity|].
    split; [apply reasonLayer_other; simpl; discriminate|].
    split; [reflexivity|].
    split; [|repeat split; reflexivity].
    unfold carPipeline. rewrite Hs. cbn [bind].
    rewrite Hu by reflexivity. cbn [bind].
    rewrite reasonLayer_other by (simpl; discriminate). cbn [bind].
    rewrite critiqueLayer_empty. reflexivity.
  - intros e Hsrc. unfold carPipeline, sensibilityLayer. simpl.
    rewrite Htype, Hsrc. reflexivity.
Qed.

End UnknownPipeline.

Lemma unclassifiable_input_witness :
  exists s,
    Layers.sensibilityLayer (E := SampleEngine.engine)
      {| Layers.rawData := Samples.unclassifiable; Layers.context := VUndefined |}
      (of_Z 0) (of_Z 0) = Ok s /\
    Pipeline.carPipeline (E := SampleEngine.engine) Samples.unclassifiable VUndefined
      (of_Z 0) (of_Z 0) = Ok (emptyCritique (E := SampleEngine.engine)).
Proof.
  destruct (proj1 (unclassifiable_input (E := SampleEngine.engine) Samples.unclassifiable
                     VUndefined (of_Z 0) (of_Z 0) eq_refl)
              (Layers.SourceValue (VString "unknown")) eq_refl)
    as [s [Hs [_ [_ [_ [_ [_ [Hp _]]]]]]]].
  exists s. split; assumption.
Defined.

(** C7 as the claim states it fails: the record [{chainId: {toString: 1}}]
    matches none of the four shapes and is classified [unknown], yet the
    pipeline returns no critique for it; it fails, since the chain id cannot
    be converted to a string.  Nor does it return one for [null] and
    [undefined], which match none of the shapes either. *)
Lemma unclassifiable_input_counterexample :
  Layers.detectDataType Samples.unprintableChain VUndefined = Ok "unknown" /\
  Pipeline.carPipeline (E := SampleEngine.engine) Samples.unprintableChain VUndefined
    (of_Z 0) (of_Z 0) = Throw (PipelineFailed TypeError) /\
  Pipeline.carPipeline (E := SampleEngine.engine) VNull VUndefined
    (of_Z 0) (of_Z 0) = Throw (PipelineFailed TypeError) /\
  Pipeline.carPipeline (E := SampleEngine.engine) VUndefined VUndefined
    (of_Z 0) (of_Z 0) = Throw (PipelineFailed TypeError).
Proof. repeat split; vm_compute; reflexivity. Qed.


(** ** Replies proposed by the pipeline *)

Section ProposedReplies.
Context {E : Engine}.
Import Layers Pipeline.

Lemma generateContextualResponse_template (data : object) :
  In (generateContextualResponse data) responseTemplates.
Proof.
  unfold generateContextualResponse, responseTemplates.
  destruct (strict_eq_str (lookup "intent" data) "greeting"); [simpl; auto|].
  destruct (strict_eq_str (lookup "intent" data) "question"); [simpl; auto|].
  destruct (strict_eq_str (lookup "intent" data) "purchase-intent"); simpl; auto.
Qed.

Lemma templates_short_and_clean (t : string) :
  In t responseTemplates ->
  (String.length t < 500)%nat /\
  str_includes t "mislead" = false /\
  str_includes t "manipulate" = false /\
  str_includes t "hate speech" = false.
Proof.
  unfold responseTemplates. simpl.
  intros [<- | [<- | [<- | [<- | []]]]]; vm_compute; repeat split; lia.
Qed.

(** A reply whose content is short and free of the three words passes. *)
Lemma reply_approved (content : string) (rest : object) (why : string) :
  (String.length content < 500)%nat ->
  str_includes content "mislead" = false ->
  str_includes content "manipulate" = false ->
  str_includes content "hate speech" = false ->
  let a := mkAction "respondToMessage" (("content", VString content) :: rest) why in
  categoricalImperative a = Ok approvedVerdict /\
  Layers.checkEpistemicBoundaries a = Ok {| uncertain := false; uncertain_reason := "" |}.
Proof.
  intros Hlen H1 H2 H3 a. subst a. split.
  - unfold categoricalImperative, universalizabilityTest, humanityAsEndTest,
      kingdomOfEndsTest, content_includes. simpl.
    rewrite H1. simpl. rewrite H2. simpl. rewrite H3. reflexivity.
  - unfold Layers.checkEpistemicBoundaries. simpl.
    assert (Hq : Qle_bool (inject_Z (Z.of_nat (String.length content))) (inject_Z 500) = true).
    { apply Qle_bool_iff. rewrite <- Zle_Qle. lia. }
    unfold gt, of_nat, of_Z. simpl. rewrite Hq. reflexivity.
Qed.

(** The only [respondToMessage] the proposer builds is the templated one. *)
Lemma reasonLayer_reply (u : UnderstandingOutput) (r : ReasonOutput) (a : Action) :
  reasonLayer u = Ok r ->
  In a (proposedActions r) ->
  action a = "respondToMessage" ->
  dataType (metadata u) = "message" /\
  a = mkAction "respondToMessage"
        [("content", VString (generateContextualResponse (categorizedData u)));
         ("context", VObject (categorizedData u))]
        "Generated response based on intent, sentiment, and history".
Proof.
  unfold reasonLayer. intros Hr Hin Hname.
  destruct (String.eqb (dataType (metadata u)) "transaction") eqn:Ht.
  - exfalso.
    repeat (apply bind_Ok in Hr; destruct Hr as [? [_ Hr]]).
    injection Hr as <-. simpl in Hin.
    repeat match type of Hin with
           | context [if ?c then _ else _] => destruct c
           end; simpl in Hin;
      repeat (destruct Hin as [<- | Hin]; [discriminate Hname|]); exact Hin.
  - destruct (String.eqb (dataType (metadata u)) "message") eqn:Hm.
    + apply String.eqb_eq in Hm. split; [exact Hm|].
      repeat (apply bind_Ok in Hr; destruct Hr as [? [_ Hr]]).
      injection Hr as <-. simpl in Hin.
      destruct (strict_eq_str (lookup "intent" (categorizedData u)) "question");
        simpl in Hin;
        repeat (destruct Hin as [<- | Hin]; [try reflexivity; discriminate Hname|]);
        contradiction.
    + exfalso. destruct (String.eqb (dataType (metadata u)) "event").
      * repeat (apply bind_Ok in Hr; destruct Hr as [? [_ Hr]]).
        injection Hr as <-. simpl in Hin.
        destruct Hin as [<- | []]. discriminate Hname.
      * injection Hr as <-. exact Hin.
Qed.

(** C10.  In every run of the pipeline up to the proposer, a proposed
    [respondToMessage] carries as content one of the four fixed strings of
    [generateContextualResponse]; each of them has fewer than 500 characters
    and contains none of "mislead", "manipulate", "hate speech"; so the
    Ethical Evaluator approves the action and the Epistemic Checker does not
    flag it.  A run on a message proposes such an action first. *)
Theorem proposed_replies_pass (input : SensibilityInput) (now_structure now_stamp : number)
    (s u : UnderstandingOutput) (r : ReasonOutput) :
  sensibilityLayer input now_structure now_stamp = Ok s ->
  understandingLayer s = Ok u ->
  reasonLayer u = Ok r ->
  (forall t, In t responseTemplates ->
     (String.length t < 500)%nat /\ str_includes t "mislead" = false /\
     str_includes t "manipulate" = false /\ str_includes t "hate speech" = false) /\
  (forall a, In a (proposedActions r) -> action a = "respondToMessage" ->
     exists content,
       get (params a) "content" = Ok (VString content) /\
       In content responseTemplates /\
       categoricalImperative a = Ok approvedVerdict /\
       Layers.checkEpistemicBoundaries a = Ok {| uncertain := false; uncertain_reason := "" |}) /\
  (dataType (metadata s) = "message" ->
     exists a rest, proposedActions r = a :: rest /\ action a = "respondToMessage").
Proof.
  intros Hs Hu Hr. split; [exact templates_short_and_clean|]. split.
  - intros a Hin Hname.
    destruct (reasonLayer_reply u r a Hr Hin Hname) as [_ ->].
    exists (generateContextualResponse (categorizedData u)).
    split; [reflexivity|].
    pose proof (generateContextualResponse_template (categorizedData u)) as Ht.
    split; [exact Ht|].
    destruct (templates_short_and_clean _ Ht) as (Hlen & H1 & H2 & H3).
    exact (reply_approved _ _ _ Hlen H1 H2 H3).
  - intros Hmsg.
    assert (Hmu : dataType (metadata u) = "message").
    { unfold understandingLayer in Hu.
      apply bind_Ok in Hu. destruct Hu as [? [_ Hu]]. injection Hu as <-. exact Hmsg. }
    unfold reasonLayer in Hr. rewrite Hmu in Hr. simpl in Hr.
    repeat (apply bind_Ok in Hr; destruct Hr as [? [_ Hr]]).
    injection Hr as <-. simpl.
    destruct (strict_eq_str (lookup "intent" (categorizedData u)) "question");
      simpl; eexists; eexists; split; reflexivity.
Qed.

End ProposedReplies.

Lemma proposed_replies_pass_witness :
  exists r a,
    In a (Layers.proposedActions r) /\
    Layers.action a = "respondToMessage" /\
    Layers.categoricalImperative (E := SampleEngine.engine) a =
      Ok approvedVerdict.
Proof.
  pose (input := {| Layers.rawData := Samples.message; Layers.context := VUndefined |}).
  destruct (Layers.sensibilityLayer (E := SampleEngine.engine) input (of_Z 0) (of_Z 0))
    as [s|] eqn:Hs; [|vm_compute in Hs; discriminate Hs].
  destruct (Layers.understandingLayer (E := SampleEngine.engine) s)
    as [u|] eqn:Hu;
    [|vm_compute in Hs; injection Hs as <-; vm_compute in Hu; discriminate Hu].
  destruct (Layers.reasonLayer (E := SampleEngine.engine) u) as [r|] eqn:Hr;
    [|vm_compute in Hs; injection Hs as <-; vm_compute in Hu; injection Hu as <-;
      vm_compute in Hr; discriminate Hr].
  destruct (proposed_replies_pass (E := SampleEngine.engine) input (of_Z 0) (of_Z 0) s u r
              Hs Hu Hr) as [_ [Hall Hfirst]].
  assert (Hm : Layers.dataType (Layers.metadata s) = "message")
    by (vm_compute in Hs; injection Hs as <-; reflexivity).
  destruct (Hfirst Hm) as [a [rest [Hl Hn]]].
  assert (Hin : In a (Layers.proposedActions r)) by (rewrite Hl; left; reflexivity).
  destruct (Hall a Hin Hn) as [c [_ [_ [Hci _]]]].
  exists r, a. repeat split; assumption.
Defined.

Lemma critique_confidence_formula_witness :
  exists out c,
    Layers.critiqueLayer (E := SampleEngine.engine) Samples.proposal = Ok out /\
    Layers.confidence out = Fin c /\
    (0 <= c <= 1)%Q /\
    (Qabs (c - exact_confidence 1 1 1) <= confidence_tolerance)%Q.
Proof.
  destruct (Layers.critiqueLayer (E := SampleEngine.engine) Samples.proposal)
    as [out|] eqn:H; [|vm_compute in H; discriminate H].
  pose proof (critique_confidence_formula (E := SampleEngine.engine) Samples.proposal out H)
    as Hthm.
  cbv zeta in Hthm.
  destruct Hthm as (_ & _ & _ & _ & _ & c & Hc & Hb & Hclose).
  assert (Hr : rejectedCount (E := SampleEngine.engine)
                 (Layers.proposedActions Samples.proposal) = 1%nat)
    by (vm_compute; reflexivity).
  assert (Hu : uncertainCount (E := SampleEngine.engine)
                 (Layers.proposedActions Samples.proposal) = 1%nat)
    by (vm_compute; reflexivity).
  assert (Hh : highValueCount (E := SampleEngine.engine)
                 (Layers.proposedActions Samples.proposal) = 1%nat)
    by (vm_compute; reflexivity).
  rewrite Hr, Hu, Hh in Hclose.
  exists out, c. split; [reflexivity|]. split; [exact Hc|]. split; assumption.
Defined.

(** C2 as the claim states it fails.  For a proposal with one rejected
    action, one uncertainty and one approved high-value transaction the
    confidence is the double 0.6000000000000001, which is not
    max(0, 1 - 0.2 - 0.1 - 0.1).  Nor is the confidence the formula read as
    one binary64 expression: for three approved high-value transactions,
    which are three uncertainties, the code gives the double 0.4 and the
    expression 0.3999999999999999. *)
Lemma critique_confidence_counterexample :
  (exists out,
     Layers.critiqueLayer (E := SampleEngine.engine) Samples.proposal = Ok out /\
     rejectedCount (E := SampleEngine.engine)
       (Layers.proposedActions Samples.proposal) = 1%nat /\
     uncertainCount (E := SampleEngine.engine)
       (Layers.proposedActions Samples.proposal) = 1%nat /\
     highValueCount (E := SampleEngine.engine)
       (Layers.proposedActions Samples.proposal) = 1%nat /\
     Layers.confidence out = Fin (1351079888211149 # 2251799813685248) /\
     ~ (1351079888211149 # 2251799813685248 == exact_confidence 1 1 1)%Q /\
     (exact_confidence 1 1 1 == 0.6)%Q) /\
  (exists out,
     Layers.critiqueLayer (E := SampleEngine.engine) Samples.threeTransfers = Ok out /\
     rejectedCount (E := SampleEngine.engine)
       (Layers.proposedActions Samples.threeTransfers) = 0%nat /\
     uncertainCount (E := SampleEngine.engine)
       (Layers.proposedActions Samples.threeTransfers) = 3%nat /\
     highValueCount (E := SampleEngine.engine)
       (Layers.proposedActions Samples.threeTransfers) = 3%nat /\
     Layers.confidence out = literal 0.4 /\
     formula64 0 3 3 = Fin (900719925474099 # 2251799813685248) /\
     Layers.confidence out <> formula64 0 3 3).
Proof.
  split.
  - eexists. split; [vm_compute; reflexivity|].
    repeat (split; [vm_compute; reflexivity|]).
    split; [vm_compute; discriminate | vm_compute; reflexivity].
  - eexists. split; [vm_compute; reflexivity|].
    repeat (split; [vm_compute; reflexivity|]).
    vm_compute. discriminate.
Qed.


(** ** The Enricher *)

Section Enricher.
Context {E : Engine}.
Import Layers.

Lemma lookup_set_prop_same (k : string) (v : value) (o : object) :
  lookup k (set_prop k v o) = v.
Proof.
  induction o as [|[k' v'] o IH]; simpl.
  - rewrite String.eqb_refl. reflexivity.
  - destruct (String.eqb k k') eqn:Hk; simpl; rewrite Hk; auto.
Qed.

Lemma lookup_set_prop_other (k k' : string) (v : value) (o : object) :
  k <> k' -> lookup k (set_prop k' v o) = lookup k o.
Proof.
  intros Hne. apply String.eqb_neq in Hne.
  induction o as [|[k0 v0] o IH]; simpl.
  - rewrite Hne. reflexivity.
  - destruct (String.eqb k' k0) eqn:Hk; simpl.
    + apply String.eqb_eq in Hk. subst k0. rewrite Hne. reflexivity.
    + rewrite IH. reflexivity.
Qed.

Lemma has_key_set_prop (k k' : string) (v : value) (o : object) :
  has_key k (set_prop k' v o) = String.eqb k k' || has_key k o.
Proof.
  induction o as [|[k0 v0] o IH]; simpl.
  - rewrite orb_false_r. reflexivity.
  - destruct (String.eqb k' k0) eqn:Hk; simpl.
    + apply String.eqb_eq in Hk. subst k0. destruct (String.eqb k k'); reflexivity.
    + rewrite IH. destruct (String.eqb k k'), (String.eqb k k0); reflexivity.
Qed.

Lemma has_key_distinct (k k' : string) (o : object) :
  has_key k o = true -> has_key k' o = false -> k <> k'.
Proof. intros H1 H2 ->. congruence. Qed.

(** What the Enricher computes, branch by branch. *)
Lemma understandingLayer_Ok (input out : UnderstandingOutput) :
  understandingLayer input = Ok out ->
  metadata out = metadata input /\
  let type := dataType (metadata input) in
  let rec := categorizedData input in
  (type = "transaction" /\
   exists transactionType risk,
     categorizeTransaction rec = Ok transactionType /\ assessRisk rec = Ok risk /\
     categorizedData out =
       set_prop "risk" (VString risk) (set_prop "transactionType" (VString transactionType) rec))
  \/
  (type = "message" /\
   exists intent sentiment,
     detectIntent rec = Ok intent /\ analyzeSentiment rec = Ok sentiment /\
     categorizedData out =
       set_prop "sentiment" (VString sentiment) (set_prop "intent" (VString intent) rec))
  \/
  (type = "event" /\
   categorizedData out = set_prop "eventCategory" (VString (categorizeEvent rec)) rec)
  \/
  (derivedFields type = [] /\ categorizedData out = rec).
Proof.
  unfold understandingLayer. intros H.
  apply bind_Ok in H. destruct H as [enriched [He H]]. injection H as <-. simpl.
  split; [reflexivity|].
  unfold derivedFields.
  destruct (String.eqb (dataType (metadata input)) "transaction") eqn:Ht.
  - left. apply String.eqb_eq in Ht. split; [exact Ht|].
    apply bind_Ok in He. destruct He as [tt [Htt He]].
    apply bind_Ok in He. destruct He as [risk [Hrisk He]].
    injection He as <-. eauto.
  - destruct (String.eqb (dataType (metadata input)) "message") eqn:Hm.
    + right. left. apply String.eqb_eq in Hm. split; [exact Hm|].
      apply bind_Ok in He. destruct He as [intent [Hi He]].
      apply bind_Ok in He. destruct He as [sentiment [Hsn He]].
      injection He as <-. eauto.
    + destruct (String.eqb (dataType (metadata input)) "event") eqn:Hev.
      * right. right. left. apply String.eqb_eq in Hev. split; [exact Hev|].
        injection He as <-. reflexivity.
      * right. right. right. injection He as <-. split; reflexivity.
Qed.

(** Frame: a field that is not one of the category's derived fields is read
    the same before and after, on any record. *)
Lemma understandingLayer_frame (input out : UnderstandingOutput) (k : string) :
  understandingLayer input = Ok out ->
  ~ In k (derivedFields (dataType (metadata input))) ->
  lookup k (categorizedData out) = lookup k (categorizedData input).
Proof.
  intros H Hk. apply understandingLayer_Ok in H. destruct H as [_ H]. simpl in H.
  destruct H as [[Ht (tt & risk & _ & _ & ->)]
                |[[Hm (intent & sentiment & _ & _ & ->)]
                 |[[Hev ->] | [_ ->]]]].
  - rewrite Ht in Hk. simpl in Hk.
    rewrite !lookup_set_prop_other; auto; intros ->; apply Hk; auto.
  - rewrite Hm in Hk. simpl in Hk.
    rewrite !lookup_set_prop_other; auto; intros ->; apply Hk; auto.
  - rewrite Hev in Hk. simpl in Hk.
    rewrite !lookup_set_prop_other; auto; intros ->; apply Hk; auto.
  - reflexivity.
Qed.

Lemma understandingLayer_keys (input out : UnderstandingOutput) (k : string) :
  understandingLayer input = Ok out ->
  has_key k (categorizedData out) =
  has_key k (categorizedData input) ||
  existsb (String.eqb k) (derivedFields (dataType (metadata input))).
Proof.
  intros H. apply understandingLayer_Ok in H. destruct H as [_ H]. simpl in H.
  destruct H as [[Ht (tt & risk & _ & _ & ->)]
                |[[Hm (intent & sentiment & _ & _ & ->)]
                 |[[Hev ->] | [Hnone ->]]]].
  - rewrite Ht. simpl. rewrite !has_key_set_prop.
    destruct (String.eqb k "risk"), (String.eqb k "transactionType"),
      (has_key k (categorizedData input)); reflexivity.
  - rewrite Hm. simpl. rewrite !has_key_set_prop.
    destruct (String.eqb k "sentiment"), (String.eqb k "intent"),
      (has_key k (categorizedData input)); reflexivity.
  - rewrite Hev. simpl. rewrite !has_key_set_prop.
    destruct (String.eqb k "eventCategory"), (has_key k (categorizedData input)); reflexivity.
  - rewrite Hnone. simpl. rewrite orb_false_r. reflexivity.
Qed.

(** A structured record has none of its category's derived fields. *)
Lemma structureData_no_derived (data ctx : value) (type : string) (now : number)
    (rec : object) (k : string) :
  structureData data type ctx now = Ok rec ->
  In k (derivedFields type) -> has_key k rec = false.
Proof.
  unfold structureData, derivedFields. intros H Hk.
  destruct (String.eqb type "transaction").
  - repeat (apply bind_Ok in H; destruct H as [? [_ H]]). injection H as <-.
    simpl in Hk. destruct Hk as [<- | [<- | []]]; reflexivity.
  - destruct (String.eqb type "message").
    + repeat (apply bind_Ok in H; destruct H as [? [_ H]]). injection H as <-.
      simpl in Hk. destruct Hk as [<- | [<- | []]]; reflexivity.
    + destruct (String.eqb type "event").
      * repeat (apply bind_Ok in H; destruct H as [? [_ H]]). injection H as <-.
        simpl in Hk. destruct Hk as [<- | []]; reflexivity.
      * contradiction.
Qed.

Lemma existsb_eqb_In (k : string) (l : list string) :
  existsb (String.eqb k) l = true <-> In k l.
Proof.
  rewrite existsb_exists. split.
  - intros [x [Hin Heq]]. apply String.eqb_eq in Heq. subst. exact Hin.
  - intros Hin. exists k. split; [exact Hin | apply String.eqb_refl].
Qed.

(** C8.  On a structured record (what [structureData] returns for the
    category) the Enricher leaves the metadata alone, keeps every field of
    the record with its value, and adds exactly the derived fields of the
    category: [transactionType] and [risk] for a transaction, [intent] and
    [sentiment] for a message, [eventCategory] for an event, none
    otherwise.  The enriched record depends on the record and its category
    only, not on the source or the timestamp. *)
Theorem enricher_preserves_fields (data ctx : value) (type : string) (now : number)
    (rec : object) (src : source_t) (stamp : number) (out : UnderstandingOutput) :
  structureData data type ctx now = Ok rec ->
  understandingLayer
    {| categorizedData := rec;
       metadata := {| dataType := type; source := src; timestamp := stamp |} |} = Ok out ->
  metadata out = {| dataType := type; source := src; timestamp := stamp |} /\
  (forall k, has_key k rec = true ->
     has_key k (categorizedData out) = true /\
     lookup k (categorizedData out) = lookup k rec) /\
  (forall k, has_key k (categorizedData out) = true <->
     has_key k rec = true \/ In k (derivedFields type)) /\
  (forall src' stamp', exists out',
     understandingLayer
       {| categorizedData := rec;
          metadata := {| dataType := type; source := src'; timestamp := stamp' |} |}
     = Ok out' /\
     categorizedData out' = categorizedData out).
Proof.
  intros Hrec Hout.
  pose proof (understandingLayer_Ok _ _ Hout) as [Hmeta _]. simpl in Hmeta.
  split; [exact Hmeta|].
  assert (Hkeys : forall k, has_key k (categorizedData out) = true <->
                            has_key k rec = true \/ In k (derivedFields type)).
  { intros k. rewrite (understandingLayer_keys _ _ k Hout). simpl.
    rewrite orb_true_iff, existsb_eqb_In. reflexivity. }
  split; [|split; [exact Hkeys|]].
  - intros k Hk. split; [apply Hkeys; left; exact Hk|].
    apply (understandingLayer_frame _ _ k Hout). simpl.
    intros Hd.
    pose proof (structureData_no_derived _ _ _ _ _ _ Hrec Hd). congruence.
  - intros src' stamp'.
    unfold understandingLayer in *. simpl in *.
    apply bind_Ok in Hout. destruct Hout as [enriched [He Hout]].
    injection Hout as <-. rewrite He. simpl. eexists. split; reflexivity.
Qed.

End Enricher.

Lemma enricher_preserves_fields_witness :
  exists rec out,
    Layers.structureData Samples.transaction "transaction"
      VUndefined (of_Z 0) = Ok rec /\
    lookup "value" (Layers.categorizedData out) = VNumber (Fin 1.5%Q) /\
    lookup "risk" (Layers.categorizedData out) = VString "low".
Proof.
  destruct (Layers.structureData Samples.transaction "transaction"
              VUndefined (of_Z 0)) as [rec|] eqn:Hrec; [|vm_compute in Hrec; discriminate Hrec].
  destruct (Layers.understandingLayer (E := SampleEngine.engine)
              {| Layers.categorizedData := rec;
                 Layers.metadata :=
                   {| Layers.dataType := "transaction";
                      Layers.source := Layers.SourceValue (VString "Ethereum");
                      Layers.timestamp := of_Z 0 |} |}) as [out|] eqn:Hout;
    [|vm_compute in Hrec; injection Hrec as <-; vm_compute in Hout; discriminate Hout].
  destruct (enricher_preserves_fields (E := SampleEngine.engine) _ _ _ _ _ _ _ _ Hrec Hout)
    as [_ [Hkeep _]].
  exists rec, out. split; [reflexivity|].
  vm_compute in Hrec. injection Hrec as <-.
  split.
  - rewrite (proj2 (Hkeep "value" eq_refl)). reflexivity.
  - vm_compute in Hout. injection Hout as <-. reflexivity.
Defined.


(** ** Dependence on the clock *)

Section Clock.
Context {E : Engine}.
Import Layers Pipeline.

Lemma result_rel_bind {A B : Type} (R : A -> A -> Prop) (S : B -> B -> Prop)
    (m m' : result A) (f f' : A -> result B) :
  result_rel R m m' ->
  (forall a a', R a a' -> result_rel S (f a) (f' a')) ->
  result_rel S (bind m f) (bind m' f').
Proof.
  destruct m, m'; simpl; intros H Hf; auto; contradiction.
Qed.

Lemma result_rel_refl {A : Type} (R : A -> A -> Prop) (m : result A) :
  (forall a, R a a) -> result_rel R m m.
Proof. destruct m; simpl; auto. Qed.

Lemma result_rel_eq {A : Type} (m m' : result A) : result_rel eq m m' -> m = m'.
Proof. destruct m, m'; simpl; intros H; congruence || contradiction. Qed.

Lemma same_but_timestamp_refl (o : object) : same_but_timestamp o o.
Proof. intros k _. reflexivity. Qed.

Lemma same_but_timestamp_set (k : string) (v : value) (o o' : object) :
  same_but_timestamp o o' -> same_but_timestamp (set_prop k v o) (set_prop k v o').
Proof.
  intros H k' Hk'. destruct (String.eqb k' k) eqn:Heq.
  - apply String.eqb_eq in Heq. subst. rewrite !lookup_set_prop_same. reflexivity.
  - apply String.eqb_neq in Heq. rewrite !lookup_set_prop_other by exact Heq. auto.
Qed.

(** The normalizer reads the clock only to fill in [timestamp]. *)
Lemma structureData_clock (data ctx : value) (type : string) (now now' : number) :
  result_rel same_but_timestamp
    (structureData data type ctx now) (structureData data type ctx now').
Proof.
  unfold structureData.
  destruct (String.eqb type "transaction");
    [apply result_rel_refl, same_but_timestamp_refl|].
  destruct (String.eqb type "message").
  - destruct (js_or (get data "content") (get data "message")); simpl; [|reflexivity].
    destruct (js_or (get data "sender") (get data "from")); simpl; [|reflexivity].
    unfold js_or at 1 3.
    destruct (get data "timestamp") as [t|]; simpl; [|reflexivity].
    destruct (truthy t); simpl;
      destruct (js_or (get_opt ctx "conversationHistory") (Ok (VArray []))); simpl;
      try reflexivity; try apply same_but_timestamp_refl.
    intros k Hk. simpl. apply String.eqb_neq in Hk. rewrite Hk. reflexivity.
  - destruct (String.eqb type "event");
      [apply result_rel_refl, same_but_timestamp_refl|].
    destruct (String.eqb type "userInput");
      [|apply result_rel_refl, same_but_timestamp_refl].
    destruct (get data "input"); simpl; [|reflexivity].
    destruct (get data "inputType"); simpl; [|reflexivity].
    unfold js_or.
    destruct (get data "timestamp") as [t|]; simpl; [|reflexivity].
    destruct (truthy t); simpl; try apply same_but_timestamp_refl.
    intros k Hk. simpl. apply String.eqb_neq in Hk. rewrite Hk. reflexivity.
Qed.

Lemma sensibilityLayer_clock (input : SensibilityInput) (n1 n2 n1' n2' : number) :
  result_rel same_but_time
    (sensibilityLayer input n1 n2) (sensibilityLayer input n1' n2').
Proof.
  unfold sensibilityLayer.
  destruct (detectDataType (rawData input) (context input)) as [type|]; simpl;
    [|reflexivity].
  destruct (detectSource (rawData input)) as [src|]; simpl; [|reflexivity].
  pose proof (structureData_clock (rawData input) (context input) type n1 n1') as H.
  destruct (structureData (rawData input) type (context input) n1),
    (structureData (rawData input) type (context input) n1'); simpl in *;
    try contradiction; try exact H.
  repeat split; auto.
Qed.

End Clock.

Section ClockEnrichment.
Context {E : Engine}.
Import Layers Pipeline.

(** Rewrites every read of [o] into the same read of [o'']; no function of
    the pipeline reads [timestamp] from a record. *)
Ltac same_reads H :=
  repeat match goal with
         | |- context [lookup ?k ?o] =>
             lazymatch type of H with
             | same_but_timestamp o _ => rewrite (H k) by discriminate
             end
         end.

Lemma categorizeTransaction_same (o o' : object) :
  same_but_timestamp o o' -> categorizeTransaction o = categorizeTransaction o'.
Proof. intros H. unfold categorizeTransaction. same_reads H. reflexivity. Qed.

Lemma assessRisk_same (o o' : object) :
  same_but_timestamp o o' -> assessRisk o = assessRisk o'.
Proof. intros H. unfold assessRisk. same_reads H. reflexivity. Qed.

Lemma detectIntent_same (o o' : object) :
  same_but_timestamp o o' -> detectIntent o = detectIntent o'.
Proof. intros H. unfold detectIntent. same_reads H. reflexivity. Qed.

Lemma analyzeSentiment_same (o o' : object) :
  same_but_timestamp o o' -> analyzeSentiment o = analyzeSentiment o'.
Proof. intros H. unfold analyzeSentiment. same_reads H. reflexivity. Qed.

Lemma categorizeEvent_same (o o' : object) :
  same_but_timestamp o o' -> categorizeEvent o = categorizeEvent o'.
Proof. intros H. unfold categorizeEvent. same_reads H. reflexivity. Qed.

Lemma generateContextualResponse_same (o o' : object) :
  same_but_timestamp o o' ->
  generateContextualResponse o = generateContextualResponse o'.
Proof. intros H. unfold generateContextualResponse. same_reads H. reflexivity. Qed.

Lemma understandingLayer_clock (s s' : UnderstandingOutput) :
  same_but_time s s' ->
  result_rel same_but_time (understandingLayer s) (understandingLayer s').
Proof.
  intros (Htype & Hsrc & Hrec). unfold understandingLayer.
  rewrite <- Htype. simpl spread.
  rewrite <- (categorizeTransaction_same _ _ Hrec), <- (assessRisk_same _ _ Hrec),
    <- (detectIntent_same _ _ Hrec), <- (analyzeSentiment_same _ _ Hrec),
    <- (categorizeEvent_same _ _ Hrec).
  destruct (String.eqb (dataType (metadata s)) "transaction").
  - destruct (categorizeTransaction (categorizedData s)); simpl; [|reflexivity].
    destruct (assessRisk (categorizedData s)); simpl; [|reflexivity].
    repeat split; auto. simpl. repeat apply same_but_timestamp_set. exact Hrec.
  - destruct (String.eqb (dataType (metadata s)) "message").
    + destruct (detectIntent (categorizedData s)); simpl; [|reflexivity].
      destruct (analyzeSentiment (categorizedData s)); simpl; [|reflexivity].
      repeat split; auto. simpl. repeat apply same_but_timestamp_set. exact Hrec.
    + destruct (String.eqb (dataType (metadata s)) "event"); simpl.
      * repeat split; auto. simpl. apply same_but_timestamp_set. exact Hrec.
      * repeat split; auto.
Qed.

End ClockEnrichment.

Section ClockProposal.
Context {E : Engine}.
Import Layers Pipeline.

Ltac same_reads H :=
  repeat match goal with
         | |- context [lookup ?k ?o] =>
             lazymatch type of H with
             | same_but_timestamp o _ => rewrite (H k) by discriminate
             end
         end.

Lemma same_param_refl (p : string * value) : same_param p p.
Proof. split; [reflexivity | left; reflexivity]. Qed.

Lemma same_params_refl (ps : object) : Forall2 same_param ps ps.
Proof. induction ps; constructor; auto using same_param_refl. Qed.

Lemma same_action_refl (a : Action) : same_action a a.
Proof. split; [reflexivity|]. split; [reflexivity | left; reflexivity]. Qed.

Lemma same_actions_refl (l : list Action) : Forall2 same_action l l.
Proof. induction l; constructor; auto using same_action_refl. Qed.

Lemma same_proposal_refl (r : ReasonOutput) : same_proposal r r.
Proof. split; [reflexivity | apply same_actions_refl]. Qed.

(** Actions built alike from parameter lists that agree. *)
Lemma same_action_mk (name why : string) (ps ps' : object) :
  Forall2 same_param ps ps' ->
  same_action (mkAction name ps why) (mkAction name ps' why).
Proof.
  intros H. split; [reflexivity|]. split; [reflexivity|].
  right. exists ps, ps'. auto.
Qed.

(** The one parameter that holds the enriched record. *)
Lemma same_param_record (k : string) (o o' : object) :
  In k ["context"; "event"] -> same_but_timestamp o o' ->
  same_param (k, VObject o) (k, VObject o').
Proof.
  intros Hk H. split; [reflexivity|]. right. split; [exact Hk|].
  exists o, o'. auto.
Qed.

Lemma reasonLayer_clock (u u' : UnderstandingOutput) :
  same_but_time u u' ->
  result_rel same_proposal (reasonLayer u) (reasonLayer u').
Proof.
  intros (Htype & Hsrc & Hrec). unfold reasonLayer. cbv zeta.
  rewrite <- Htype.
  rewrite (generateContextualResponse_same _ _ Hrec).
  same_reads Hrec.
  destruct (String.eqb (dataType (metadata u)) "transaction");
    [apply result_rel_refl, same_proposal_refl|].
  destruct (String.eqb (dataType (metadata u)) "message").
  - destruct (ToString (lookup "intent" (categorizedData u'))); simpl; [|reflexivity].
    destruct (ToString (lookup "sentiment" (categorizedData u'))); simpl; [|reflexivity].
    split; [reflexivity|]. simpl.
    assert (Hreply : forall why,
      same_action
        (mkAction "respondToMessage"
           [("content", VString (generateContextualResponse (categorizedData u')));
            ("context", VObject (categorizedData u))] why)
        (mkAction "respondToMessage"
           [("content", VString (generateContextualResponse (categorizedData u')));
            ("context", VObject (categorizedData u'))] why)).
    { intros why. apply same_action_mk.
      constructor; [apply same_param_refl|].
      constructor; [|constructor].
      apply same_param_record; [simpl; auto | exact Hrec]. }
    destruct (strict_eq_str (lookup "intent" (categorizedData u')) "question"); simpl.
    + constructor; [apply Hreply | apply same_actions_refl].
    + constructor; [apply Hreply | constructor].
  - destruct (String.eqb (dataType (metadata u)) "event");
      [|apply result_rel_refl, same_proposal_refl].
    destruct (ToString (lookup "eventName" (categorizedData u'))); simpl; [|reflexivity].
    split; [reflexivity|]. simpl.
    constructor; [|constructor].
    apply same_action_mk.
    constructor; [|constructor].
    apply same_param_record; [simpl; auto | exact Hrec].
Qed.

End ClockProposal.

Section ClockCritique.
Context {E : Engine}.
Import Layers Pipeline.

(** Parameters other than [context] and [event] read the same. *)
Lemma same_params_lookup (ps ps' : object) (k : string) :
  Forall2 same_param ps ps' -> ~ In k ["context"; "event"] ->
  lookup k ps = lookup k ps'.
Proof.
  intros H Hk. induction H as [|[k1 v1] [k2 v2] ps ps' [Hfst Hsnd] _ IH];
    [reflexivity|].
  simpl in Hfst, Hsnd. subst k2. simpl.
  destruct (String.eqb k k1) eqn:Heq; [|exact IH].
  apply String.eqb_eq in Heq. subst k1.
  destruct Hsnd as [Hv | [Hin _]]; [exact Hv | contradiction].
Qed.

Lemma same_action_get (a a' : Action) (k : string) :
  same_action a a' -> ~ In k ["context"; "event"] ->
  get (params a) k = get (params a') k.
Proof.
  intros (_ & _ & [Hp | (ps & ps' & Hp & Hp' & Hall)]) Hk.
  - rewrite Hp. reflexivity.
  - rewrite Hp, Hp'. simpl. rewrite (same_params_lookup _ _ k Hall Hk). reflexivity.
Qed.

Ltac other_key := simpl; intros [H | [H | []]]; discriminate H.

Ltac same_params Ha :=
  rewrite ?(same_action_get _ _ "value" Ha ltac:(other_key)),
    ?(same_action_get _ _ "force" Ha ltac:(other_key)),
    ?(same_action_get _ _ "to" Ha ltac:(other_key)),
    ?(same_action_get _ _ "content" Ha ltac:(other_key)).

(** The verdict reads the name and [value], [force], [to] and [content]
    only. *)
Lemma categoricalImperative_same (a a' : Action) :
  same_action a a' -> categoricalImperative a = categoricalImperative a'.
Proof.
  intros Ha. pose proof Ha as (Hn & _ & _).
  unfold categoricalImperative, universalizabilityTest, humanityAsEndTest,
    kingdomOfEndsTest, content_includes.
  rewrite Hn. same_params Ha. reflexivity.
Qed.

Lemma checkEpistemicBoundaries_same (a a' : Action) :
  same_action a a' ->
  Layers.checkEpistemicBoundaries a = Layers.checkEpistemicBoundaries a'.
Proof.
  intros Ha. pose proof Ha as (Hn & _ & _). unfold Layers.checkEpistemicBoundaries.
  rewrite Hn. same_params Ha. reflexivity.
Qed.

Lemma highValueStep_same (a a' : Action) (c : number) :
  same_action a a' -> highValueStep c a = highValueStep c a'.
Proof.
  intros Ha. pose proof Ha as (Hn & _ & _). unfold highValueStep.
  rewrite Hn. same_params Ha. reflexivity.
Qed.

Lemma forEach_same (l l' : list Action) :
  Forall2 same_action l l' -> forall c, forEach l c = forEach l' c.
Proof.
  induction 1 as [|a a' l l' Ha _ IH]; intros c; simpl; [reflexivity|].
  rewrite (highValueStep_same _ _ c Ha).
  destruct (highValueStep c a'); simpl; auto.
Qed.

Lemma critiqueStep_same (st st' : CritiqueState) (a a' : Action) :
  same_state st st' -> same_action a a' ->
  result_rel same_state (critiqueStep st a) (critiqueStep st' a').
Proof.
  intros (Hap & Hrj & Hl & Hu & He) Ha. unfold critiqueStep.
  rewrite (categoricalImperative_same _ _ Ha), (checkEpistemicBoundaries_same _ _ Ha).
  assert (Hn : action a = action a') by apply Ha.
  destruct (categoricalImperative a') as [verdict|]; simpl; [|reflexivity].
  destruct (Layers.checkEpistemicBoundaries a') as [flag|]; simpl; [|reflexivity].
  rewrite Hl, Hu, He, Hn.
  destruct (approved verdict), (uncertain flag); simpl;
    repeat split; simpl; auto; apply Forall2_app; auto.
Qed.

Lemma critiqueLoop_same (l l' : list Action) :
  Forall2 same_action l l' -> forall st st',
  same_state st st' ->
  result_rel same_state (critiqueLoop l st) (critiqueLoop l' st').
Proof.
  induction 1 as [|a a' l l' Ha _ IH]; intros st st' Hst; simpl; [exact Hst|].
  apply (result_rel_bind same_state); [apply critiqueStep_same; assumption|].
  intros st1 st1' H1. apply IH. exact H1.
Qed.

Lemma calculateConfidence_same (ap ap' rj rj' : list Action) (un : list string) :
  Forall2 same_action ap ap' -> Forall2 same_action rj rj' ->
  calculateConfidence ap rj un = calculateConfidence ap' rj' un.
Proof.
  intros Hap Hrj. unfold calculateConfidence.
  rewrite (Forall2_length Hrj). cbv zeta. rewrite (forEach_same _ _ Hap). reflexivity.
Qed.

Lemma critiqueLayer_clock (r r' : ReasonOutput) :
  same_proposal r r' ->
  result_rel same_critique (critiqueLayer r) (critiqueLayer r').
Proof.
  intros [Hwhy Hacts]. unfold critiqueLayer.
  apply (result_rel_bind same_state).
  - apply critiqueLoop_same; [exact Hacts|]. repeat split; constructor.
  - intros st st' (Hap & Hrj & Hl & Hu & He).
    rewrite (calculateConfidence_same _ _ _ _ (st_uncertainties st) Hap Hrj), Hu.
    destruct (calculateConfidence (st_approved st') (st_rejected st') (st_uncertainties st'));
      simpl; [|reflexivity].
    rewrite Hwhy, He, Hl. repeat split; auto.
Qed.

(** C9.  Two runs of a stage on identical input, at any clock readings.  The
    sensibility layer reads the clock: its two results agree on the
    category, the source and every field of the structured record except
    [timestamp], and the time stamp of the metadata is the clock's.  Every
    later stage has no clock to read, and keeps the difference where it
    is: the enricher and the proposer map inputs that agree up to these
    time stamps to outputs that do, and so does the critique, whose
    confidence, limitations, uncertainties and explanation are equal.  The
    Ethical Evaluator returns the same verdict and reason for such
    actions, in particular for identical ones. *)
Theorem stages_deterministic_up_to_timestamps :
  (forall input n1 n2 n1' n2',
     result_rel same_but_time
       (sensibilityLayer input n1 n2) (sensibilityLayer input n1' n2')) /\
  (forall input n1 n2 s,
     sensibilityLayer input n1 n2 = Ok s -> timestamp (metadata s) = n2) /\
  (forall s s', same_but_time s s' ->
     result_rel same_but_time (understandingLayer s) (understandingLayer s')) /\
  (forall u u', same_but_time u u' ->
     result_rel same_proposal (reasonLayer u) (reasonLayer u')) /\
  (forall r r', same_proposal r r' ->
     result_rel same_critique (critiqueLayer r) (critiqueLayer r')) /\
  (forall a a', same_action a a' ->
     categoricalImperative a = categoricalImperative a').
Proof.
  split; [exact sensibilityLayer_clock|].
  split.
  { intros input n1 n2 s H. unfold sensibilityLayer in H.
    apply bind_Ok in H. destruct H as [type [_ H]].
    apply bind_Ok in H. destruct H as [src [_ H]].
    apply bind_Ok in H. destruct H as [cd [_ H]].
    injection H as <-. reflexivity. }
  split; [exact understandingLayer_clock|].
  split; [exact reasonLayer_clock|].
  split; [exact critiqueLayer_clock | exact categoricalImperative_same].
Qed.

(** X1.  The whole pipeline at two pairs of clock readings: it fails in both
    runs with the same error, or returns in both; then the confidence, the
    limitations, the uncertainties and the explanation are equal, and the
    approved and rejected lists hold, in the same order, actions with the
    same name, the same justification and the same parameters, except for
    the [timestamp] field of the record held in the [context] parameter of
    [respondToMessage] and in the [event] parameter of [logEvent]. *)
Theorem carPipeline_clock (raw ctx : value) (n1 n2 n1' n2' : number) :
  result_rel same_critique (carPipeline raw ctx n1 n2) (carPipeline raw ctx n1' n2').
Proof.
  unfold carPipeline. cbv zeta.
  match goal with
  | |- result_rel _ (match ?m with _ => _ end) (match ?m' with _ => _ end) =>
      assert (H : result_rel same_critique m m')
  end.
  { apply (result_rel_bind same_but_time); [apply sensibilityLayer_clock|].
    intros s s' Hs.
    apply (result_rel_bind same_but_time); [apply understandingLayer_clock; exact Hs|].
    intros u u' Hu.
    apply (result_rel_bind same_proposal); [apply reasonLayer_clock; exact Hu|].
    intros r r' Hr.
    apply (result_rel_bind same_critique); [apply critiqueLayer_clock; exact Hr|].
    intros c c' Hc. exact Hc. }
  match type of H with
  | result_rel _ ?m ?m' => destruct m, m'; simpl in *; try contradiction; congruence || exact H
  end.
Qed.

End ClockCritique.

(** C9 as the claim states it fails: two runs of the sensibility layer on
    the same message at different clock readings return different outputs;
    the clock is read for the time stamp of the record and for the time
    stamp of the metadata. *)
Lemma sensibilityLayer_time_counterexample :
  exists s s',
    Layers.sensibilityLayer (E := SampleEngine.engine)
      {| Layers.rawData := Samples.message; Layers.context := VUndefined |}
      (of_Z 0) (of_Z 0) = Ok s /\
    Layers.sensibilityLayer (E := SampleEngine.engine)
      {| Layers.rawData := Samples.message; Layers.context := VUndefined |}
      (of_Z 1) (of_Z 1) = Ok s' /\
    s <> s' /\
    lookup "timestamp" (Layers.categorizedData s) = VNumber (of_Z 0) /\
    lookup "timestamp" (Layers.categorizedData s') = VNumber (of_Z 1) /\
    Layers.timestamp (Layers.metadata s) = of_Z 0 /\
    Layers.timestamp (Layers.metadata s') = of_Z 1.
Proof.
  do 2 eexists.
  split; [vm_compute; reflexivity|]. split; [vm_compute; reflexivity|].
  split; [discriminate|]. repeat split.
Qed.

(** ** Classification and source detection *)

Section Classifier.
Context {E : Engine}.
Import Layers.

(** X2.  [detectDataType] raises exactly on [undefined] and [null]; on any other
    value it returns one of the five categories, [unknown] when the fields
    [hash], [content], [message], [event] and [inputType] are undefined
    ([from] and [to] are then not read). *)
Theorem detectDataType_range (data ctx : value) :
  (nullish data = true -> detectDataType data ctx = Throw TypeError) /\
  (nullish data = false ->
     exists type, detectDataType data ctx = Ok type /\
       In type ["transaction"; "message"; "event"; "userInput"; "unknown"]) /\
  ((forall k, In k ["hash"; "content"; "message"; "event"; "inputType"] ->
      get data k = Ok VUndefined) ->
   detectDataType data ctx = Ok "unknown").
Proof.
  split; [|split].
  - intros Hn. unfold detectDataType, js_and. rewrite (get_nullish _ _ Hn). reflexivity.
  - intros Hn.
    destruct (get_nonnullish data "hash" Hn) as [hash Hh].
    destruct (get_nonnullish data "from" Hn) as [from Hf].
    destruct (get_nonnullish data "to" Hn) as [to Ht].
    destruct (get_nonnullish data "content" Hn) as [content Hc].
    destruct (get_nonnullish data "message" Hn) as [message Hm].
    destruct (get_nonnullish data "event" Hn) as [event He].
    destruct (get_nonnullish data "inputType" Hn) as [inputType Hi].
    rewrite (detectDataType_rules _ ctx _ _ _ _ _ _ _ Hh Hf Ht Hc Hm He Hi).
    eexists. split; [reflexivity|].
    destruct (truthy hash && truthy from && truthy to); [simpl; auto|].
    destruct (truthy content || truthy message); [simpl; auto|].
    destruct (truthy event); [simpl; auto|].
    destruct (strict_eq_str inputType "user"); simpl; auto 6.
  - intros Hall. unfold detectDataType, js_and, js_or.
    rewrite (Hall "hash"), (Hall "content"), (Hall "message"), (Hall "event"),
      (Hall "inputType") by (simpl; auto 6).
    reflexivity.
Qed.

(** X3.  Which of several matching shapes wins: a record with [hash], [from] and
    [to] is a transaction even when it also has [content], [event] or
    [inputType]; a record with a message text is a message even when it
    also has [event] or [inputType]. *)
Theorem detectDataType_priority (o : object) (ctx : value) :
  (truthy (lookup "hash" o) = true -> truthy (lookup "from" o) = true ->
   truthy (lookup "to" o) = true ->
   detectDataType (VObject o) ctx = Ok "transaction") /\
  (truthy (lookup "hash" o) && truthy (lookup "from" o) && truthy (lookup "to" o) = false ->
   truthy (lookup "content" o) || truthy (lookup "message" o) = true ->
   detectDataType (VObject o) ctx = Ok "message") /\
  (truthy (lookup "hash" o) && truthy (lookup "from" o) && truthy (lookup "to" o) = false ->
   truthy (lookup "content" o) || truthy (lookup "message" o) = false ->
   truthy (lookup "event" o) = true ->
   detectDataType (VObject o) ctx = Ok "event").
Proof.
  assert (Hr := detectDataType_rules (VObject o) ctx _ _ _ _ _ _ _
                  eq_refl eq_refl eq_refl eq_refl eq_refl eq_refl eq_refl).
  rewrite Hr. repeat split.
  - intros -> -> ->. reflexivity.
  - intros -> ->. reflexivity.
  - intros -> -> ->. reflexivity.
Qed.

End Classifier.

Lemma detectDataType_range_witness :
  Layers.detectDataType
    (VObject [("type", VString "unknown"); ("data", VString "...")]) VUndefined =
  Ok "unknown" /\
  Layers.detectDataType (VString "hello") VUndefined = Ok "unknown" /\
  Layers.detectDataType (VArray [VNumber (of_Z 1)]) VUndefined = Ok "unknown".
Proof.
  split; [|split];
    apply (proj2 (proj2 (detectDataType_range _ VUndefined)));
    intros k [<- | [<- | [<- | [<- | [<- | []]]]]]; reflexivity.
Defined.

Lemma detectDataType_priority_witness :
  Layers.detectDataType
    (VObject [("hash", VString "0x1"); ("from", VString "0xA"); ("to", VString "0xB");
              ("content", VString "hello"); ("event", VString "Transfer")])
    VUndefined = Ok "transaction".
Proof.
  apply (proj1 (detectDataType_priority _ VUndefined)); reflexivity.
Defined.

Section SourceDetection.
Context {E : Engine}.
Import Layers.

Lemma chainMap_own_named (key name : string) :
  chainMap_own key chainMap = Some name ->
  In (key, name) chainMap /\ name <> "".
Proof.
  unfold chainMap. simpl.
  repeat match goal with
         | |- context [String.eqb key ?k] =>
             destruct (String.eqb key k) eqn:?H
         end;
    intros Hs; try discriminate Hs; injection Hs as <-;
    repeat match goal with
           | H : String.eqb key _ = true |- _ => apply String.eqb_eq in H; subst key
           end;
    split; simpl; auto 6; discriminate.
Qed.

(** X4.  [detectSource] raises on [undefined] and [null].  When it returns, the
    source is never a falsy value: it is the name of a known chain, an
    inherited member of the chain table, ["Chain-" + id], the record's own
    truthy [source], or ["unknown"]. *)
Theorem detectSource_never_falsy (data : value) :
  (nullish data = true -> detectSource data = Throw TypeError) /\
  (forall src, detectSource data = Ok src ->
     match src with
     | SourceValue v => truthy v = true
     | SourceInherited member => In member objectPrototypeMembers
     end).
Proof.
  split.
  - intros Hn. unfold detectSource. rewrite (get_nullish _ _ Hn). reflexivity.
  - intros src H. unfold detectSource in H.
    apply bind_Ok in H. destruct H as [chainId [Hc H]].
    destruct (truthy chainId).
    + apply bind_Ok in H. destruct H as [key [Hk H]].
      destruct (chainMap_own key chainMap) as [name|] eqn:Hown.
      * injection H as <-. apply chainMap_own_named in Hown. destruct Hown as [_ Hne].
        simpl. apply String.eqb_neq in Hne. rewrite Hne. reflexivity.
      * destruct (existsb (String.eqb key) objectPrototypeMembers) eqn:Hp.
        -- injection H as <-. apply existsb_eqb_In. exact Hp.
        -- injection H as <-. reflexivity.
    + unfold js_or in H.
      apply bind_Ok in H. destruct H as [v [Hv H]].
      apply bind_Ok in Hv. destruct Hv as [s [Hs Hv]].
      destruct (truthy s) eqn:Hts.
      * injection Hv as <-. injection H as <-. exact Hts.
      * injection Hv as <-. injection H as <-. reflexivity.
Qed.

(** X5.  Chain ids given as non-empty strings: each of the four known ids names
    its chain, and any other id that is not the name of an inherited member
    gives ["Chain-" + id]. *)
Theorem detectSource_chains (o : object) (id : string) :
  lookup "chainId" o = VString id -> id <> "" ->
  (forall name, In (id, name) chainMap ->
     detectSource (VObject o) = Ok (SourceValue (VString name))) /\
  (chainMap_own id chainMap = None -> ~ In id objectPrototypeMembers ->
     detectSource (VObject o) = Ok (SourceValue (VString ("Chain-" ++ id)))).
Proof.
  intros Hid Hne. apply String.eqb_neq in Hne.
  assert (Hget : get (VObject o) "chainId" = Ok (VString id))
    by (simpl; rewrite Hid; reflexivity).
  assert (Htr : truthy (VString id) = true) by (simpl; rewrite Hne; reflexivity).
  unfold detectSource. rewrite Hget. cbn [bind]. rewrite Htr. cbn [ToString bind].
  split.
  - intros name Hin. unfold chainMap in Hin. simpl in Hin.
    destruct Hin as [H | [H | [H | [H | []]]]]; injection H as <- <-; reflexivity.
  - intros Hown Hproto. rewrite Hown.
    destruct (existsb (String.eqb id) objectPrototypeMembers) eqn:Hp.
    + apply existsb_eqb_In in Hp. contradiction.
    + reflexivity.
Qed.

End SourceDetection.

Lemma detectSource_chains_witness :
  Layers.detectSource (E := SampleEngine.engine)
    (VObject [("chainId", VString "42161")]) =
  Ok (Layers.SourceValue (VString "Arbitrum")).
Proof.
  apply (proj1 (detectSource_chains (E := SampleEngine.engine)
                  [("chainId", VString "42161")] "42161" eq_refl
                  ltac:(discriminate)) "Arbitrum").
  simpl. auto.
Defined.

(** ** Enrichment of transactions *)

Section TransactionEnrichment.
Context {E : Engine}.
Import Layers.

Lemma prefix_length (p s : string) :
  String.prefix p s = true -> (String.length p <= String.length s)%nat.
Proof.
  revert s. induction p as [|c p IH]; intros s H; simpl; [lia|].
  destruct s as [|c' s]; simpl in H; [discriminate|].
  destruct (Ascii.ascii_dec c c'); [|discriminate].
  apply IH in H. simpl. lia.
Qed.

Lemma gt_length (s : string) (n : nat) :
  gt (VNumber (of_nat (String.length s))) (of_Z (Z.of_nat n)) =
  Ok (n <? String.length s)%nat.
Proof.
  unfold gt, of_nat, of_Z. simpl. f_equal.
  destruct (n <? String.length s)%nat eqn:Hlt.
  - apply Nat.ltb_lt in Hlt.
    destruct (Qle_bool (inject_Z (Z.of_nat (String.length s))) (inject_Z (Z.of_nat n)))
      eqn:Hq; [|reflexivity].
    apply Qle_bool_iff in Hq. rewrite <- Zle_Qle in Hq. lia.
  - apply Nat.ltb_ge in Hlt.
    assert (Hq : Qle_bool (inject_Z (Z.of_nat (String.length s)))
                   (inject_Z (Z.of_nat n)) = true).
    { apply Qle_bool_iff. rewrite <- Zle_Qle. lia. }
    rewrite Hq. reflexivity.
Qed.

(** X6.  The transaction subtype: a record without recipient is a contract
    deployment whatever else it holds; with a recipient, call data of more
    than two characters is matched on its first ten characters against the
    two ERC-20 selectors, and short or missing call data is a value
    transfer. *)
Theorem categorizeTransaction_cases (tx : object) :
  (truthy (lookup "to" tx) = false -> categorizeTransaction tx = Ok "contract-deployment") /\
  (forall data, truthy (lookup "to" tx) = true -> lookup "data" tx = VString data ->
     categorizeTransaction tx =
     Ok (if (String.length data <=? 2)%nat then "value-transfer"
         else if String.prefix "0xa9059cbb" data then "ERC20-transfer"
         else if String.prefix "0x23b872dd" data then "ERC20-transferFrom"
         else "unknown-contract-interaction")) /\
  (forall type, categorizeTransaction tx = Ok type ->
     In type ["contract-deployment"; "ERC20-transfer"; "ERC20-transferFrom";
              "unknown-contract-interaction"; "value-transfer"]) /\
  (categorizeTransaction tx = Ok "contract-deployment" -> truthy (lookup "to" tx) = false).
Proof.
  split; [|split; [|split]].
  - intros Hto. unfold categorizeTransaction. rewrite Hto. reflexivity.
  - intros data Hto Hdata. unfold categorizeTransaction. rewrite Hto, Hdata.
    cbn [negb].
    destruct data as [|c data]; [reflexivity|].
    assert (Hlen : and_then (truthy (VString (String c data)))
                     (len <- get (VString (String c data)) "length" ;; gt len (of_Z 2)) =
                   Ok (2 <? String.length (String c data))%nat).
    { change (of_Z 2) with (of_Z (Z.of_nat 2)). rewrite <- gt_length. reflexivity. }
    rewrite Hlen. cbn [bind]. rewrite Nat.leb_antisym.
    destruct (2 <? String.length (String c data))%nat; cbn [negb]; [|reflexivity].
    cbn [call_slice0 bind strict_eq_str].
    assert (Hsel : forall sel, String.length sel = 10%nat ->
              String.eqb (substring 0 10 (String c data)) sel =
              String.prefix sel (String c data)).
    { intros sel Hl. destruct (String.prefix sel (String c data)) eqn:Hp.
      - apply prefix_correct in Hp. rewrite Hl in Hp. rewrite Hp. apply String.eqb_refl.
      - apply String.eqb_neq. intros Heq.
        assert (Hp' : String.prefix sel (String c data) = true)
          by (apply prefix_correct; rewrite Hl; exact Heq).
        congruence. }
    rewrite !Hsel by reflexivity.
    destruct (String.prefix "0xa9059cbb" (String c data)); [reflexivity|].
    destruct (String.prefix "0x23b872dd" (String c data)); reflexivity.
  - intros type H. unfold categorizeTransaction in H.
    destruct (negb (truthy (lookup "to" tx))); [injection H as <-; simpl; auto|].
    apply bind_Ok in H. destruct H as [c [_ H]].
    destruct c; [|injection H as <-; simpl; auto 6].
    apply bind_Ok in H. destruct H as [sig [_ H]].
    destruct (strict_eq_str sig "0xa9059cbb"); [injection H as <-; simpl; auto|].
    destruct (strict_eq_str sig "0x23b872dd"); injection H as <-; simpl; auto 6.
  - intros H. unfold categorizeTransaction in H.
    destruct (truthy (lookup "to" tx)); [|reflexivity]. exfalso. cbn [negb] in H.
    apply bind_Ok in H. destruct H as [c [_ H]].
    destruct c; [|discriminate H].
    apply bind_Ok in H. destruct H as [sig [_ H]].
    destruct (strict_eq_str sig "0xa9059cbb"); [discriminate H|].
    destruct (strict_eq_str sig "0x23b872dd"); discriminate H.
Qed.

(** X7.  The risk level is [high] or [low]; a record without recipient is never
    [low], and neither is one whose value exceeds 1000. *)
Theorem assessRisk_cases (tx : object) (risk : string) :
  assessRisk tx = Ok risk ->
  (risk = "high" \/ risk = "low") /\
  (truthy (lookup "to" tx) = false -> risk = "high") /\
  (gt (lookup "value" tx) (of_Z 1000) = Ok true -> risk = "high").
Proof.
  unfold assessRisk. intros H.
  apply bind_Ok in H. destruct H as [c1 [Hc1 H]].
  destruct c1; [injection H as <-; repeat split; auto|].
  destruct (truthy (lookup "to" tx)); cbn [negb] in H.
  - apply bind_Ok in H. destruct H as [len [_ H]].
    apply bind_Ok in H. destruct H as [c3 [_ H]].
    destruct c3; injection H as <-; repeat split; auto; try discriminate.
    all: intros Hgt; rewrite Hgt in Hc1; discriminate Hc1.
  - injection H as <-. repeat split; auto.
Qed.

End TransactionEnrichment.

Lemma assessRisk_cases_witness :
  Layers.assessRisk (E := SampleEngine.engine) [("value", VNumber (Fin 5%Q))] = Ok "high".
Proof.
  destruct (Layers.assessRisk (E := SampleEngine.engine) [("value", VNumber (Fin 5%Q))])
    as [risk|] eqn:H; [|vm_compute in H; discriminate H].
  destruct (assessRisk_cases (E := SampleEngine.engine) _ risk H) as [_ [Hto _]].
  rewrite (Hto eq_refl). reflexivity.
Defined.

(** ** Contents of the critique *)

Section CritiqueContents.
Context {E : Engine}.
Import Layers.

Lemma string_app_assoc (a b c : string) : (a ++ b) ++ c = a ++ (b ++ c).
Proof. induction a as [|x a IH]; simpl; [reflexivity | rewrite IH; reflexivity]. Qed.

Lemma string_app_nil_r (a : string) : a ++ "" = a.
Proof. induction a as [|x a IH]; simpl; [reflexivity | rewrite IH; reflexivity]. Qed.

Lemma critiqueStep_lists (st st' : CritiqueState) (a : Action) :
  critiqueStep st a = Ok st' ->
  st_limitations st' = (st_limitations st ++ map limitationOf (filter isRejected [a]))%list /\
  st_uncertainties st' =
    (st_uncertainties st ++ map uncertaintyOf (filter isUncertain [a]))%list /\
  st_explanation st' = st_explanation st ++ explanationLine a.
Proof.
  unfold critiqueStep. intros H.
  apply bind_Ok in H. destruct H as [verdict [Hv H]].
  apply bind_Ok in H. destruct H as [flag [Hf H]].
  injection H as H. subst st'.
  unfold isRejected, isApproved, isUncertain, explanationLine.
  simpl filter. rewrite Hv, Hf.
  destruct (approved verdict) eqn:Ha, (uncertain flag) eqn:Hu; simpl;
    unfold limitationOf, uncertaintyOf; rewrite ?Hv, ?Hf, ?Ha;
    rewrite ?app_nil_r, ?string_app_assoc; repeat split; reflexivity.
Qed.

Lemma critiqueLoop_lists (actions : list Action) : forall st st',
  critiqueLoop actions st = Ok st' ->
  st_limitations st' =
    (st_limitations st ++ map limitationOf (filter isRejected actions))%list /\
  st_uncertainties st' =
    (st_uncertainties st ++ map uncertaintyOf (filter isUncertain actions))%list /\
  st_explanation st' = st_explanation st ++ concatAll (map explanationLine actions).
Proof.
  induction actions as [|a rest IH]; intros st st' H; simpl in H.
  - injection H as <-. simpl. rewrite !app_nil_r, string_app_nil_r. auto.
  - apply bind_Ok in H. destruct H as [st1 [Hstep H]].
    apply critiqueStep_lists in Hstep. destruct Hstep as [Hl [Hu He]].
    apply IH in H. destruct H as [Hl' [Hu' He']].
    rewrite Hl', Hu', He', Hl, Hu, He. simpl.
    destruct (isRejected a), (isUncertain a); simpl;
      rewrite ?app_nil_r, <- ?app_assoc, ?string_app_assoc; auto.
Qed.

(** When the loop completes, every action has been given a verdict and a
    flag. *)
Lemma critiqueLoop_evaluated (actions : list Action) : forall st st' a,
  critiqueLoop actions st = Ok st' -> In a actions ->
  (exists verdict, categoricalImperative a = Ok verdict) /\
  (exists flag, checkEpistemicBoundaries a = Ok flag).
Proof.
  induction actions as [|x rest IH]; intros st st' a H Hin; simpl in *; [contradiction|].
  apply bind_Ok in H. destruct H as [st1 [Hstep H]].
  destruct Hin as [<- | Hin]; [|eapply IH; eassumption].
  unfold critiqueStep in Hstep.
  apply bind_Ok in Hstep. destruct Hstep as [verdict [Hv Hstep]].
  apply bind_Ok in Hstep. destruct Hstep as [flag [Hf _]].
  eauto.
Qed.

Lemma rejection_reason_form (a : Action) (verdict : CategoricalImperativeResult) :
  categoricalImperative a = Ok verdict -> approved verdict = false ->
  exists rest, reason verdict = "Fails " ++ rest.
Proof.
  unfold categoricalImperative. intros H Hrej.
  apply bind_Ok in H. destruct H as [u [_ H]].
  destruct (negb (passes u)); [injection H as <-; simpl; eauto|].
  apply bind_Ok in H. destruct H as [h [_ H]].
  destruct (negb (passes h)); [injection H as <-; simpl; eauto|].
  apply bind_Ok in H. destruct H as [k [_ H]].
  destruct (negb (passes k)); injection H as <-; simpl; eauto.
  discriminate Hrej.
Qed.

Lemma critiqueLayer_lists (input : ReasonOutput) (out : CritiqueOutput) :
  critiqueLayer input = Ok out ->
  limitations out = map limitationOf (filter isRejected (proposedActions input)) /\
  uncertainties out = map uncertaintyOf (filter isUncertain (proposedActions input)).
Proof.
  unfold critiqueLayer. intros H.
  apply bind_Ok in H. destruct H as [st [Hloop H]].
  apply bind_Ok in H. destruct H as [conf [_ H]].
  injection H as <-. simpl.
  apply critiqueLoop_lists in Hloop. simpl in Hloop.
  destruct Hloop as [Hl [Hu _]]. auto.
Qed.

(** X8.  What the Critique Aggregator writes.  The limitations are the verdict
    reasons of the rejected actions, in proposer order, each after
    "Ethical constraint: " and each starting with "Fails "; the
    uncertainties are the flags' reasons of the flagged actions, each one of
    the two fixed sentences; the explanation is the reasoning, one
    "Approved:" or "Rejected:" line per proposed action in order, and the
    confidence line. *)
Theorem critiqueLayer_contents (input : ReasonOutput) (out : CritiqueOutput) :
  critiqueLayer input = Ok out ->
  limitations out = map limitationOf (filter isRejected (proposedActions input)) /\
  uncertainties out = map uncertaintyOf (filter isUncertain (proposedActions input)) /\
  explanation out =
    reasoning input ++ nl ++ concatAll (map explanationLine (proposedActions input)) ++
    nl ++ "Confidence: " ++ Number_toString (confidence out) /\
  (forall l, In l (limitations out) ->
     exists rest, l = "Ethical constraint: Fails " ++ rest) /\
  (forall u, In u (uncertainties out) ->
     u = "High-value transactions exceed confidence boundaries" \/
     u = "Long responses may exceed knowledge boundaries").
Proof.
  unfold critiqueLayer. intros H.
  apply bind_Ok in H. destruct H as [st [Hloop H]].
  apply bind_Ok in H. destruct H as [conf [_ H]].
  injection H as <-. simpl.
  pose proof (fun a => critiqueLoop_evaluated _ _ _ a Hloop) as Heval.
  apply critiqueLoop_lists in Hloop. simpl in Hloop.
  destruct Hloop as [Hl [Hu He]].
  rewrite Hl, Hu, He. repeat split.
  - intros l Hin. apply in_map_iff in Hin. destruct Hin as [a [<- Ha]].
    apply filter_In in Ha. destruct Ha as [Hin Hrej].
    destruct (Heval a Hin) as [[verdict Hv] _].
    unfold isRejected, isApproved in Hrej. unfold limitationOf.
    rewrite Hv in *.
    apply negb_true_iff in Hrej.
    destruct (rejection_reason_form a verdict Hv Hrej) as [rest ->].
    exists rest. reflexivity.
  - intros u Hin. apply in_map_iff in Hin. destruct Hin as [a [<- Ha]].
    apply filter_In in Ha. destruct Ha as [_ Hunc].
    unfold isUncertain in Hunc. unfold uncertaintyOf.
    destruct (checkEpistemicBoundaries a) as [flag|] eqn:Hf; [|discriminate Hunc].
    unfold checkEpistemicBoundaries in Hf.
    apply bind_Ok in Hf. destruct Hf as [c1 [_ Hf]].
    destruct c1; [injection Hf as <-; simpl; auto|].
    apply bind_Ok in Hf. destruct Hf as [c2 [_ Hf]].
    destruct c2; injection Hf as <-; simpl in *; [auto | discriminate Hunc].
Qed.

End CritiqueContents.

Lemma critiqueLayer_contents_witness :
  exists out,
    Layers.critiqueLayer (E := SampleEngine.engine) Samples.proposal = Ok out /\
    Layers.limitations out =
      ["Ethical constraint: Fails kingdom of ends: Supporting scams is incompatible with a moral community"] /\
    Layers.uncertainties out = ["High-value transactions exceed confidence boundaries"].
Proof.
  destruct (Layers.critiqueLayer (E := SampleEngine.engine) Samples.proposal)
    as [out|] eqn:H; [|vm_compute in H; discriminate H].
  destruct (critiqueLayer_contents (E := SampleEngine.engine) Samples.proposal out H)
    as (Hl & Hu & _).
  exists out. split; [reflexivity|]. rewrite Hl, Hu. vm_compute. split; reflexivity.
Defined.

(** ** What the proposer hands to the critique *)

Section ProposalShapes.
Context {E : Engine}.
Import Layers.

Lemma other_name_benign (a : Action) :
  String.eqb (action a) "executeTransaction" = false ->
  String.eqb (action a) "respondToMessage" = false ->
  benign a.
Proof.
  intros Hx Hr. split; [exact Hx|]. split.
  - unfold isApproved, categoricalImperative.
    destruct (other_action_passes a Hx Hr) as [Hu [Hh Hk]].
    rewrite Hu. simpl. rewrite Hh. simpl. rewrite Hk. reflexivity.
  - unfold isUncertain, checkEpistemicBoundaries. rewrite Hx, Hr. reflexivity.
Qed.

Lemma templated_reply_benign (cd : object) :
  benign (mkAction "respondToMessage"
            [("content", VString (generateContextualResponse cd)); ("context", VObject cd)]
            "Generated response based on intent, sentiment, and history").
Proof.
  pose proof (generateContextualResponse_template cd) as Ht.
  destruct (templates_short_and_clean _ Ht) as (Hlen & H1 & H2 & H3).
  destruct (reply_approved _ [("context", VObject cd)]
              "Generated response based on intent, sentiment, and history"
              Hlen H1 H2 H3) as [Ha Hf].
  split; [reflexivity|]. split.
  - unfold isApproved. rewrite Ha. reflexivity.
  - unfold isUncertain. rewrite Hf. reflexivity.
Qed.

(** Every proposal is a list of benign actions around at most one
    [executeTransaction], which carries a positive value. *)
Lemma reasonLayer_shape (u : UnderstandingOutput) (r : ReasonOutput) :
  reasonLayer u = Ok r ->
  exists pre mid post,
    proposedActions r = (pre ++ mid ++ post)%list /\
    Forall benign pre /\ Forall benign post /\
    (mid = [] \/ exists x, mid = [x] /\ proposedTransfer x).
Proof.
  unfold reasonLayer. intros H.
  destruct (String.eqb (dataType (metadata u)) "transaction").
  - apply bind_Ok in H. destruct H as [tt [_ H]].
    apply bind_Ok in H. destruct H as [from [_ H]].
    apply bind_Ok in H. destruct H as [to [_ H]].
    apply bind_Ok in H. destruct H as [positive [Hpos H]].
    injection H as <-. simpl proposedActions.
    set (verify := mkAction "verifyRecipient" _ _).
    set (gas := mkAction "checkGasPrice" _ _).
    set (monitor := mkAction "monitorTransaction" _ _).
    set (exec := mkAction "executeTransaction" _ _).
    assert (Hv : benign verify) by (apply other_name_benign; reflexivity).
    assert (Hg : benign gas) by (apply other_name_benign; reflexivity).
    assert (Hm : benign monitor) by (apply other_name_benign; reflexivity).
    exists [verify], (if positive then [exec] else []),
      (gas :: if strict_eq_str (lookup "risk" (categorizedData u)) "high"
              then [monitor] else []).
    split; [|split; [|split]].
    + destruct positive, (strict_eq_str (lookup "risk" (categorizedData u)) "high");
        reflexivity.
    + constructor; [exact Hv | constructor].
    + destruct (strict_eq_str (lookup "risk" (categorizedData u)) "high");
        repeat constructor; assumption.
    + destruct positive; [right | left; reflexivity].
      exists exec. split; [reflexivity|].
      unfold proposedTransfer, exec. eauto.
  - destruct (String.eqb (dataType (metadata u)) "message").
    + apply bind_Ok in H. destruct H as [intent [_ H]].
      apply bind_Ok in H. destruct H as [sentiment [_ H]].
      injection H as <-. simpl proposedActions.
      exists [], []. eexists.
      split; [simpl; reflexivity|]. split; [constructor|]. split; [|left; reflexivity].
      destruct (strict_eq_str (lookup "intent" (categorizedData u)) "question"); simpl.
      * constructor; [apply templated_reply_benign|].
        constructor; [apply other_name_benign; reflexivity | constructor].
      * constructor; [apply templated_reply_benign | constructor].
    + destruct (String.eqb (dataType (metadata u)) "event").
      * apply bind_Ok in H. destruct H as [eventName [_ H]].
        injection H as <-. simpl.
        exists [], [], [mkAction "logEvent" [("event", VObject (categorizedData u))]
                          "Record event for future reference"].
        split; [reflexivity|]. split; [constructor|]. split; [|left; reflexivity].
        constructor; [apply other_name_benign; reflexivity | constructor].
      * injection H as <-. exists [], [], [].
        split; [reflexivity|]. split; [constructor|]. split; [constructor|].
        left. reflexivity.
Qed.

End ProposalShapes.

(** ** Outcomes of the pipeline *)

Section PipelineOutcomes.
Context {E : Engine}.
Import Layers.

Lemma critiqueLayer_Ok (input : ReasonOutput) (out : CritiqueOutput) :
  critiqueLayer input = Ok out ->
  approvedActions out = filter isApproved (proposedActions input) /\
  rejectedActions out = Some (filter isRejected (proposedActions input)) /\
  confidence out =
    rounded_confidence (rejectedCount (proposedActions input))
      (uncertainCount (proposedActions input))
      (highValueCount (proposedActions input)).
Proof.
  unfold critiqueLayer. intros H.
  apply bind_Ok in H. destruct H as [st [Hloop H]].
  apply bind_Ok in H. destruct H as [conf [Hconf H]].
  injection H as <-. simpl.
  apply critiqueLoop_Ok in Hloop. simpl in Hloop.
  destruct Hloop as [Ha [Hr [_ Hu]]].
  apply calculateConfidence_Ok in Hconf.
  split; [exact Ha|]. split; [congruence|].
  rewrite Hconf. unfold rejectedCount, uncertainCount, highValueCount.
  rewrite Ha, Hr, Hu, filter_filter. reflexivity.
Qed.

Lemma filter_benign (l : list Action) :
  Forall benign l ->
  filter isRejected l = [] /\ filter isUncertain l = [] /\
  filter (fun a => isApproved a && isHighValue a) l = [].
Proof.
  induction 1 as [|a l (Hx & Ha & Hu) _ (IH1 & IH2 & IH3)]; simpl; [auto|].
  unfold isRejected at 1. rewrite Ha, Hu. unfold isHighValue at 1. rewrite Hx. simpl.
  auto.
Qed.

(** The confidences of the four outcomes; none is below the default
    threshold. *)
Lemma confidence_values :
  rounded_confidence 0 0 0 = of_Z 1 /\
  rounded_confidence 1 0 0 = literal 0.8 /\
  rounded_confidence 0 1 1 = literal 0.8 /\
  rounded_confidence 1 1 0 = Fin (6305039478318695 # 9007199254740992).
Proof. vm_compute. repeat split. Qed.

Lemma confidence_above_threshold :
  number_lt (of_Z 1) Pipeline.defaultConfidenceThreshold = false /\
  number_lt (literal 0.8) Pipeline.defaultConfidenceThreshold = false /\
  number_lt (Fin (6305039478318695 # 9007199254740992))
    Pipeline.defaultConfidenceThreshold = false.
Proof. vm_compute. repeat split. Qed.

(** The confidence of a proposal whose only action that is not benign, if
    any, is [x]. *)
Lemma confidence_of_proposal (r : ReasonOutput) (out : CritiqueOutput)
    (pre mid post : list Action) (scam high : bool) :
  critiqueLayer r = Ok out ->
  proposedActions r = (pre ++ mid ++ post)%list ->
  Forall benign pre -> Forall benign post ->
  (mid = [] \/
   exists x, mid = [x] /\ isRejected x = scam /\ isUncertain x = high /\
     (isApproved x && isHighValue x) = (negb scam && high)) ->
  confidence out =
    match mid with
    | [] => of_Z 1
    | _ =>
        if scam then
          if high then Fin (6305039478318695 # 9007199254740992) else literal 0.8
        else if high then literal 0.8 else of_Z 1
    end.
Proof.
  intros Hc Hlist Hpre Hpost Hmid.
  destruct (critiqueLayer_Ok r out Hc) as (_ & _ & Hconf).
  destruct (filter_benign pre Hpre) as (Hp1 & Hp2 & Hp3).
  destruct (filter_benign post Hpost) as (Hq1 & Hq2 & Hq3).
  destruct confidence_values as (H000 & H100 & H011 & H110).
  rewrite Hconf. unfold rejectedCount, uncertainCount, highValueCount.
  rewrite Hlist, !filter_app, Hp1, Hq1, Hp2, Hq2, Hp3, Hq3, !app_nil_r.
  cbn [app].
  destruct Hmid as [-> | [x [-> (Hs & Hh & Hah)]]].
  - cbn [filter List.length]. exact H000.
  - cbn [filter]. rewrite Hs, Hh, Hah.
    destruct scam, high; cbn [negb andb List.length]; assumption.
Qed.

#[local] Arguments number_lt : simpl never.

Lemma number_lt_asym (n : number) :
  number_lt (of_Z 0) n = true -> number_lt n (of_Z 0) = false.
Proof.
  destruct n as [|b|q]; unfold number_lt, of_Z; intros H; try discriminate.
  - destruct b; [discriminate | reflexivity].
  - apply negb_true_iff in H. apply negb_false_iff.
    apply Qle_bool_iff. apply Qlt_le_weak. apply Qnot_le_lt.
    intros Hle. apply Qle_bool_iff in Hle. congruence.
Qed.

(** The verdict and the flag of the proposer's [executeTransaction]: it can
    only be rejected for the known scam address, and only be flagged for a
    value above 1000. *)
Lemma transfer_verdicts (x : Action) :
  proposedTransfer x ->
  exists (scam high : bool),
    isRejected x = scam /\ isUncertain x = high /\
    (isApproved x && isHighValue x) = (negb scam && high) /\
    limitationOf x = (if scam then scamLimitation else limitationOf x) /\
    uncertaintyOf x = (if high then highValueSentence else "").
Proof.
  intros (to & value & data & -> & Hpos).
  unfold gt in Hpos. apply bind_Ok in Hpos. destruct Hpos as [n [Hn Hpos]].
  injection Hpos as Hpos. apply number_lt_asym in Hpos.
  exists (strict_eq_str to "0xknownScamAddress"), (number_lt (of_Z 1000) n).
  assert (Hv : categoricalImperative
                 (mkAction "executeTransaction"
                    [("to", to); ("value", value); ("data", data)]
                    "Transaction parameters validated, value is positive") =
               Ok (if strict_eq_str to "0xknownScamAddress"
                   then {| approved := false;
                           reason := "Fails kingdom of ends: Supporting scams is incompatible with a moral community" |}
                   else approvedVerdict)).
  { unfold categoricalImperative, universalizabilityTest, humanityAsEndTest,
      kingdomOfEndsTest, lt. simpl. rewrite Hn. simpl. rewrite Hpos. simpl.
    destruct (strict_eq_str to "0xknownScamAddress"); reflexivity. }
  assert (Hf : checkEpistemicBoundaries
                 (mkAction "executeTransaction"
                    [("to", to); ("value", value); ("data", data)]
                    "Transaction parameters validated, value is positive") =
               Ok (if number_lt (of_Z 1000) n
                   then {| uncertain := true; uncertain_reason := highValueSentence |}
                   else {| uncertain := false; uncertain_reason := "" |})).
  { unfold checkEpistemicBoundaries, gt. simpl. rewrite Hn. simpl.
    destruct (number_lt (of_Z 1000) n); reflexivity. }
  unfold isRejected, isApproved, isUncertain, isHighValue, limitationOf, uncertaintyOf.
  rewrite Hv, Hf. unfold gt. simpl. rewrite Hn. simpl.
  destruct (strict_eq_str to "0xknownScamAddress"), (number_lt (of_Z 1000) n);
    repeat split; reflexivity.
Qed.

End PipelineOutcomes.

Section PipelineOutcomesMain.
Context {E : Engine}.
Import Layers.

Lemma carPipeline_Ok (raw ctx : value) (n1 n2 : number) (out : CritiqueOutput) :
  Pipeline.carPipeline raw ctx n1 n2 = Ok out ->
  exists s u r,
    sensibilityLayer {| rawData := raw; context := ctx |} n1 n2 = Ok s /\
    understandingLayer s = Ok u /\ reasonLayer u = Ok r /\ critiqueLayer r = Ok out.
Proof.
  unfold Pipeline.carPipeline. cbv zeta.
  destruct (sensibilityLayer {| rawData := raw; context := ctx |} n1 n2) as [s|] eqn:Hs;
    cbn [bind]; [|discriminate].
  destruct (understandingLayer s) as [u|] eqn:Hu; cbn [bind]; [|discriminate].
  destruct (reasonLayer u) as [r|] eqn:Hr; cbn [bind]; [|discriminate].
  destruct (critiqueLayer r) as [c|] eqn:Hc; cbn [bind]; [|discriminate].
  intros H. injection H as <-. exists s, u, r. auto.
Qed.

(** X9.  Whatever the proposer returns, the critique of it has one of four
    outcomes: nothing rejected and nothing flagged, confidence 1; one of the
    two, confidence 0.8 (the double nearest to it); both, confidence
    0.7000000000000001, the double 6305039478318695 / 2^53, which is what
    1 - 0.2 - 0.1 gives when each subtraction is rounded.  The only possible
    limitation is the scam-address rejection of [executeTransaction], the
    only possible uncertainty its value above 1000.  So the confidence is
    never below the default threshold, and at that threshold the decision is
    to defer exactly when a limitation or an uncertainty is present. *)
Theorem proposal_outcomes (u : UnderstandingOutput) (r : ReasonOutput)
    (out : CritiqueOutput) :
  reasonLayer u = Ok r ->
  critiqueLayer r = Ok out ->
  (limitations out = [] \/ limitations out = [scamLimitation]) /\
  (uncertainties out = [] \/ uncertainties out = [highValueSentence]) /\
  confidence out =
    match limitations out, uncertainties out with
    | [], [] => of_Z 1
    | [], _ :: _ => literal 0.8
    | _ :: _, [] => literal 0.8
    | _ :: _, _ :: _ => Fin (6305039478318695 # 9007199254740992)
    end /\
  number_lt (confidence out) Pipeline.defaultConfidenceThreshold = false /\
  Pipeline.shouldDefer (Pipeline.checkEpistemicBoundaries out None) =
    match limitations out, uncertainties out with
    | [], [] => false
    | _, _ => true
    end.
Proof.
  intros Hr Hc.
  destruct (reasonLayer_shape u r Hr) as (pre & mid & post & Hlist & Hpre & Hpost & Hmid).
  destruct (critiqueLayer_lists r out Hc) as (Hlim & Hunc).
  destruct (filter_benign pre Hpre) as (Hp1 & Hp2 & Hp3).
  destruct (filter_benign post Hpost) as (Hq1 & Hq2 & Hq3).
  destruct confidence_above_threshold as (Hone & Hfour & Hboth).
  rewrite Hlist in Hlim, Hunc.
  rewrite !filter_app in Hlim. rewrite !filter_app in Hunc.
  rewrite Hp1, Hq1, app_nil_r in Hlim. rewrite Hp2, Hq2, app_nil_r in Hunc.
  simpl app in Hlim, Hunc.
  unfold Pipeline.checkEpistemicBoundaries. fold Pipeline.defaultConfidenceThreshold.
  destruct Hmid as [-> | [x [-> Hx]]].
  - rewrite (confidence_of_proposal r out pre [] post false false Hc Hlist Hpre Hpost
               (or_introl eq_refl)).
    simpl in Hlim, Hunc. rewrite Hlim, Hunc, Hone. simpl.
    repeat split; auto.
  - destruct (transfer_verdicts x Hx) as (scam & high & Hs & Hh & Hah & Hl & Hu).
    rewrite (confidence_of_proposal r out pre [x] post scam high Hc Hlist Hpre Hpost
               (or_intror (ex_intro _ x (conj eq_refl (conj Hs (conj Hh Hah)))))).
    simpl filter in Hlim, Hunc. rewrite Hs in Hlim. rewrite Hh in Hunc.
    destruct scam, high; simpl in Hlim, Hunc; rewrite Hlim, Hunc;
      rewrite ?Hl, ?Hu; cbv iota; rewrite ?Hone, ?Hfour, ?Hboth; simpl;
      repeat split; auto.
Qed.

End PipelineOutcomesMain.

Lemma proposal_outcomes_witness :
  exists out,
    Pipeline.carPipeline (E := SampleEngine.engine) Samples.scamTransaction VUndefined
      (of_Z 0) (of_Z 0) = Ok out /\
    Layers.limitations out = [scamLimitation] /\
    Layers.uncertainties out = [highValueSentence] /\
    Pipeline.shouldDefer
      (Pipeline.checkEpistemicBoundaries (E := SampleEngine.engine) out None) = true.
Proof.
  destruct (Pipeline.carPipeline (E := SampleEngine.engine) Samples.scamTransaction
              VUndefined (of_Z 0) (of_Z 0)) as [out|] eqn:H;
    [|vm_compute in H; discriminate H].
  exists out. split; [reflexivity|].
  destruct (carPipeline_Ok (E := SampleEngine.engine) _ _ _ _ _ H)
    as (s & u & r & _ & _ & Hr & Hc).
  destruct (proposal_outcomes (E := SampleEngine.engine) u r out Hr Hc)
    as (_ & _ & _ & _ & Hd).
  rewrite Hd. vm_compute in H. injection H as <-.
  repeat split; reflexivity.
Defined.

(** ** The blockchain ethics module *)

Section AddressCheck.
Context {E : Engine}.
Import BlockchainEthics.

(** X10.  [checkAddress] on a string: malicious when it is on the list, else
    suspicious when it starts with "0x000", else unknown.  It never answers
    [safe].  On a value that is neither a string nor on the list it raises,
    since only strings have [startsWith]. *)
Theorem checkAddress_categories (a : value) :
  (forall s, a = VString s ->
     exists r, checkAddress a = Ok r /\ address r = a /\
       category r =
         if existsb (String.eqb s) knownMaliciousAddresses then malicious
         else if String.prefix "0x000" s then suspicious else unknown) /\
  (forall r, checkAddress a = Ok r -> category r <> safe_address /\ address r = a) /\
  ((forall s, a <> VString s) -> checkAddress a = Throw TypeError).
Proof.
  split; [|split].
  - intros s ->. unfold checkAddress.
    assert (Hl : existsb (strict_eq_str (VString s)) knownMaliciousAddresses =
                 existsb (String.eqb s) knownMaliciousAddresses) by reflexivity.
    rewrite Hl.
    destruct (existsb (String.eqb s) knownMaliciousAddresses);
      [eexists; repeat split; reflexivity|].
    cbn [call_startsWith bind].
    destruct (String.prefix "0x000" s); eexists; repeat split; reflexivity.
  - intros r H. unfold checkAddress in H.
    destruct (existsb (strict_eq_str a) knownMaliciousAddresses);
      [injection H as <-; split; [discriminate | reflexivity]|].
    apply bind_Ok in H. destruct H as [p [_ H]].
    destruct p; injection H as <-; split; (discriminate || reflexivity).
  - intros Hns. unfold checkAddress.
    destruct a; try reflexivity. exfalso. eapply Hns. reflexivity.
Qed.

End AddressCheck.

Section ParamsValidation.
Context {E : Engine}.
Import BlockchainEthics.

(** X11.  [validateActionParams]: for each of the six names the parameters are
    valid exactly when every required one is truthy; any other name is
    rejected as unknown without the parameters being read; for one of the
    six names [undefined] or [null] parameters raise. *)
Theorem validateActionParams_required (a : BlockchainAction) :
  (requiredParams (action a) = None ->
     validateActionParams a =
       Ok {| valid := false; valid_reason := "Unknown blockchain action" |}) /\
  (forall required o, requiredParams (action a) = Some required -> params a = VObject o ->
     exists v, validateActionParams a = Ok v /\
       valid v = forallb (fun k => truthy (lookup k o)) required) /\
  (forall required, requiredParams (action a) = Some required -> nullish (params a) = true ->
     validateActionParams a = Throw TypeError).
Proof.
  unfold requiredParams, validateActionParams, missing, or_else.
  destruct (String.eqb (action a) "executeTransaction");
    [|destruct (String.eqb (action a) "deployContract");
      [|destruct (String.eqb (action a) "callContract");
        [|destruct (String.eqb (action a) "signMessage");
          [|destruct (String.eqb (action a) "approveToken");
            [|destruct (String.eqb (action a) "transferToken")]]]]].
  all: split; [intros H; try discriminate H; try reflexivity|].
  all: split;
    [ intros required o H Hp; try discriminate H; injection H as <-; rewrite Hp; simpl;
      repeat match goal with
             | |- context [truthy (lookup ?k o)] =>
                 destruct (truthy (lookup k o)) eqn:?; simpl
             end;
      eexists; split; reflexivity
    | intros required H Hn; try discriminate H;
      rewrite (get_nullish _ _ Hn); reflexivity ].
Qed.

End ParamsValidation.

Lemma validateActionParams_required_witness :
  exists v,
    BlockchainEthics.validateActionParams
      {| BlockchainEthics.action := "transferToken";
         BlockchainEthics.params := VObject [];
         BlockchainEthics.justification := None |} = Ok v /\
    BlockchainEthics.valid v = false.
Proof.
  destruct (proj1 (proj2 (validateActionParams_required
                            {| BlockchainEthics.action := "transferToken";
                               BlockchainEthics.params := VObject [];
                               BlockchainEthics.justification := None |}))
              ["token"; "to"; "amount"] [] eq_refl eq_refl) as [v [Hv Hvalid]].
  exists v. split; [exact Hv | rewrite Hvalid; reflexivity].
Defined.

Section MonetaryEvaluator.
Context {E : Engine}.
Import BlockchainEthics.

(** X12.  The early exits: a name outside the six monetary ones is approved
    without its parameters being looked at, even [null] ones; invalid
    parameters are rejected with the validator's reason; and for a valid
    action a listed or "0x000"-prefixed recipient is rejected before call
    data and value are looked at. *)
Theorem evaluateBlockchainAction_early (a : BlockchainAction) :
  (isBlockchainAction a = false ->
     evaluateBlockchainAction a = Ok (approve "Not a blockchain action")) /\
  (forall v, isBlockchainAction a = true -> validateActionParams a = Ok v ->
     valid v = false ->
     evaluateBlockchainAction a = Ok (reject (valid_reason v))) /\
  (forall v s, isBlockchainAction a = true -> validateActionParams a = Ok v ->
     valid v = true -> get (params a) "to" = Ok (VString s) -> s <> "" ->
     (existsb (String.eqb s) knownMaliciousAddresses = true ->
        evaluateBlockchainAction a =
          Ok (reject ("Malicious recipient address: " ++
                      "Address is known to be associated with scams or malicious activities."))) /\
     (existsb (String.eqb s) knownMaliciousAddresses = false ->
      String.prefix "0x000" s = true ->
        evaluateBlockchainAction a =
          Ok (reject ("Suspicious recipient address: " ++
                      "Address matches suspicious pattern (starts with 0x000).")))).
Proof.
  split; [|split].
  - intros H. unfold evaluateBlockchainAction. rewrite H. reflexivity.
  - intros v Hb Hv Hinv. unfold evaluateBlockchainAction.
    rewrite Hb, Hv. cbn [negb bind]. rewrite Hinv. reflexivity.
  - intros v s Hb Hv Hval Hto Hne.
    assert (Htr : truthy (VString s) = true).
    { simpl. apply String.eqb_neq in Hne. rewrite Hne. reflexivity. }
    assert (Hl : existsb (strict_eq_str (VString s)) knownMaliciousAddresses =
                 existsb (String.eqb s) knownMaliciousAddresses) by reflexivity.
    split.
    + intros Hmal. unfold evaluateBlockchainAction.
      rewrite Hb, Hv. cbn [negb bind]. rewrite Hval. cbn [negb].
      rewrite Hto. cbn [bind]. rewrite Htr.
      unfold checkAddress. rewrite Hl, Hmal. reflexivity.
    + intros Hmal Hsus. unfold evaluateBlockchainAction.
      rewrite Hb, Hv. cbn [negb bind]. rewrite Hval. cbn [negb].
      rewrite Hto. cbn [bind]. rewrite Htr.
      unfold checkAddress. rewrite Hl, Hmal. cbn [call_startsWith bind].
      rewrite Hsus. reflexivity.
Qed.

End MonetaryEvaluator.

Section MonetaryApproval.
Context {E : Engine}.
Import BlockchainEthics.

Lemma checkAddress_Ok (a : value) (r : BlockchainAddress) :
  checkAddress a = Ok r ->
  (category r = malicious /\
   existsb (strict_eq_str a) knownMaliciousAddresses = true) \/
  (exists s, a = VString s /\
     existsb (String.eqb s) knownMaliciousAddresses = false /\
     category r = if String.prefix "0x000" s then suspicious else unknown).
Proof.
  unfold checkAddress. intros H.
  destruct (existsb (strict_eq_str a) knownMaliciousAddresses) eqn:Hl;
    [injection H as <-; left; auto|].
  apply bind_Ok in H. destruct H as [p [Hp H]].
  destruct a; try discriminate Hp. injection Hp as <-.
  right. eexists. split; [reflexivity|]. split; [exact Hl|].
  destruct (String.prefix "0x000" s); injection H as <-; reflexivity.
Qed.

Lemma checkContractSafety_safe (to data : value) (r : ContractSafetyResult) :
  checkContractSafety to data = Ok r -> safe r = true ->
  exists s, to = VString s /\ String.prefix "0xsafe" s = true.
Proof.
  unfold checkContractSafety. intros H Hs.
  apply bind_Ok in H. destruct H as [p [Hp H]].
  destruct to; try discriminate Hp. injection Hp as <-.
  destruct (String.prefix "0xsafe" s) eqn:Hpre; [eauto|].
  apply bind_Ok in H. destruct H as [d [_ H]].
  destruct d; injection H as <-; discriminate Hs.
Qed.

(** X13.  What an approval of a monetary action guarantees: its required
    parameters are present; a recipient, if given, is a string that is
    neither on the malicious list nor "0x000"-prefixed; if there is call
    data of more than two characters the recipient starts with "0xsafe";
    and a value, if given, does not exceed 1000.  In particular no such
    action with unverified call data or an excessive value is ever
    approved. *)
Theorem approval_sound (a : BlockchainAction)
    (verdict : Layers.CategoricalImperativeResult) :
  evaluateBlockchainAction a = Ok verdict ->
  Layers.approved verdict = true ->
  isBlockchainAction a = true ->
  exists v to value callData,
    validateActionParams a = Ok v /\ valid v = true /\
    get (params a) "to" = Ok to /\
    get (params a) "value" = Ok value /\
    hasCallData (params a) = Ok callData /\
    (truthy to = true ->
       exists s, to = VString s /\
         existsb (String.eqb s) knownMaliciousAddresses = false /\
         String.prefix "0x000" s = false) /\
    (callData = true -> exists s, to = VString s /\ String.prefix "0xsafe" s = true) /\
    (truthy value = true -> gt value MAX_TRANSACTION_VALUE = Ok false).
Proof.
  unfold evaluateBlockchainAction. intros H Happ Hb. rewrite Hb in H. cbn [negb] in H.
  apply bind_Ok in H. destruct H as [v [Hv H]].
  destruct (valid v) eqn:Hvalid; cbn [negb] in H;
    [|injection H as <-; discriminate Happ].
  apply bind_Ok in H. destruct H as [to [Hto H]].
  apply bind_Ok in H. destruct H as [addressVerdict [Haddr H]].
  assert (Hrecipient : addressVerdict = None /\
            (truthy to = true ->
             exists s, to = VString s /\
               existsb (String.eqb s) knownMaliciousAddresses = false /\
               String.prefix "0x000" s = false)).
  { destruct (truthy to).
    - apply bind_Ok in Haddr. destruct Haddr as [check [Hcheck Haddr]].
      apply checkAddress_Ok in Hcheck.
      destruct Hcheck as [[Hcat _] | [s [-> [Hl Hcat]]]].
      + rewrite Hcat in Haddr. injection Haddr as <-.
        injection H as <-. discriminate Happ.
      + rewrite Hcat in Haddr. destruct (String.prefix "0x000" s) eqn:Hpre.
        * injection Haddr as <-. injection H as <-. discriminate Happ.
        * injection Haddr as <-. split; [reflexivity|]. intros _.
          exists s. repeat split; assumption.
    - injection Haddr as <-. split; [reflexivity|]. discriminate. }
  destruct Hrecipient as [-> Hrecipient].
  apply bind_Ok in H. destruct H as [data [Hdata H]].
  apply bind_Ok in H. destruct H as [callData [Hcall H]].
  apply bind_Ok in H. destruct H as [contractVerdict [Hcontract H]].
  assert (Hcd : hasCallData (params a) = Ok callData).
  { unfold hasCallData. rewrite Hdata. exact Hcall. }
  assert (Hsafe : contractVerdict = None /\
            (callData = true ->
             exists s, to = VString s /\ String.prefix "0xsafe" s = true)).
  { destruct callData.
    - apply bind_Ok in Hcontract. destruct Hcontract as [check [Hcheck Hcontract]].
      destruct (safe check) eqn:Hs; cbn [negb] in Hcontract.
      + injection Hcontract as <-. split; [reflexivity|]. intros _.
        eapply checkContractSafety_safe; eassumption.
      + injection Hcontract as <-. injection H as <-. discriminate Happ.
    - injection Hcontract as <-. split; [reflexivity|]. discriminate. }
  destruct Hsafe as [-> Hsafe].
  apply bind_Ok in H. destruct H as [value [Hvalue H]].
  exists v, to, value, callData.
  repeat (split; [assumption|]).
  intros Htr. rewrite Htr in H.
  apply bind_Ok in H. destruct H as [token [_ H]].
  apply bind_Ok in H. destruct H as [valueCheck [Hvc H]].
  unfold checkTransactionValue in Hvc.
  apply bind_Ok in Hvc. destruct Hvc as [exceeds [Hex Hvc]].
  destruct exceeds; [|exact Hex].
  apply bind_Ok in Hvc. destruct Hvc as [unit [_ Hvc]].
  injection Hvc as <-. cbn [negb Layers.approved] in H.
  injection H as <-. discriminate Happ.
Qed.

(** X14.  The missing guard: for a valid monetary action that has call data of
    more than two characters and whose recipient is absent or any falsy
    value other than the empty string (which only [deployContract],
    [signMessage] and [approveToken] allow), the contract check calls
    [startsWith] on that value and the evaluator raises [TypeError] instead
    of returning a verdict. *)
Theorem missing_recipient_raises (a : BlockchainAction) (v : ParamsValidation)
    (to : value) :
  isBlockchainAction a = true ->
  validateActionParams a = Ok v -> valid v = true ->
  get (params a) "to" = Ok to -> truthy to = false -> to <> VString "" ->
  hasCallData (params a) = Ok true ->
  evaluateBlockchainAction a = Throw TypeError.
Proof.
  intros Hb Hv Hvalid Hto Htr Hne Hcd.
  unfold evaluateBlockchainAction. rewrite Hb, Hv. cbn [negb bind]. rewrite Hvalid.
  cbn [negb]. rewrite Hto. cbn [bind]. rewrite Htr. cbn [bind].
  unfold hasCallData in Hcd.
  apply bind_Ok in Hcd. destruct Hcd as [data [Hdata Hcd]].
  rewrite Hdata. cbn [bind]. rewrite Hcd. cbn [bind].
  unfold checkContractSafety.
  destruct to; try reflexivity.
  exfalso. simpl in Htr. apply negb_false_iff in Htr. apply String.eqb_eq in Htr.
  subst. apply Hne. reflexivity.
Qed.

End MonetaryApproval.

Lemma evaluateBlockchainAction_early_witness :
  BlockchainEthics.evaluateBlockchainAction (E := SampleEngine.engine) Samples.scamTransfer =
  Ok (BlockchainEthics.reject
        ("Malicious recipient address: " ++
         "Address is known to be associated with scams or malicious activities.")).
Proof.
  apply (proj1 (proj2 (proj2 (evaluateBlockchainAction_early (E := SampleEngine.engine)
                                Samples.scamTransfer))
                  {| BlockchainEthics.valid := true;
                     BlockchainEthics.valid_reason := "All required parameters are present" |}
                  "0xanotherScam" eq_refl eq_refl eq_refl eq_refl
                  ltac:(discriminate))).
  reflexivity.
Defined.

Lemma approval_sound_witness :
  exists s,
    get (BlockchainEthics.params Samples.verifiedCall) "to" = Ok (VString s) /\
    String.prefix "0xsafe" s = true.
Proof.
  destruct (approval_sound (E := SampleEngine.engine) Samples.verifiedCall
              (BlockchainEthics.approve "Blockchain action passed all ethical checks")
              eq_refl eq_refl eq_refl)
    as [v [to [value [callData [_ [_ [Hto [_ [Hcd [_ [Hsafe _]]]]]]]]]]].
  assert (HcallData : callData = true).
  { vm_compute in Hcd. injection Hcd as <-. reflexivity. }
  destruct (Hsafe HcallData) as [s [-> Hs]].
  exists s. split; assumption.
Defined.

Lemma missing_recipient_raises_witness :
  BlockchainEthics.evaluateBlockchainAction (E := SampleEngine.engine) Samples.deployment =
  Throw TypeError.
Proof.
  apply (missing_recipient_raises (E := SampleEngine.engine) Samples.deployment
           {| BlockchainEthics.valid := true;
              BlockchainEthics.valid_reason := "All required parameters are present" |}
           VUndefined eq_refl eq_refl eq_refl eq_refl eq_refl
           ltac:(discriminate) eq_refl).
Defined.

Lemma checkAddress_categories_witness :
  BlockchainEthics.checkAddress (VNumber (Fin 5%Q)) = Throw TypeError.
Proof.
  apply (proj2 (proj2 (checkAddress_categories (VNumber (Fin 5%Q))))).
  intros s. discriminate.
Defined.

(** C4.  The contract check is not guarded by a recipient test, as the
    address check before it is.  The deployment
    [{action: "deployContract", params: {bytecode: "0x6080", data: "0x6080"}}]
    is a monetary action with valid parameters and no recipient; the
    address check is skipped for it, and the contract check raises a
    TypeError where it should reject the call data as unverifiable.  The
    same deployment with a recipient is rejected in that way. *)
Theorem deployment_without_recipient_raises :
  BlockchainEthics.isBlockchainAction Samples.deployment = true /\
  BlockchainEthics.validateActionParams Samples.deployment =
    Ok {| BlockchainEthics.valid := true;
          BlockchainEthics.valid_reason := "All required parameters are present" |} /\
  get (BlockchainEthics.params Samples.deployment) "to" = Ok VUndefined /\
  BlockchainEthics.checkContractSafety VUndefined (VString "0x6080") = Throw TypeError /\
  BlockchainEthics.evaluateBlockchainAction (E := SampleEngine.engine) Samples.deployment =
    Throw TypeError /\
  BlockchainEthics.evaluateBlockchainAction (E := SampleEngine.engine)
    Samples.addressedDeployment =
    Ok (BlockchainEthics.reject
          "Unsafe contract interaction: Contract safety could not be verified.").
Proof. repeat split. Qed.

(** ** The explanation text *)

Section Explanation.
Context {E : Engine}.
Import Layers Pipeline.

Lemma trim_end_nonspace (c : ascii) (rest : string) :
  is_space c = false -> trim_end (String c rest) <> "".
Proof.
  intros Hc. simpl. destruct (trim_end rest); [rewrite Hc|]; discriminate.
Qed.

Lemma trim_end_app (p r : string) :
  trim_end r <> "" -> trim_end (p ++ r) = p ++ trim_end r.
Proof.
  intros Hr. induction p as [|c p IH]; [reflexivity|].
  simpl. rewrite IH.
  destruct (p ++ trim_end r) eqn:Heq; [|reflexivity].
  destruct p; simpl in Heq; [contradiction | discriminate].
Qed.

Lemma trim_end_app_nonempty (p r : string) :
  trim_end r <> "" -> trim_end (p ++ r) <> "".
Proof.
  intros Hr. rewrite (trim_end_app p r Hr).
  destruct p; simpl; [exact Hr | discriminate].
Qed.

Lemma trim_end_cons (c : ascii) (r : string) :
  is_space c = false -> trim_end (String c r) = String c (trim_end r).
Proof.
  intros Hc. simpl. destruct (trim_end r); [rewrite Hc|]; reflexivity.
Qed.

Lemma trim_start_nl (x : string) : trim_start (Layers.nl ++ x) = trim_start x.
Proof. reflexivity. Qed.

Lemma trim_start_heading (x : string) :
  trim_start ("**Decision Analysis**" ++ x) = "**Decision Analysis**" ++ x.
Proof. reflexivity. Qed.

Lemma trim_end_heading (x : string) :
  trim_end ("**Reasoning**:" ++ x) = "**Reasoning**:" ++ trim_end x.
Proof.
  change ("**Reasoning**:" ++ x) with ("**Reasoning**" ++ String ":" x).
  rewrite trim_end_app; [|apply trim_end_nonspace; reflexivity].
  rewrite trim_end_cons; reflexivity.
Qed.

Lemma join_items_nonempty {A : Type} (f : A -> string) (x : A) (l : list A) :
  f x <> "" -> join nl (map f (x :: l)) <> "".
Proof.
  intros Hx. simpl. destruct (map f l); [exact Hx|].
  destruct (f x); [contradiction | discriminate].
Qed.

Lemma generateExplanation_text (output : CritiqueOutput) :
  exists tail,
    generateExplanation output =
      "**Decision Analysis**" ++ nl ++
      "- **Confidence Level**: " ++ Number_toFixed (confidence output) 2 ++ nl ++
      "- **Approved Actions**:" ++ nl ++
      approvedSection output ++ nl ++ nl ++
      "- **Rejected Actions**:" ++ nl ++
      rejectedSection output ++ nl ++ nl ++
      "**Reasoning**:" ++ tail.
Proof.
  unfold generateExplanation, str_trim.
  assert (Happroved :
    or_None (join nl (map (fun a => "- " ++ action a ++ ": " ++ justification a)
                        (approvedActions output))) = approvedSection output).
  { unfold approvedSection, or_None.
    destruct (approvedActions output) as [|a l]; [reflexivity|].
    destruct (String.eqb _ "") eqn:Heq; [|reflexivity].
    apply String.eqb_eq in Heq. exfalso. revert Heq.
    apply (join_items_nonempty
             (fun a => "- " ++ action a ++ ": " ++ justification a)).
    discriminate. }
  rewrite Happroved. fold (rejectedSection output).
  eexists.
  rewrite trim_start_nl, trim_start_heading.
  assert (Hreasoning : forall tail, trim_end ("**Reasoning**:" ++ tail) <> "").
  { intros tail. apply trim_end_nonspace. reflexivity. }
  do 15 (rewrite trim_end_app;
         [apply f_equal
         |repeat (first [apply Hreasoning | apply trim_end_app_nonempty])]).
  apply trim_end_heading.
Qed.

(** X15.  [generateExplanation] always opens with the decision heading, the
    confidence to two decimals and the two action sections, and [trim]
    removes nothing up to and including the reasoning heading.  The
    approved section reads "None" exactly when no action is approved; the
    rejected section reads "None" only when the list is absent, so an empty
    list of rejected actions, which is what [critiqueLayer] produces when it
    rejects nothing, leaves the section empty. *)
Theorem generateExplanation_sections (output : CritiqueOutput) :
  (exists tail,
     generateExplanation output =
       "**Decision Analysis**" ++ nl ++
       "- **Confidence Level**: " ++ Number_toFixed (confidence output) 2 ++ nl ++
       "- **Approved Actions**:" ++ nl ++
       approvedSection output ++ nl ++ nl ++
       "- **Rejected Actions**:" ++ nl ++
       rejectedSection output ++ nl ++ nl ++
       "**Reasoning**:" ++ tail) /\
  (approvedSection output = "None" <-> approvedActions output = []) /\
  (rejectedSection output = "None" <-> rejectedActions output = None) /\
  (rejectedActions output = Some [] -> rejectedSection output = "").
Proof.
  split; [apply generateExplanation_text|]. split; [|split].
  - unfold approvedSection. destruct (approvedActions output) as [|a l].
    + split; reflexivity.
    + split; [|discriminate]. intros Heq. exfalso.
      destruct l; simpl in Heq; discriminate Heq.
  - unfold rejectedSection. destruct (rejectedActions output) as [l|].
    + split; [|discriminate]. intros Heq. exfalso.
      destruct l as [|a [|b l]]; simpl in Heq; discriminate Heq.
    + split; reflexivity.
  - unfold rejectedSection. intros ->. reflexivity.
Qed.

Lemma generateExplanation_nonempty (output : CritiqueOutput) :
  String.eqb (generateExplanation output) "" = false.
Proof.
  destruct (generateExplanation_text output) as [tail ->]. reflexivity.
Qed.

End Explanation.

(** ** The extension hooks *)

Section ExtensionHooks.
Context {E : Engine} {H : CarExtension.Host}.
Import Layers Pipeline CarExtension.

Variable options : CARExtensionOptions.

(** X16.  A failure of the pipeline is never reported to the user, whatever the
    options.  With a function as logger, [beforeRun] catches the failure,
    logs it and records a deferred entry with the reason "Pipeline error
    occurred"; with any other logger its handler raises [TypeError].  And
    whenever [beforeRun] returns a context after a failure, [afterRun] on
    that context raises [TypeError] on whatever input and output, because
    its decision log reads the length of the entry's approved actions, which
    a failure entry does not have.  The branch of [afterRun] that would
    answer with the deferral message is never reached. *)
Theorem pipeline_failure_not_reported (input context : value)
    (now_structure now_stamp : number) (error : exn) :
  carPipeline input context now_structure now_stamp = Throw error ->
  (logger (logDecisions options) = Function ->
     beforeRun options input context now_structure now_stamp =
       (["[CAR] Error in pipeline: " ++ message error],
        Ok {| inherited := spread context;
              car := Some (Failure (message error) true "Pipeline error occurred") |})) /\
  (forall v, logger (logDecisions options) = NotAFunction v ->
     beforeRun options input context now_structure now_stamp = ([], Throw TypeError)) /\
  (forall context' input' output,
     snd (beforeRun options input context now_structure now_stamp) = Ok context' ->
     snd (afterRun options input' output context') = Throw TypeError).
Proof.
  intros Hfail. unfold beforeRun. rewrite Hfail.
  split; [|split].
  - intros ->. reflexivity.
  - intros v ->. reflexivity.
  - intros context' input' output. unfold afterRun.
    destruct (logger (logDecisions options)); cbn; [|discriminate].
    intros Hctx. injection Hctx as <-. reflexivity.
Qed.

(** X17.  When the pipeline returns, [beforeRun] logs nothing and returns a
    context, and [afterRun] on that context raises only if the logger is a
    truthy value that is not a function.  Otherwise: with deferral enabled
    and a deferring boundary decision at the configured threshold, the
    output is marked [deferred] and its message is the deferral message, the
    decision's reason and, with explanations enabled, the generated
    explanation; if not deferred, with explanations enabled the explanation
    is always attached as [carExplanation], since it is never empty; with
    explanations disabled the output is returned as it is. *)
Theorem analysis_applied (input context : value) (now_structure now_stamp : number)
    (carOutput : CritiqueOutput) (output : value) :
  carPipeline input context now_structure now_stamp = Ok carOutput ->
  let decision :=
    checkEpistemicBoundaries carOutput
      (Some (default (confidenceThreshold options) (literal 0.7))) in
  let explain := default (enableExplanations options) true in
  let answer :=
    if default (enableDeferral options) true && shouldDefer decision then
      VObject
        (set_prop "deferred" (VBool true)
           (set_prop "message"
              (VString
                 (default (deferralMessage options) "I need to defer to human judgment" ++
                  ": " ++ defer_reason decision ++
                  (if explain then nl ++ nl ++ generateExplanation carOutput else "")))
              (spread output)))
    else if explain then
      VObject
        (set_prop "carExplanation" (VString (generateExplanation carOutput))
           (spread output))
    else output in
  exists context',
    beforeRun options input context now_structure now_stamp = ([], Ok context') /\
    snd (afterRun options input output context') =
      match logger (logDecisions options) with
      | Function => Ok answer
      | NotAFunction v => if truthy v then Throw TypeError else Ok answer
      end.
Proof.
  intros Hrun decision explain answer. subst decision explain answer.
  unfold beforeRun. rewrite Hrun.
  assert (Hexplained : forall b : bool,
            match (if b then Some (generateExplanation carOutput) else None) with
            | Some text => b && negb (String.eqb text "")
            | None => false
            end = b).
  { intros []; [rewrite generateExplanation_nonempty|]; reflexivity. }
  destruct (default (enableDeferral options) true);
    [destruct (shouldDefer (checkEpistemicBoundaries carOutput _)) eqn:Hdefer|];
    cbn [andb]; (eexists; split; [reflexivity|]);
    unfold afterRun;
    cbn [car entry_approvedActions entry_error truthy_text entry_deferred
         entry_deferReason entry_explanation entry_confidence];
    rewrite Hexplained;
    (destruct (logger (logDecisions options)) as [|v];
     [|cbn [enabled]; destruct (truthy v)]);
    destruct (default (enableExplanations options) true); reflexivity.
Qed.

(** X18.  Whatever the context holds, when [afterRun] returns for an object
    output, the result is an object in which every property other than
    [message], [deferred] and [carExplanation] has the value it had, and no
    property is dropped. *)
Theorem afterRun_frame (input : value) (o : object) (context : Context)
    (result : value) :
  snd (afterRun options input (VObject o) context) = Ok result ->
  exists o', result = VObject o' /\
    (forall k, k <> "message" -> k <> "deferred" -> k <> "carExplanation" ->
       lookup k o' = lookup k o) /\
    (forall k, has_key k o = true -> has_key k o' = true).
Proof.
  unfold afterRun. intros Hrun.
  assert (Hset1 : forall k1 v1,
            (forall k, k <> k1 -> lookup k (set_prop k1 v1 o) = lookup k o) /\
            (forall k, has_key k o = true -> has_key k (set_prop k1 v1 o) = true)).
  { intros k1 v1. split.
    - intros k Hk. apply lookup_set_prop_other. exact Hk.
    - intros k Hk. rewrite has_key_set_prop, Hk. apply orb_true_r. }
  assert (Hset2 : forall k1 v1 k2 v2,
            (forall k, k <> k1 -> k <> k2 ->
               lookup k (set_prop k2 v2 (set_prop k1 v1 o)) = lookup k o) /\
            (forall k, has_key k o = true ->
               has_key k (set_prop k2 v2 (set_prop k1 v1 o)) = true)).
  { intros k1 v1 k2 v2. split.
    - intros k Hk1 Hk2.
      rewrite lookup_set_prop_other by exact Hk2.
      apply lookup_set_prop_other. exact Hk1.
    - intros k Hk. rewrite !has_key_set_prop, Hk, !orb_true_r. reflexivity. }
  destruct (car context) as [entry|];
    [|injection Hrun as <-; eexists; split; [reflexivity|]; split; [reflexivity | auto]].
  match type of Hrun with
  | snd (lbind ?m _) = _ => destruct m as [messages [[]|e]]
  end; cbn [lbind spread] in Hrun; [|discriminate Hrun].
  repeat match type of Hrun with
  | context [if ?c then _ else _] => destruct c
  end; cbn [ret snd app] in Hrun; injection Hrun as <-;
    eexists; (split; [reflexivity|]).
  all: try (split; [intros k Hm Hd _; apply Hset2; assumption | apply Hset2]).
  all: try (split; [intros k _ _ Hc; apply Hset1; assumption | apply Hset1]).
  all: split; [reflexivity | auto].
Qed.

End ExtensionHooks.

Lemma pipeline_failure_not_reported_witness :
  snd (CarExtension.afterRun (E := SampleEngine.engine) (H := SampleHost.host)
         Samples.defaults VNull Samples.agentOutput
         {| CarExtension.inherited := [];
            CarExtension.car :=
              Some (CarExtension.Failure
                      (CarExtension.message (H := SampleHost.host) (PipelineFailed TypeError))
                      true "Pipeline error occurred") |}) =
  Throw TypeError.
Proof.
  apply (proj2 (proj2 (pipeline_failure_not_reported (E := SampleEngine.engine)
                         (H := SampleHost.host) Samples.defaults VNull VUndefined
                         (of_Z 0) (of_Z 0) (PipelineFailed TypeError) eq_refl))).
  reflexivity.
Defined.

Lemma analysis_applied_witness :
  exists context',
    CarExtension.beforeRun (E := SampleEngine.engine) (H := SampleHost.host)
      Samples.exampleAgent Samples.message VUndefined (of_Z 0) (of_Z 0) =
      ([], Ok context') /\
    snd (CarExtension.afterRun (E := SampleEngine.engine) (H := SampleHost.host)
           Samples.exampleAgent Samples.message Samples.agentOutput context') =
    Throw TypeError.
Proof.
  destruct (Pipeline.carPipeline (E := SampleEngine.engine) Samples.message VUndefined
              (of_Z 0) (of_Z 0)) as [carOutput|error] eqn:Hrun;
    [|vm_compute in Hrun; discriminate Hrun].
  destruct (analysis_applied (E := SampleEngine.engine) (H := SampleHost.host)
              Samples.exampleAgent Samples.message VUndefined (of_Z 0) (of_Z 0)
              carOutput Samples.agentOutput Hrun) as [context' [Hbefore Hafter]].
  exists context'. split; [exact Hbefore|]. rewrite Hafter. reflexivity.
Defined.

Lemma afterRun_frame_witness :
  exists o',
    snd (CarExtension.afterRun (E := SampleEngine.engine) (H := SampleHost.host)
           Samples.defaults Samples.message Samples.agentOutput
           {| CarExtension.inherited := [];
              CarExtension.car :=
                Some (CarExtension.Analysis Samples.someOutput true "Limitations detected: x"
                        None) |}) =
    Ok (VObject o') /\
    lookup "status" o' = VString "ok".
Proof.
  destruct (snd (CarExtension.afterRun (E := SampleEngine.engine) (H := SampleHost.host)
                   Samples.defaults Samples.message Samples.agentOutput
                   {| CarExtension.inherited := [];
                      CarExtension.car :=
                        Some (CarExtension.Analysis Samples.someOutput true
                                "Limitations detected: x" None) |}))
    as [result|error] eqn:Hrun; [|vm_compute in Hrun; discriminate Hrun].
  destruct (afterRun_frame (E := SampleEngine.engine) (H := SampleHost.host)
              Samples.defaults Samples.message
              [("message", VString "Done."); ("status", VString "ok")] _ result Hrun)
    as [o' [-> [Hframe _]]].
  exists o'. split; [reflexivity|].
  rewrite Hframe; [reflexivity | discriminate | discriminate | discriminate].
Defined.

(** ** Totality of the pipeline *)

Section Totality.
Context {E : Engine}.
Import Layers Pipeline.

#[local] Arguments number_lt : simpl never.

Lemma ToNumber_scalar (v : value) :
  scalar v = true -> exists n, ToNumber v = Ok n.
Proof.
  destruct v as [| |[]| | | |]; intros Hs; try discriminate Hs; eexists; reflexivity.
Qed.

Lemma ToString_scalar (v : value) :
  scalar v = true -> exists s, ToString v = Ok s.
Proof.
  destruct v as [| |[]| | | |]; intros Hs; try discriminate Hs; eexists; reflexivity.
Qed.

Lemma gt_scalar (v : value) (lit : number) :
  scalar v = true -> exists b, gt v lit = Ok b.
Proof.
  intros Hs. destruct (ToNumber_scalar v Hs) as [n Hn].
  unfold gt. rewrite Hn. eexists. reflexivity.
Qed.

Lemma lt_scalar (v : value) (lit : number) :
  scalar v = true -> exists b, lt v lit = Ok b.
Proof.
  intros Hs. destruct (ToNumber_scalar v Hs) as [n Hn].
  unfold lt. rewrite Hn. eexists. reflexivity.
Qed.

Lemma get_opt_returns (v : value) (k : string) : exists x, get_opt v k = Ok x.
Proof.
  unfold get_opt. destruct (nullish v) eqn:Hn; [eexists; reflexivity|].
  apply get_nonnullish. exact Hn.
Qed.

Lemma other_name_evaluable (a : Action) :
  String.eqb (action a) "executeTransaction" = false ->
  String.eqb (action a) "respondToMessage" = false ->
  evaluable a.
Proof.
  intros Hx Hr. destruct (other_action_passes a Hx Hr) as [Hu [Hh Hk]].
  split; [|split].
  - unfold categoricalImperative. rewrite Hu. cbn [bind passes negb].
    rewrite Hh. cbn [bind passes negb]. rewrite Hk. eexists. reflexivity.
  - unfold Layers.checkEpistemicBoundaries. rewrite Hx, Hr. eexists. reflexivity.
  - intros c. unfold highValueStep. rewrite Hx. eexists. reflexivity.
Qed.

Lemma reply_evaluable (cd : object) (why : string) :
  evaluable (mkAction "respondToMessage"
               [("content", VString (generateContextualResponse cd)); ("context", VObject cd)]
               why).
Proof.
  destruct (templates_short_and_clean _ (generateContextualResponse_template cd))
    as [Hlen [H1 [H2 H3]]].
  destruct (reply_approved (generateContextualResponse cd) [("context", VObject cd)]
              why Hlen H1 H2 H3) as [Ha Hf].
  split; [|split].
  - eexists. exact Ha.
  - eexists. exact Hf.
  - intros c. eexists. reflexivity.
Qed.

Lemma transfer_evaluable (to value data : JS.value) (why : string) :
  scalar value = true ->
  evaluable (mkAction "executeTransaction"
               [("to", to); ("value", value); ("data", data)] why).
Proof.
  intros Hs. destruct (ToNumber_scalar value Hs) as [n Hn].
  split; [|split].
  - unfold categoricalImperative, universalizabilityTest, humanityAsEndTest,
      kingdomOfEndsTest, lt. simpl. rewrite Hn. simpl.
    destruct (number_lt n (of_Z 0)); simpl; [eexists; reflexivity|].
    destruct (strict_eq_str to "0xknownScamAddress"); eexists; reflexivity.
  - unfold Layers.checkEpistemicBoundaries, gt. simpl. rewrite Hn. simpl.
    destruct (number_lt (of_Z 1000) n); eexists; reflexivity.
  - intros c. unfold highValueStep, gt. simpl. rewrite Hn. eexists. reflexivity.
Qed.

Lemma critiqueLoop_total (actions : list Action) :
  Forall evaluable actions -> forall st, exists st', critiqueLoop actions st = Ok st'.
Proof.
  induction 1 as [|a l [[verdict Hv] [[flag Hf] _]] _ IH]; intros st.
  - eexists. reflexivity.
  - simpl. unfold critiqueStep. rewrite Hv. cbn [bind]. rewrite Hf. cbn [bind].
    apply IH.
Qed.

Lemma forEach_total (l : list Action) :
  Forall evaluable l -> forall c, exists c', forEach l c = Ok c'.
Proof.
  induction 1 as [|a l [_ [_ Hstep]] _ IH]; intros c.
  - eexists. reflexivity.
  - simpl. destruct (Hstep c) as [c' ->]. cbn [bind]. apply IH.
Qed.

Lemma Forall_filter {A : Type} (P : A -> Prop) (f : A -> bool) (l : list A) :
  Forall P l -> Forall P (filter f l).
Proof.
  induction 1 as [|x l Hx _ IH]; simpl; [constructor|].
  destruct (f x); [constructor; assumption | assumption].
Qed.

Lemma critiqueLayer_total (r : ReasonOutput) :
  Forall evaluable (proposedActions r) -> exists out, critiqueLayer r = Ok out.
Proof.
  intros Hall. unfold critiqueLayer.
  destruct (critiqueLoop_total _ Hall initialState) as [st Hst].
  rewrite Hst. cbn [bind].
  destruct (critiqueLoop_Ok _ _ _ Hst) as [Happroved _].
  assert (Hap : Forall evaluable (st_approved st))
    by (rewrite Happroved; apply Forall_filter; exact Hall).
  unfold calculateConfidence. cbv zeta.
  match goal with
  | |- context [forEach (st_approved st) ?c] =>
      destruct (forEach_total (st_approved st) Hap c) as [c' Hc']
  end.
  rewrite Hc'. eexists. reflexivity.
Qed.


Lemma js_or_Ok (a b : value) : js_or (Ok a) (Ok b) = Ok (if truthy a then a else b).
Proof. unfold js_or. cbn [bind]. destruct (truthy a); reflexivity. Qed.

Lemma detectSource_total (o : object) :
  scalar (lookup "chainId" o) = true -> exists src, detectSource (VObject o) = Ok src.
Proof.
  intros Hs. unfold detectSource. cbn [get bind].
  destruct (truthy (lookup "chainId" o)).
  - destruct (ToString_scalar _ Hs) as [key ->]. cbn [bind].
    destruct (chainMap_own key chainMap); [eexists; reflexivity|].
    destruct (existsb (String.eqb key) objectPrototypeMembers); eexists; reflexivity.
  - rewrite js_or_Ok. eexists. reflexivity.
Qed.

Lemma structureData_fields (o : object) (ctx : value) (type : string) (now : number) :
  exists cd,
    structureData (VObject o) type ctx now = Ok cd /\
    (type = "transaction" ->
       lookup "from" cd = lookup "from" o /\ lookup "to" cd = lookup "to" o /\
       lookup "value" cd =
         (if truthy (lookup "value" o) then lookup "value" o else VNumber (of_Z 0)) /\
       lookup "data" cd =
         (if truthy (lookup "data" o) then lookup "data" o else VString "")) /\
    (type = "message" ->
       lookup "content" cd =
         (if truthy (lookup "content" o) then lookup "content" o else lookup "message" o)) /\
    (type = "event" -> lookup "eventName" cd = lookup "event" o).
Proof.
  unfold structureData.
  destruct (get_opt_returns ctx "previousTransactions") as [txs ->].
  destruct (get_opt_returns ctx "conversationHistory") as [history ->].
  cbn [get]. rewrite !js_or_Ok. cbn [bind].
  destruct (String.eqb type "transaction") eqn:Ht;
    [|destruct (String.eqb type "message") eqn:Hm;
      [|destruct (String.eqb type "event") eqn:He;
        [|destruct (String.eqb type "userInput") eqn:Hu]]];
    (eexists; split; [reflexivity|]);
    (split; [|split]); intros ->;
    try discriminate; try (repeat split; reflexivity).
Qed.


Lemma categorizeTransaction_total (tx : object) :
  scalar (lookup "data" tx) = true -> exists t, categorizeTransaction tx = Ok t.
Proof.
  intros Hs. unfold categorizeTransaction.
  destruct (negb (truthy (lookup "to" tx))); [eexists; reflexivity|].
  destruct (truthy (lookup "data" tx)) eqn:Ht; [|eexists; reflexivity].
  destruct (lookup "data" tx) as [| |b|n|s| |];
    try discriminate Hs; try discriminate Ht; cbn [and_then get String.eqb Ascii.eqb Bool.eqb bind];
    try (eexists; reflexivity).
  unfold gt. cbn [ToNumber bind].
  destruct (number_lt (of_Z 2) (of_nat (String.length s))); [|eexists; reflexivity].
  cbn [call_slice0 bind].
  destruct (strict_eq_str _ "0xa9059cbb"); [eexists; reflexivity|].
  destruct (strict_eq_str _ "0x23b872dd"); eexists; reflexivity.
Qed.

Lemma get_opt_length_scalar (v : value) :
  scalar v = true -> exists x, get_opt v "length" = Ok x /\ scalar x = true.
Proof.
  destruct v; intros Hs; try discriminate Hs; eexists; split; reflexivity.
Qed.

Lemma assessRisk_total (tx : object) :
  scalar (lookup "value" tx) = true -> scalar (lookup "data" tx) = true ->
  exists risk, assessRisk tx = Ok risk.
Proof.
  intros Hv Hd. unfold assessRisk.
  destruct (gt_scalar _ (of_Z 1000) Hv) as [c1 ->]. cbn [bind].
  destruct c1; [eexists; reflexivity|].
  destruct (negb (truthy (lookup "to" tx))); [eexists; reflexivity|].
  destruct (get_opt_length_scalar _ Hd) as [len [-> Hlen]]. cbn [bind].
  destruct (gt_scalar len (of_Z 1000) Hlen) as [c3 ->]. cbn [bind].
  destruct c3; eexists; reflexivity.
Qed.

Lemma detectIntent_total (m : object) (text : string) :
  lookup "content" m = VString text -> exists intent, detectIntent m = Ok intent.
Proof.
  intros Hc. unfold detectIntent. rewrite Hc. cbn [call_toLowerCase bind].
  repeat match goal with
  | |- context [if ?c then _ else _] => destruct c
  end; eexists; reflexivity.
Qed.

Lemma analyzeSentiment_total (m : object) (text : string) :
  lookup "content" m = VString text -> exists sentiment, analyzeSentiment m = Ok sentiment.
Proof.
  intros Hc. unfold analyzeSentiment. rewrite Hc. cbn [call_toLowerCase bind].
  eexists. reflexivity.
Qed.

Lemma understandingLayer_total (s : UnderstandingOutput) :
  (dataType (metadata s) = "transaction" ->
     scalar (lookup "value" (categorizedData s)) = true /\
     scalar (lookup "data" (categorizedData s)) = true) ->
  (dataType (metadata s) = "message" ->
     exists text, lookup "content" (categorizedData s) = VString text) ->
  exists u, understandingLayer s = Ok u.
Proof.
  intros Htx Hmsg. unfold understandingLayer.
  destruct (String.eqb (dataType (metadata s)) "transaction") eqn:Ht.
  - apply String.eqb_eq in Ht. destruct (Htx Ht) as [Hv Hd].
    destruct (categorizeTransaction_total _ Hd) as [t ->]. cbn [bind].
    destruct (assessRisk_total _ Hv Hd) as [risk ->]. cbn [bind].
    eexists. reflexivity.
  - destruct (String.eqb (dataType (metadata s)) "message") eqn:Hm.
    + apply String.eqb_eq in Hm. destruct (Hmsg Hm) as [text Hc].
      destruct (detectIntent_total _ _ Hc) as [intent ->]. cbn [bind].
      destruct (analyzeSentiment_total _ _ Hc) as [sentiment ->]. cbn [bind].
      eexists. reflexivity.
    + destruct (String.eqb (dataType (metadata s)) "event"); eexists; reflexivity.
Qed.

Lemma reasonLayer_total (u : UnderstandingOutput) :
  (dataType (metadata u) = "transaction" ->
     forall k, In k ["transactionType"; "from"; "to"; "value"] ->
       scalar (lookup k (categorizedData u)) = true) ->
  (dataType (metadata u) = "message" ->
     forall k, In k ["intent"; "sentiment"] ->
       scalar (lookup k (categorizedData u)) = true) ->
  (dataType (metadata u) = "event" ->
     scalar (lookup "eventName" (categorizedData u)) = true) ->
  exists r, reasonLayer u = Ok r /\ Forall evaluable (proposedActions r).
Proof.
  intros Htx Hmsg Hev. unfold reasonLayer.
  destruct (String.eqb (dataType (metadata u)) "transaction") eqn:Ht.
  - apply String.eqb_eq in Ht. specialize (Htx Ht).
    destruct (ToString_scalar _ (Htx "transactionType" ltac:(simpl; auto))) as [t ->].
    destruct (ToString_scalar _ (Htx "from" ltac:(simpl; auto))) as [from ->].
    destruct (ToString_scalar _ (Htx "to" ltac:(simpl; auto))) as [to ->].
    destruct (gt_scalar _ (of_Z 0) (Htx "value" ltac:(simpl; auto))) as [positive ->].
    cbn [bind]. eexists. split; [reflexivity|]. cbn [proposedActions].
    assert (Hexec : evaluable
              (mkAction "executeTransaction"
                 [("to", lookup "to" (categorizedData u));
                  ("value", lookup "value" (categorizedData u));
                  ("data", lookup "data" (categorizedData u))]
                 "Transaction parameters validated, value is positive")).
    { apply transfer_evaluable. apply Htx. simpl; auto. }
    destruct positive, (strict_eq_str (lookup "risk" (categorizedData u)) "high");
      cbn [app];
      repeat (constructor; [first [exact Hexec | apply other_name_evaluable; reflexivity]|]);
      constructor.
  - destruct (String.eqb (dataType (metadata u)) "message") eqn:Hm.
    + apply String.eqb_eq in Hm. specialize (Hmsg Hm).
      destruct (ToString_scalar _ (Hmsg "intent" ltac:(simpl; auto))) as [intent ->].
      destruct (ToString_scalar _ (Hmsg "sentiment" ltac:(simpl; auto))) as [sentiment ->].
      cbn [bind]. eexists. split; [reflexivity|]. cbn [proposedActions].
      destruct (strict_eq_str _ "question").
      * constructor; [apply reply_evaluable|].
        constructor; [apply other_name_evaluable; reflexivity | constructor].
      * constructor; [apply reply_evaluable | constructor].
    + destruct (String.eqb (dataType (metadata u)) "event") eqn:He.
      * apply String.eqb_eq in He.
        destruct (ToString_scalar _ (Hev He)) as [eventName ->].
        cbn [bind]. eexists. split; [reflexivity|].
        constructor; [apply other_name_evaluable; reflexivity | constructor].
      * eexists. split; [reflexivity | constructor].
Qed.


Lemma textual_truthy (v : value) :
  textual v = true -> truthy v = true -> exists text, v = VString text.
Proof.
  intros Ht Hv. destruct v; try (eexists; reflexivity);
    cbv beta iota delta [textual] in Ht; rewrite Hv in Ht; discriminate Ht.
Qed.

(** What the later layers need from the sensibility layer's output. *)
Lemma layers_total (s : UnderstandingOutput) :
  (dataType (metadata s) = "transaction" ->
     forall k, In k ["from"; "to"; "value"; "data"] ->
       scalar (lookup k (categorizedData s)) = true) ->
  (dataType (metadata s) = "message" ->
     exists text, lookup "content" (categorizedData s) = VString text) ->
  (dataType (metadata s) = "event" ->
     scalar (lookup "eventName" (categorizedData s)) = true) ->
  exists u r out,
    understandingLayer s = Ok u /\ reasonLayer u = Ok r /\ critiqueLayer r = Ok out.
Proof.
  intros Htx Hmsg Hev.
  destruct (understandingLayer_total s) as [u Hu].
  { intros Ht. split; apply (Htx Ht); simpl; auto. }
  { exact Hmsg. }
  destruct (understandingLayer_Ok s u Hu) as [Hmeta Hshape]. cbv zeta in Hshape.
  destruct (reasonLayer_total u) as [r [Hr Hall]].
  - rewrite Hmeta. intros Ht k Hk.
    destruct Hshape as [[_ [t [risk [_ [_ ->]]]]] | [[Hm _] | [[He _] | [Hd _]]]];
      [ | rewrite Ht in Hm; discriminate Hm | rewrite Ht in He; discriminate He
        | rewrite Ht in Hd; discriminate Hd ].
    simpl in Hk. destruct Hk as [<-|[<-|[<-|[<-|[]]]]].
    + rewrite lookup_set_prop_other by discriminate.
      rewrite lookup_set_prop_same. reflexivity.
    + rewrite !lookup_set_prop_other by discriminate. apply (Htx Ht). simpl; auto.
    + rewrite !lookup_set_prop_other by discriminate. apply (Htx Ht). simpl; auto.
    + rewrite !lookup_set_prop_other by discriminate. apply (Htx Ht). simpl; auto.
  - rewrite Hmeta. intros Ht k Hk.
    destruct Hshape as [[Hx _] | [[_ [intent [sentiment [_ [_ ->]]]]] | [[He _] | [Hd _]]]];
      [ rewrite Ht in Hx; discriminate Hx | | rewrite Ht in He; discriminate He
        | rewrite Ht in Hd; discriminate Hd ].
    simpl in Hk. destruct Hk as [<-|[<-|[]]].
    + rewrite lookup_set_prop_other by discriminate.
      rewrite lookup_set_prop_same. reflexivity.
    + rewrite lookup_set_prop_same. reflexivity.
  - rewrite Hmeta. intros Ht.
    destruct Hshape as [[Hx _] | [[Hm _] | [[_ ->] | [Hd _]]]];
      [ rewrite Ht in Hx; discriminate Hx | rewrite Ht in Hm; discriminate Hm |
        | rewrite Ht in Hd; discriminate Hd ].
    rewrite lookup_set_prop_other by discriminate. apply (Hev Ht).
  - destruct (critiqueLayer_total r Hall) as [out Hout].
    exists u, r, out. auto.
Qed.

Lemma sensibilityLayer_total (o : object) (ctx : value) (n1 n2 : number) :
  wellFormed (VObject o) = true ->
  exists s,
    sensibilityLayer {| rawData := VObject o; context := ctx |} n1 n2 = Ok s /\
    (dataType (metadata s) = "transaction" ->
       forall k, In k ["from"; "to"; "value"; "data"] ->
         scalar (lookup k (categorizedData s)) = true) /\
    (dataType (metadata s) = "message" ->
       exists text, lookup "content" (categorizedData s) = VString text) /\
    (dataType (metadata s) = "event" ->
       scalar (lookup "eventName" (categorizedData s)) = true).
Proof.
  intros Hwf. simpl in Hwf.
  repeat match type of Hwf with
  | _ && _ = true => apply andb_true_iff in Hwf; destruct Hwf as [? Hwf]
  end.
  repeat match goal with
  | H : _ && _ = true |- _ => apply andb_true_iff in H; destruct H as [? H]
  end.
  unfold sensibilityLayer. cbn [rawData context].
  rewrite (detectDataType_rules (VObject o) ctx _ _ _ _ _ _ _
             eq_refl eq_refl eq_refl eq_refl eq_refl eq_refl eq_refl).
  cbn [bind].
  destruct (detectSource_total o) as [src ->]; [assumption|]. cbn [bind].
  match goal with
  | |- context [structureData _ ?t _ _] => set (type := t)
  end.
  destruct (structureData_fields o ctx type n1) as [cd [-> [Ftx [Fmsg Fev]]]].
  cbn [bind]. eexists. split; [reflexivity|].
  cbn [categorizedData metadata dataType].
  split; [|split].
  - intros Ht k Hk. destruct (Ftx Ht) as [F1 [F2 [F3 F4]]].
    simpl in Hk. destruct Hk as [<-|[<-|[<-|[<-|[]]]]].
    + rewrite F1. assumption.
    + rewrite F2. assumption.
    + rewrite F3. destruct (truthy (lookup "value" o)); [assumption | reflexivity].
    + rewrite F4. destruct (truthy (lookup "data" o)); [assumption | reflexivity].
  - intros Ht. rewrite (Fmsg Ht). subst type.
    destruct (truthy (lookup "hash" o) && truthy (lookup "from" o) &&
              truthy (lookup "to" o)); [discriminate Ht|].
    destruct (truthy (lookup "content" o)) eqn:Hc.
    + apply textual_truthy; assumption.
    + cbn [orb] in Ht. destruct (truthy (lookup "message" o)) eqn:Hm.
      * apply textual_truthy; assumption.
      * destruct (truthy (lookup "event" o)); [discriminate Ht|].
        destruct (strict_eq_str (lookup "inputType" o) "user"); discriminate Ht.
  - intros Ht. rewrite (Fev Ht). assumption.
Qed.

Lemma carPipeline_layers (raw ctx : value) (n1 n2 : number)
    (s u : UnderstandingOutput) (r : ReasonOutput) (out : CritiqueOutput) :
  sensibilityLayer {| rawData := raw; context := ctx |} n1 n2 = Ok s ->
  understandingLayer s = Ok u -> reasonLayer u = Ok r -> critiqueLayer r = Ok out ->
  carPipeline raw ctx n1 n2 = Ok out.
Proof.
  intros Hs Hu Hr Hout. unfold carPipeline. rewrite Hs. cbn [bind].
  rewrite Hu. cbn [bind]. rewrite Hr. cbn [bind]. rewrite Hout. reflexivity.
Qed.

Lemma sensibilityLayer_primitive (raw ctx : value) (n1 n2 : number) :
  nullish raw = false -> (forall o, raw <> VObject o) ->
  sensibilityLayer {| rawData := raw; context := ctx |} n1 n2 =
  Ok {| categorizedData := spread raw;
        metadata := {| dataType := "unknown"; source := SourceValue (VString "unknown");
                       timestamp := n2 |} |}.
Proof.
  intros Hn Ho. destruct raw; try discriminate Hn; try reflexivity.
  exfalso. eapply Ho. reflexivity.
Qed.

(** X19.  [carPipeline] fails on [undefined] and [null], with the wrapping error
    whose cause is the [TypeError] of the first property read; and it
    returns on every well-formed input: any primitive or array, and any
    record whose [from], [to], [value], [data], [chainId] and [event] are
    scalars and whose [content] and [message] are strings or falsy. *)
Theorem carPipeline_returns (raw ctx : value) (n1 n2 : number) :
  (nullish raw = true -> carPipeline raw ctx n1 n2 = Throw (PipelineFailed TypeError)) /\
  (wellFormed raw = true -> exists out, carPipeline raw ctx n1 n2 = Ok out).
Proof.
  split.
  - intros Hn. destruct raw; try discriminate Hn; reflexivity.
  - intros Hwf.
    assert (Hs : exists s,
              sensibilityLayer {| rawData := raw; context := ctx |} n1 n2 = Ok s /\
              exists u r out,
                understandingLayer s = Ok u /\ reasonLayer u = Ok r /\
                critiqueLayer r = Ok out).
    { destruct raw as [| |b|n|t|l|o]; try discriminate Hwf.
      5: { destruct (sensibilityLayer_total o ctx n1 n2 Hwf) as [s [Hs [Htx [Hmsg Hev]]]].
           exists s. split; [exact Hs|]. apply layers_total; assumption. }
      all: eexists; (split; [apply sensibilityLayer_primitive;
                             [reflexivity | discriminate]|]);
        apply layers_total; cbn [metadata dataType]; discriminate. }
    destruct Hs as [s [Hs [u [r [out [Hu [Hr Hout]]]]]]].
    exists out. eapply carPipeline_layers; eassumption.
Qed.

End Totality.

Lemma carPipeline_returns_witness :
  exists out,
    Pipeline.carPipeline (E := SampleEngine.engine) Samples.transaction VUndefined
      (of_Z 0) (of_Z 0) = Ok out.
Proof.
  apply (proj2 (carPipeline_returns (E := SampleEngine.engine) Samples.transaction
                  VUndefined (of_Z 0) (of_Z 0))).
  reflexivity.
Defined.

(** ** Every stage returns on well-formed input *)

Section EvaluatorReturns.
Context {E : Engine}.
Import BlockchainEthics.






End EvaluatorReturns.

Section StagesReturn.
Context {E : Engine}.
Import Layers Pipeline.


End StagesReturn.




(** ** Transactions inside the pipeline *)

Section PipelineTransactions.
Context {E : Engine}.
Import Layers Pipeline.

Lemma categorizeTransaction_with_recipient (tx : object) (label : string) :
  truthy (lookup "to" tx) = true -> categorizeTransaction tx = Ok label ->
  In label ["value-transfer"; "ERC20-transfer"; "ERC20-transferFrom";
            "unknown-contract-interaction"].
Proof.
  intros Hto H. unfold categorizeTransaction in H. rewrite Hto in H. cbn [negb] in H.
  apply bind_Ok in H. destruct H as [c [_ H]].
  destruct c; [|injection H as <-; simpl; auto].
  apply bind_Ok in H. destruct H as [signature [_ H]].
  destruct (strict_eq_str signature "0xa9059cbb"); [injection H as <-; simpl; auto|].
  destruct (strict_eq_str signature "0x23b872dd"); injection H as <-; simpl; auto.
Qed.

Lemma assessRisk_levels (tx : object) (risk : string) :
  assessRisk tx = Ok risk -> risk = "high" \/ risk = "low".
Proof.
  intros H. unfold assessRisk in H.
  apply bind_Ok in H. destruct H as [c1 [_ H]].
  destruct c1; [injection H as <-; auto|].
  destruct (negb (truthy (lookup "to" tx))); [injection H as <-; auto|].
  apply bind_Ok in H. destruct H as [len [_ H]].
  apply bind_Ok in H. destruct H as [c3 [_ H]].
  destruct c3; injection H as <-; auto.
Qed.

(** X20.  Inside the pipeline a record is enriched as a transaction only when it
    is an object with truthy [hash], [from] and [to].  So the enricher never
    labels it "contract-deployment", the branch of [categorizeTransaction]
    for a missing recipient is never taken there, and a risk is "high" only
    through the value or the size of the call data. *)
Theorem pipeline_transaction_labels (raw ctx : value) (n1 n2 : number)
    (s u : UnderstandingOutput) :
  sensibilityLayer {| rawData := raw; context := ctx |} n1 n2 = Ok s ->
  understandingLayer s = Ok u ->
  dataType (metadata u) = "transaction" ->
  exists o label risk,
    raw = VObject o /\
    truthy (lookup "hash" o) = true /\ truthy (lookup "from" o) = true /\
    truthy (lookup "to" o) = true /\
    lookup "to" (categorizedData u) = lookup "to" o /\
    lookup "transactionType" (categorizedData u) = VString label /\
    In label ["value-transfer"; "ERC20-transfer"; "ERC20-transferFrom";
              "unknown-contract-interaction"] /\
    lookup "risk" (categorizedData u) = VString risk /\
    (risk = "high" \/ risk = "low").
Proof.
  intros Hs Hu Ht.
  destruct (understandingLayer_Ok s u Hu) as [Hmeta Hshape]. cbv zeta in Hshape.
  rewrite Hmeta in Ht.
  destruct Hshape as [[_ [label [risk [Hlabel [Hrisk Hcd]]]]] | [[Hm _] | [[He _] | [Hd _]]]];
    [ | rewrite Ht in Hm; discriminate Hm | rewrite Ht in He; discriminate He
      | rewrite Ht in Hd; discriminate Hd ].
  destruct raw as [| |b|n|t|l|o];
    try (vm_compute in Hs; discriminate Hs);
    try (rewrite sensibilityLayer_primitive in Hs by (reflexivity || discriminate);
         injection Hs as <-; discriminate Ht).
  unfold sensibilityLayer in Hs. cbn [rawData context] in Hs.
  rewrite (detectDataType_rules (VObject o) ctx _ _ _ _ _ _ _
             eq_refl eq_refl eq_refl eq_refl eq_refl eq_refl eq_refl) in Hs.
  cbn [bind] in Hs.
  apply bind_Ok in Hs. destruct Hs as [src [_ Hs]].
  match type of Hs with
  | context [structureData _ ?t _ _] => set (type := t) in Hs
  end.
  destruct (structureData_fields o ctx type n1) as [cd [Hcd' [Ftx _]]].
  rewrite Hcd' in Hs. cbn [bind] in Hs. injection Hs as <-.
  cbn [metadata dataType categorizedData] in *.
  destruct (Ftx Ht) as [_ [Fto _]].
  assert (Hthree : truthy (lookup "hash" o) && truthy (lookup "from" o) &&
                   truthy (lookup "to" o) = true).
  { subst type.
    destruct (truthy (lookup "hash" o) && truthy (lookup "from" o) &&
              truthy (lookup "to" o)); [reflexivity|].
    destruct (truthy (lookup "content" o) || truthy (lookup "message" o));
      [discriminate Ht|].
    destruct (truthy (lookup "event" o)); [discriminate Ht|].
    destruct (strict_eq_str (lookup "inputType" o) "user"); discriminate Ht. }
  apply andb_true_iff in Hthree. destruct Hthree as [Hthree Hto].
  apply andb_true_iff in Hthree. destruct Hthree as [Hhash Hfrom].
  exists o, label, risk. rewrite Hcd.
  repeat split; try assumption.
  - rewrite !lookup_set_prop_other by discriminate. exact Fto.
  - rewrite lookup_set_prop_other by discriminate. apply lookup_set_prop_same.
  - apply (categorizeTransaction_with_recipient cd); [rewrite Fto; exact Hto | exact Hlabel].
  - apply lookup_set_prop_same.
  - apply (assessRisk_levels cd). exact Hrisk.
Qed.

End PipelineTransactions.

Lemma pipeline_transaction_labels_witness :
  exists s u label,
    Layers.sensibilityLayer (E := SampleEngine.engine)
      {| Layers.rawData := Samples.transaction; Layers.context := VUndefined |}
      (of_Z 0) (of_Z 0) = Ok s /\
    Layers.understandingLayer (E := SampleEngine.engine) s = Ok u /\
    lookup "transactionType" (Layers.categorizedData u) = VString label /\
    label <> "contract-deployment".
Proof.
  destruct (Layers.sensibilityLayer (E := SampleEngine.engine)
              {| Layers.rawData := Samples.transaction; Layers.context := VUndefined |}
              (of_Z 0) (of_Z 0)) as [s|e] eqn:Hs; [|vm_compute in Hs; discriminate Hs].
  destruct (Layers.understandingLayer (E := SampleEngine.engine) s) as [u|e] eqn:Hu;
    [|vm_compute in Hs; injection Hs as <-; vm_compute in Hu; discriminate Hu].
  assert (Ht : Layers.dataType (Layers.metadata u) = "transaction").
  { vm_compute in Hs. injection Hs as <-. vm_compute in Hu. injection Hu as <-.
    reflexivity. }
  destruct (pipeline_transaction_labels (E := SampleEngine.engine)
              Samples.transaction VUndefined (of_Z 0) (of_Z 0) s u Hs Hu Ht)
    as [o [label [risk [_ [_ [_ [_ [_ [Hlabel [Hin _]]]]]]]]]].
  exists s, u, label. repeat split; try assumption.
  intros ->. simpl in Hin. repeat destruct Hin as [Hin|Hin]; try discriminate Hin.
  exact Hin.
Defined.

(** ** The classifiers of message text *)

Section MessageClassifiers.
Context {E : Engine}.
Import Layers.

Lemma lower_ascii_idempotent (c : ascii) : lower_ascii (lower_ascii c) = lower_ascii c.
Proof.
  destruct c as [[] [] [] [] [] [] [] []]; reflexivity.
Qed.

Lemma str_toLowerCase_idempotent (s : string) :
  str_toLowerCase (str_toLowerCase s) = str_toLowerCase s.
Proof.
  induction s as [|c s IH]; [reflexivity|].
  simpl. rewrite lower_ascii_idempotent, IH. reflexivity.
Qed.

(** X21.  [detectIntent] and [analyzeSentiment] return exactly when the content
    is a string, and raise [TypeError] otherwise.  The intent is one of five
    labels, and it is "purchase-intent" exactly when the lowercased text
    contains "buy" or "purchase", whatever else it contains; the sentiment is
    one of three labels; and both depend on the text only up to letter case:
    the lowercased text is classified the same. *)
Theorem message_classifiers (m : object) :
  (forall text, lookup "content" m = VString text ->
     exists intent sentiment,
       detectIntent m = Ok intent /\ analyzeSentiment m = Ok sentiment /\
       In intent ["purchase-intent"; "sell-intent"; "question"; "greeting"; "statement"] /\
       (intent = "purchase-intent" <->
        str_includes (str_toLowerCase text) "buy" ||
        str_includes (str_toLowerCase text) "purchase" = true) /\
       In sentiment ["positive"; "negative"; "neutral"] /\
       forall m', lookup "content" m' = VString (str_toLowerCase text) ->
         detectIntent m' = Ok intent /\ analyzeSentiment m' = Ok sentiment) /\
  ((forall text, lookup "content" m <> VString text) ->
     detectIntent m = Throw TypeError /\ analyzeSentiment m = Throw TypeError).
Proof.
  split.
  - intros text Hc.
    assert (Hlower : forall m', lookup "content" m' = VString (str_toLowerCase text) ->
              detectIntent m' = detectIntent m /\ analyzeSentiment m' = analyzeSentiment m).
    { intros m' Hc'. unfold detectIntent, analyzeSentiment. rewrite Hc, Hc'.
      cbn [call_toLowerCase bind]. rewrite str_toLowerCase_idempotent.
      split; reflexivity. }
    assert (Hsentiment : exists sentiment,
              analyzeSentiment m = Ok sentiment /\
              In sentiment ["positive"; "negative"; "neutral"]).
    { unfold analyzeSentiment. rewrite Hc. cbn [call_toLowerCase bind].
      eexists. split; [reflexivity|].
      repeat match goal with
      | |- context [if ?c then _ else _] => destruct c
      end; simpl; auto. }
    destruct Hsentiment as [sentiment [Hs Hin]].
    assert (Hintent : exists intent,
              detectIntent m = Ok intent /\
              In intent ["purchase-intent"; "sell-intent"; "question"; "greeting";
                         "statement"] /\
              (intent = "purchase-intent" <->
               str_includes (str_toLowerCase text) "buy" ||
               str_includes (str_toLowerCase text) "purchase" = true)).
    { unfold detectIntent. rewrite Hc. cbn [call_toLowerCase bind].
      destruct (str_includes (str_toLowerCase text) "buy" ||
                str_includes (str_toLowerCase text) "purchase").
      - eexists. split; [reflexivity|]. split; [simpl; auto|]. split; reflexivity.
      - repeat match goal with
        | |- context [if ?c then _ else _] => destruct c
        end;
        (eexists; split; [reflexivity|]; split; [simpl; auto 6|];
         split; discriminate). }
    destruct Hintent as [intent [Hi [Hrange Hbuy]]].
    exists intent, sentiment.
    repeat (split; [assumption|]).
    intros m' Hc'. destruct (Hlower m' Hc') as [-> ->]. split; assumption.
  - intros Hc. unfold detectIntent, analyzeSentiment.
    destruct (lookup "content" m); try (split; reflexivity).
    exfalso. eapply Hc. reflexivity.
Qed.

End MessageClassifiers.

Lemma message_classifiers_witness :
  Layers.detectIntent [("content", VString "Can I BUY or sell?")] = Ok "purchase-intent".
Proof.
  destruct (proj1 (message_classifiers [("content", VString "Can I BUY or sell?")])
              "Can I BUY or sell?" eq_refl)
    as [intent [sentiment [Hi [_ [_ [Hbuy _]]]]]].
  rewrite Hi. f_equal. apply Hbuy. reflexivity.
Defined.

(** ** The two evaluators on a proposed transfer *)

Section TwoEvaluators.
Context {E : Engine}.
Import Layers.

#[local] Arguments number_lt : simpl never.

(** X22.  The monetary evaluator is the stricter one on the transfers that the
    pipeline proposes: if [evaluateBlockchainAction] approves the
    [executeTransaction] that [reasonLayer] proposed (its value is truthy and
    positive), then the categorical imperative approves it and the epistemic
    check does not flag it.  The malicious list contains the one address the
    kingdom-of-ends test knows, and both value limits are 1000. *)
Theorem monetary_approval_implies_critique (x : Action)
    (verdict : CategoricalImperativeResult) :
  proposedTransfer x ->
  (forall value, get (params x) "value" = Ok value -> truthy value = true) ->
  BlockchainEthics.evaluateBlockchainAction (asBlockchainAction x) = Ok verdict ->
  approved verdict = true ->
  categoricalImperative x = Ok approvedVerdict /\
  Layers.checkEpistemicBoundaries x = Ok {| uncertain := false; uncertain_reason := "" |}.
Proof.
  intros (to & value & data & -> & Hpos) Htruthy Heval Happ.
  specialize (Htruthy value eq_refl).
  unfold gt in Hpos. apply bind_Ok in Hpos. destruct Hpos as [n [Hn Hpos]].
  injection Hpos as Hpos. apply number_lt_asym in Hpos.
  unfold BlockchainEthics.evaluateBlockchainAction in Heval.
  cbn [asBlockchainAction action params mkAction BlockchainEthics.isBlockchainAction
       BlockchainEthics.action BlockchainEthics.params] in Heval.
  change (BlockchainEthics.isBlockchainAction _) with true in Heval.
  cbn [negb] in Heval.
  apply bind_Ok in Heval. destruct Heval as [v [Hv Heval]].
  destruct (BlockchainEthics.valid v); cbn [negb] in Heval;
    [|injection Heval as <-; discriminate Happ].
  apply bind_Ok in Heval. destruct Heval as [to' [Hto Heval]].
  injection Hto as <-.
  apply bind_Ok in Heval. destruct Heval as [addressVerdict [Haddr Heval]].
  assert (Hscam : strict_eq_str to "0xknownScamAddress" = false).
  { destruct (strict_eq_str to "0xknownScamAddress") eqn:Hs; [|reflexivity].
    destruct to; try discriminate Hs. simpl in Hs. apply String.eqb_eq in Hs. subst s.
    exfalso. cbn in Haddr. injection Haddr as <-. injection Heval as <-.
    discriminate Happ. }
  destruct addressVerdict as [rejected|].
  { exfalso. injection Heval as <-.
    destruct (truthy to); [|discriminate Haddr].
    apply bind_Ok in Haddr. destruct Haddr as [check [_ Haddr]].
    destruct (BlockchainEthics.category check); try discriminate Haddr;
      injection Haddr as <-; discriminate Happ. }
  apply bind_Ok in Heval. destruct Heval as [data' [_ Heval]].
  apply bind_Ok in Heval. destruct Heval as [callData [_ Heval]].
  apply bind_Ok in Heval. destruct Heval as [contractVerdict [Hcontract Heval]].
  destruct contractVerdict as [rejected|].
  { exfalso. injection Heval as <-.
    destruct callData; [|discriminate Hcontract].
    apply bind_Ok in Hcontract. destruct Hcontract as [check [_ Hcontract]].
    destruct (negb (BlockchainEthics.safe check)); [|discriminate Hcontract].
    injection Hcontract as <-. discriminate Happ. }
  apply bind_Ok in Heval. destruct Heval as [value' [Hvalue Heval]].
  injection Hvalue as <-. rewrite Htruthy in Heval.
  apply bind_Ok in Heval. destruct Heval as [token [_ Heval]].
  apply bind_Ok in Heval. destruct Heval as [valueCheck [Hcheck Heval]].
  unfold BlockchainEthics.checkTransactionValue, gt in Hcheck.
  rewrite Hn in Hcheck. cbn [bind] in Hcheck.
  assert (Hhigh : number_lt (of_Z 1000) n = false).
  { unfold BlockchainEthics.MAX_TRANSACTION_VALUE in Hcheck.
    destruct (number_lt (of_Z 1000) n); [|reflexivity].
    apply bind_Ok in Hcheck. destruct Hcheck as [unit [_ Hcheck]].
    injection Hcheck as <-. cbn [negb approved] in Heval.
    injection Heval as <-. discriminate Happ. }
  split.
  - unfold categoricalImperative, universalizabilityTest, humanityAsEndTest,
      kingdomOfEndsTest, lt. simpl. rewrite Hn. simpl. rewrite Hpos. simpl.
    rewrite Hscam. reflexivity.
  - unfold Layers.checkEpistemicBoundaries, gt. simpl. rewrite Hn. simpl.
    rewrite Hhigh. reflexivity.
Qed.

End TwoEvaluators.

Lemma monetary_approval_implies_critique_witness :
  Layers.categoricalImperative (E := SampleEngine.engine)
    (Layers.mkAction "executeTransaction"
       [("to", VString "0xB"); ("value", VNumber (Fin 5%Q)); ("data", VString "0x")]
       "Transaction parameters validated, value is positive") =
  Ok approvedVerdict.
Proof.
  apply (monetary_approval_implies_critique (E := SampleEngine.engine)
           (Layers.mkAction "executeTransaction"
              [("to", VString "0xB"); ("value", VNumber (Fin 5%Q)); ("data", VString "0x")]
              "Transaction parameters validated, value is positive")
           (BlockchainEthics.approve "Blockchain action passed all ethical checks")).
  - exists (VString "0xB"), (VNumber (Fin 5%Q)), (VString "0x"). split; reflexivity.
  - intros value Hvalue. injection Hvalue as <-. reflexivity.
  - reflexivity.
  - reflexivity.
Defined.

(** ** Which inputs are deferred *)

Section Deferral.
Context {E : Engine}.
Import Layers Pipeline.

#[local] Arguments number_lt : simpl never.

Lemma sensibilityLayer_transaction (raw ctx : value) (n1 n2 : number)
    (s : UnderstandingOutput) :
  sensibilityLayer {| rawData := raw; context := ctx |} n1 n2 = Ok s ->
  (dataType (metadata s) = "transaction" <->
   exists o, raw = VObject o /\
     truthy (lookup "hash" o) && truthy (lookup "from" o) && truthy (lookup "to" o) = true) /\
  (dataType (metadata s) = "transaction" ->
   forall o, raw = VObject o ->
     lookup "to" (categorizedData s) = lookup "to" o /\
     lookup "value" (categorizedData s) = transferValue o).
Proof.
  intros Hs.
  destruct raw as [| |b|n|t|l|o];
    try (vm_compute in Hs; discriminate Hs);
    try (rewrite sensibilityLayer_primitive in Hs by (reflexivity || discriminate);
         injection Hs as <-;
         split; [split; [discriminate | intros [o [Ho _]]; discriminate Ho]
                |discriminate]).
  unfold sensibilityLayer in Hs. cbn [rawData context] in Hs.
  rewrite (detectDataType_rules (VObject o) ctx _ _ _ _ _ _ _
             eq_refl eq_refl eq_refl eq_refl eq_refl eq_refl eq_refl) in Hs.
  cbn [bind] in Hs.
  apply bind_Ok in Hs. destruct Hs as [src [_ Hs]].
  match type of Hs with
  | context [structureData _ ?t _ _] => set (type := t) in Hs
  end.
  destruct (structureData_fields o ctx type n1) as [cd [Hcd [Ftx _]]].
  rewrite Hcd in Hs. cbn [bind] in Hs. injection Hs as <-.
  cbn [metadata dataType categorizedData].
  split; [split|].
  - intros Ht. exists o. split; [reflexivity|]. subst type.
    destruct (truthy (lookup "hash" o) && truthy (lookup "from" o) &&
              truthy (lookup "to" o)); [reflexivity|].
    destruct (truthy (lookup "content" o) || truthy (lookup "message" o));
      [discriminate Ht|].
    destruct (truthy (lookup "event" o)); [discriminate Ht|].
    destruct (strict_eq_str (lookup "inputType" o) "user"); discriminate Ht.
  - intros [o' [Ho Hthree]]. injection Ho as <-. subst type. rewrite Hthree. reflexivity.
  - intros Ht o' Ho. injection Ho as <-. destruct (Ftx Ht) as [_ [Fto [Fvalue _]]].
    split; assumption.
Qed.

Lemma reasonLayer_benign (u : UnderstandingOutput) (r : ReasonOutput) :
  dataType (metadata u) <> "transaction" -> reasonLayer u = Ok r ->
  Forall benign (proposedActions r).
Proof.
  intros Ht H. unfold reasonLayer in H.
  apply String.eqb_neq in Ht. rewrite Ht in H.
  destruct (String.eqb (dataType (metadata u)) "message").
  - apply bind_Ok in H. destruct H as [intent [_ H]].
    apply bind_Ok in H. destruct H as [sentiment [_ H]].
    injection H as <-. cbn [proposedActions].
    destruct (strict_eq_str (lookup "intent" (categorizedData u)) "question"); cbn [app].
    + constructor; [apply templated_reply_benign|].
      constructor; [apply other_name_benign; reflexivity | constructor].
    + constructor; [apply templated_reply_benign | constructor].
  - destruct (String.eqb (dataType (metadata u)) "event").
    + apply bind_Ok in H. destruct H as [eventName [_ H]].
      injection H as <-.
      constructor; [apply other_name_benign; reflexivity | constructor].
    + injection H as <-. constructor.
Qed.

Lemma reasonLayer_transaction (u : UnderstandingOutput) (r : ReasonOutput) :
  dataType (metadata u) = "transaction" -> reasonLayer u = Ok r ->
  exists (n : number) pre post,
    ToNumber (lookup "value" (categorizedData u)) = Ok n /\
    Forall benign pre /\ Forall benign post /\
    proposedActions r =
      (pre ++
       (if number_lt (of_Z 0) n
        then [mkAction "executeTransaction"
                [("to", lookup "to" (categorizedData u));
                 ("value", lookup "value" (categorizedData u));
                 ("data", lookup "data" (categorizedData u))]
                "Transaction parameters validated, value is positive"]
        else []) ++ post)%list.
Proof.
  intros Ht H. unfold reasonLayer in H. rewrite Ht in H.
  change (String.eqb "transaction" "transaction") with true in H. cbv iota in H.
  apply bind_Ok in H. destruct H as [t [_ H]].
  apply bind_Ok in H. destruct H as [from [_ H]].
  apply bind_Ok in H. destruct H as [to [_ H]].
  apply bind_Ok in H. destruct H as [positive [Hpos H]].
  unfold gt in Hpos. apply bind_Ok in Hpos. destruct Hpos as [n [Hn Hpos]].
  injection Hpos as <-. injection H as <-. cbn [proposedActions].
  exists n,
    [mkAction "verifyRecipient" [("address", lookup "to" (categorizedData u))]
       "Ensure recipient is valid and not flagged for scams"],
    (mkAction "checkGasPrice" [("chainId", lookup "chainId" (categorizedData u))]
       "Optimize transaction cost based on current gas prices" ::
     if strict_eq_str (lookup "risk" (categorizedData u)) "high"
     then [mkAction "monitorTransaction" [("txHash", lookup "hash" (categorizedData u))]
             "High-risk transaction requires additional monitoring"]
     else []).
  split; [exact Hn|]. split; [|split].
  - constructor; [apply other_name_benign; reflexivity | constructor].
  - destruct (strict_eq_str (lookup "risk" (categorizedData u)) "high");
      repeat (constructor; [apply other_name_benign; reflexivity|]); constructor.
  - destruct (number_lt (of_Z 0) n),
      (strict_eq_str (lookup "risk" (categorizedData u)) "high"); reflexivity.
Qed.

Lemma transfer_exact (to value data : JS.value) (why : string) (n : number) :
  ToNumber value = Ok n -> number_lt (of_Z 0) n = true ->
  let x := mkAction "executeTransaction" [("to", to); ("value", value); ("data", data)] why in
  isRejected x = strict_eq_str to "0xknownScamAddress" /\
  isUncertain x = number_lt (of_Z 1000) n /\
  (isApproved x && isHighValue x) =
    (negb (strict_eq_str to "0xknownScamAddress") && number_lt (of_Z 1000) n).
Proof.
  intros Hn Hpos x. apply number_lt_asym in Hpos.
  assert (Hv : isApproved x = negb (strict_eq_str to "0xknownScamAddress")).
  { unfold isApproved, x, categoricalImperative, universalizabilityTest,
      humanityAsEndTest, kingdomOfEndsTest, lt. simpl. rewrite Hn. simpl.
    rewrite Hpos. simpl.
    destruct (strict_eq_str to "0xknownScamAddress"); reflexivity. }
  assert (Hf : isUncertain x = number_lt (of_Z 1000) n).
  { unfold isUncertain, x, Layers.checkEpistemicBoundaries, gt. simpl. rewrite Hn. simpl.
    destruct (number_lt (of_Z 1000) n); reflexivity. }
  assert (Hh : isHighValue x = number_lt (of_Z 1000) n).
  { unfold isHighValue, x, gt. simpl. rewrite Hn. reflexivity. }
  unfold isRejected. rewrite Hv, Hf, Hh, negb_involutive. auto.
Qed.

(** The decision on a proposal whose only action that is not benign, if
    any, is [x]. *)
Lemma deferral_of_proposal (r : ReasonOutput) (out : CritiqueOutput)
    (pre mid post : list Action) (scam high : bool) :
  critiqueLayer r = Ok out ->
  proposedActions r = (pre ++ mid ++ post)%list ->
  Forall benign pre -> Forall benign post ->
  (mid = [] \/
   exists x, mid = [x] /\ isRejected x = scam /\ isUncertain x = high /\
     (isApproved x && isHighValue x) = (negb scam && high)) ->
  shouldDefer (checkEpistemicBoundaries out None) =
    match mid with
    | [] => false
    | _ => scam || high
    end.
Proof.
  intros Hc Hlist Hpre Hpost Hmid.
  destruct (critiqueLayer_lists r out Hc) as (Hlim & Hunc).
  destruct (filter_benign pre Hpre) as (Hp1 & Hp2 & Hp3).
  destruct (filter_benign post Hpost) as (Hq1 & Hq2 & Hq3).
  destruct confidence_above_threshold as (Hone & Hfour & Hboth).
  rewrite Hlist in Hlim, Hunc.
  rewrite !filter_app in Hlim. rewrite !filter_app in Hunc.
  rewrite Hp1, Hq1, app_nil_r in Hlim. rewrite Hp2, Hq2, app_nil_r in Hunc.
  simpl app in Hlim, Hunc.
  unfold checkEpistemicBoundaries. fold defaultConfidenceThreshold.
  rewrite (confidence_of_proposal r out pre mid post scam high Hc Hlist Hpre Hpost Hmid).
  destruct Hmid as [-> | [x [-> (Hs & Hh & Hah)]]].
  - simpl in Hlim, Hunc. rewrite Hlim, Hunc, Hone. reflexivity.
  - simpl filter in Hlim, Hunc. rewrite Hs in Hlim. rewrite Hh in Hunc.
    destruct scam, high; simpl in Hlim, Hunc; rewrite Hlim, Hunc;
      cbv iota; rewrite ?Hone, ?Hfour, ?Hboth; reflexivity.
Qed.

(** X23.  Which inputs the pipeline defers at the default threshold.  A run that
    returns asks for deferral exactly when the input is a record with truthy
    [hash], [from] and [to] whose value ([value || 0]) is a positive number
    and either the recipient is "0xknownScamAddress" or the value exceeds
    1000.  No message, event, user input or unclassifiable input is ever
    deferred, and no transaction without a positive value is. *)
Theorem deferred_inputs (raw ctx : value) (n1 n2 : number) (out : CritiqueOutput) :
  carPipeline raw ctx n1 n2 = Ok out ->
  shouldDefer (checkEpistemicBoundaries out None) = true <->
  exists o n,
    raw = VObject o /\
    truthy (lookup "hash" o) && truthy (lookup "from" o) && truthy (lookup "to" o) = true /\
    ToNumber (transferValue o) = Ok n /\ number_lt (of_Z 0) n = true /\
    (lookup "to" o = VString "0xknownScamAddress" \/ number_lt (of_Z 1000) n = true).
Proof.
  intros Hrun.
  destruct (carPipeline_Ok raw ctx n1 n2 out Hrun) as (s & u & r & Hs & Hu & Hr & Hc).
  destruct (sensibilityLayer_transaction raw ctx n1 n2 s Hs) as [Htype Hfields].
  destruct (understandingLayer_Ok s u Hu) as [Hmeta Hshape]. cbv zeta in Hshape.
  destruct (String.eqb (dataType (metadata s)) "transaction") eqn:Ht.
  - apply String.eqb_eq in Ht.
    destruct (proj1 Htype Ht) as [o [-> Hthree]].
    destruct (Hfields Ht o eq_refl) as [Fto Fvalue].
    destruct Hshape as [[_ [label [risk [_ [_ Hcd]]]]] | [[Hm _] | [[He _] | [Hd _]]]];
      [ | rewrite Ht in Hm; discriminate Hm | rewrite Ht in He; discriminate He
        | rewrite Ht in Hd; discriminate Hd ].
    assert (Hto : lookup "to" (categorizedData u) = lookup "to" o).
    { rewrite Hcd, !lookup_set_prop_other by discriminate. exact Fto. }
    assert (Hvalue : lookup "value" (categorizedData u) = transferValue o).
    { rewrite Hcd, !lookup_set_prop_other by discriminate. exact Fvalue. }
    rewrite <- Hmeta in Ht.
    destruct (reasonLayer_transaction u r Ht Hr) as (n & pre & post & Hn & Hpre & Hpost & Hlist).
    rewrite Hto, Hvalue in Hlist. rewrite Hvalue in Hn.
    rewrite (deferral_of_proposal r out pre _ post
               (strict_eq_str (lookup "to" o) "0xknownScamAddress")
               (number_lt (of_Z 1000) n) Hc Hlist Hpre Hpost).
    + destruct (number_lt (of_Z 0) n) eqn:Hpos.
      * split.
        -- intros Hd. exists o, n.
           split; [reflexivity|]. split; [exact Hthree|]. split; [exact Hn|].
           split; [exact Hpos|].
           apply orb_true_iff in Hd. destruct Hd as [Hd|Hd]; [left | right; exact Hd].
           destruct (lookup "to" o); try discriminate Hd.
           simpl in Hd. apply String.eqb_eq in Hd. subst. reflexivity.
        -- intros (o' & n' & Ho & _ & Hn' & _ & Hd). injection Ho as <-.
           rewrite Hn in Hn'. injection Hn' as <-.
           apply orb_true_iff. destruct Hd as [-> | Hd]; [left; reflexivity | right; exact Hd].
      * split; [discriminate|].
        intros (o' & n' & Ho & _ & Hn' & Hpos' & _). injection Ho as <-.
        rewrite Hn in Hn'. injection Hn' as <-. rewrite Hpos in Hpos'. discriminate Hpos'.
    + destruct (number_lt (of_Z 0) n) eqn:Hpos; [right | left; reflexivity].
      eexists. split; [reflexivity|].
      apply (transfer_exact _ _ _ _ n Hn Hpos).
  - apply String.eqb_neq in Ht.
    assert (Hbenign : Forall benign (proposedActions r)).
    { apply (reasonLayer_benign u); [rewrite Hmeta; exact Ht | exact Hr]. }
    rewrite (deferral_of_proposal r out (proposedActions r) [] [] false false Hc
               ltac:(rewrite app_nil_r; reflexivity) Hbenign ltac:(constructor)
               ltac:(left; reflexivity)).
    split; [discriminate|].
    intros (o & n & Ho & Hthree & _). exfalso. apply Ht. apply Htype. eauto.
Qed.

End Deferral.

Lemma deferred_inputs_witness :
  exists out,
    Pipeline.carPipeline (E := SampleEngine.engine) Samples.scamTransaction VUndefined
      (of_Z 0) (of_Z 0) = Ok out /\
    Pipeline.shouldDefer
      (Pipeline.checkEpistemicBoundaries (E := SampleEngine.engine) out None) = true.
Proof.
  destruct (Pipeline.carPipeline (E := SampleEngine.engine) Samples.scamTransaction
              VUndefined (of_Z 0) (of_Z 0)) as [out|error] eqn:Hrun;
    [|vm_compute in Hrun; discriminate Hrun].
  exists out. split; [reflexivity|].
  apply (proj2 (deferred_inputs (E := SampleEngine.engine) Samples.scamTransaction
                  VUndefined (of_Z 0) (of_Z 0) out Hrun)).
  eexists. exists (Fin 2000%Q).
  split; [reflexivity|]. split; [reflexivity|]. split; [reflexivity|].
  split; [reflexivity|]. left. reflexivity.
Defined.

(** ** The first approved action *)

Section FirstApproved.
Context {E : Engine}.
Import Layers Pipeline.

Lemma reasonLayer_head (u : UnderstandingOutput) (r : ReasonOutput) :
  reasonLayer u = Ok r ->
  (dataType (metadata u) <> "transaction" /\ proposedActions r = []) \/
  exists a rest,
    proposedActions r = a :: rest /\ benign a /\
    In (action a) ["verifyRecipient"; "respondToMessage"; "logEvent"] /\
    (dataType (metadata u) = "transaction" ->
     a = mkAction "verifyRecipient" [("address", lookup "to" (categorizedData u))]
           "Ensure recipient is valid and not flagged for scams").
Proof.
  intros H. unfold reasonLayer in H.
  destruct (String.eqb (dataType (metadata u)) "transaction") eqn:Ht.
  - apply bind_Ok in H. destruct H as [t [_ H]].
    apply bind_Ok in H. destruct H as [from [_ H]].
    apply bind_Ok in H. destruct H as [to [_ H]].
    apply bind_Ok in H. destruct H as [positive [_ H]].
    injection H as <-. cbn [proposedActions]. right.
    exists (mkAction "verifyRecipient" [("address", lookup "to" (categorizedData u))]
              "Ensure recipient is valid and not flagged for scams").
    destruct positive, (strict_eq_str (lookup "risk" (categorizedData u)) "high");
      (eexists; split; [reflexivity|];
       split; [apply other_name_benign; reflexivity|];
       split; [simpl; auto | reflexivity]).
  - apply String.eqb_neq in Ht.
    destruct (String.eqb (dataType (metadata u)) "message").
    + apply bind_Ok in H. destruct H as [intent [_ H]].
      apply bind_Ok in H. destruct H as [sentiment [_ H]].
      injection H as <-. cbn [proposedActions]. right.
      exists (mkAction "respondToMessage"
                [("content", VString (generateContextualResponse (categorizedData u)));
                 ("context", VObject (categorizedData u))]
                "Generated response based on intent, sentiment, and history").
      destruct (strict_eq_str (lookup "intent" (categorizedData u)) "question");
        (eexists; split; [reflexivity|];
         split; [apply templated_reply_benign|];
         split; [simpl; auto | intros Ht'; contradiction]).
    + destruct (String.eqb (dataType (metadata u)) "event").
      * apply bind_Ok in H. destruct H as [eventName [_ H]].
        injection H as <-. right.
        eexists. eexists. split; [reflexivity|]. split; [|split].
        -- apply other_name_benign; reflexivity.
        -- simpl; auto.
        -- intros Ht'. contradiction.
      * injection H as <-. left. split; [exact Ht | reflexivity].
Qed.

Lemma approved_head (raw ctx : value) (n1 n2 : number) (out : CritiqueOutput) :
  carPipeline raw ctx n1 n2 = Ok out ->
  (approvedActions out = [] /\
   forall o, raw = VObject o ->
     truthy (lookup "hash" o) && truthy (lookup "from" o) && truthy (lookup "to" o) = false) \/
  exists a rest,
    approvedActions out = a :: rest /\
    In (action a) ["verifyRecipient"; "respondToMessage"; "logEvent"] /\
    (forall o, raw = VObject o ->
       truthy (lookup "hash" o) && truthy (lookup "from" o) && truthy (lookup "to" o) = true ->
       (exists text, ToString (lookup "to" o) = Ok text) /\
       a = mkAction "verifyRecipient" [("address", lookup "to" o)]
             "Ensure recipient is valid and not flagged for scams").
Proof.
  intros Hrun.
  destruct (carPipeline_Ok raw ctx n1 n2 out Hrun) as (s & u & r & Hs & Hu & Hr & Hc).
  destruct (critiqueLayer_Ok r out Hc) as (Happroved & _).
  destruct (sensibilityLayer_transaction raw ctx n1 n2 s Hs) as [Htype Hfields].
  destruct (understandingLayer_Ok s u Hu) as [Hmeta Hshape]. cbv zeta in Hshape.
  destruct (reasonLayer_head u r Hr) as [[Ht Hnil] | (a & rest & Hlist & Ha & Hname & Hverify)].
  - left. rewrite Hnil in Happroved. split; [exact Happroved|].
    intros o Ho. apply not_true_is_false. intros Hthree.
    apply Ht. rewrite Hmeta. apply Htype. eauto.
  - right. rewrite Hlist in Happroved. cbn [filter] in Happroved.
    destruct Ha as (_ & Ha & _). rewrite Ha in Happroved.
    exists a. eexists. split; [exact Happroved|]. split; [exact Hname|].
    intros o Ho Hthree.
    assert (Ht : dataType (metadata s) = "transaction") by (apply Htype; eauto).
    destruct (Hfields Ht o Ho) as [Fto _].
    destruct Hshape as [[_ [label [risk [_ [_ Hcd]]]]] | [[Hm _] | [[He _] | [Hd _]]]];
      [ | rewrite Ht in Hm; discriminate Hm | rewrite Ht in He; discriminate He
        | rewrite Ht in Hd; discriminate Hd ].
    assert (Hto : lookup "to" (categorizedData u) = lookup "to" o).
    { rewrite Hcd, !lookup_set_prop_other by discriminate. exact Fto. }
    rewrite <- Hmeta in Ht. split.
    + unfold reasonLayer in Hr. rewrite Ht in Hr.
      change (String.eqb "transaction" "transaction") with true in Hr. cbv iota in Hr.
      apply bind_Ok in Hr. destruct Hr as [t [_ Hr]].
      apply bind_Ok in Hr. destruct Hr as [from [_ Hr]].
      apply bind_Ok in Hr. destruct Hr as [to [Hto' _]].
      rewrite Hto in Hto'. eauto.
    + rewrite (Hverify Ht), Hto. reflexivity.
Qed.

(** X24.  The first approved action of a run.  For a transaction (a record with
    truthy [hash], [from] and [to]) it is always [verifyRecipient] for that
    recipient, whatever the verdict on the transfer itself; in general it is
    a [verifyRecipient], a [respondToMessage] or a [logEvent], never an
    [executeTransaction]; and a run on an input that is not a transaction,
    a message or an event approves nothing. *)
Theorem first_approved_action (raw ctx : value) (n1 n2 : number) (out : CritiqueOutput) :
  carPipeline raw ctx n1 n2 = Ok out ->
  (forall o, raw = VObject o ->
     truthy (lookup "hash" o) && truthy (lookup "from" o) && truthy (lookup "to" o) = true ->
     exists rest,
       approvedActions out =
         mkAction "verifyRecipient" [("address", lookup "to" o)]
           "Ensure recipient is valid and not flagged for scams" :: rest) /\
  (forall a rest, approvedActions out = a :: rest ->
     In (action a) ["verifyRecipient"; "respondToMessage"; "logEvent"]).
Proof.
  intros Hrun.
  destruct (approved_head raw ctx n1 n2 out Hrun)
    as [[Hnil Hnot] | (a & rest & Happroved & Hname & Hverify)].
  - split.
    + intros o Ho Hthree. rewrite (Hnot o Ho) in Hthree. discriminate Hthree.
    + intros a rest Hcons. rewrite Hnil in Hcons. discriminate Hcons.
  - split.
    + intros o Ho Hthree. destruct (Hverify o Ho Hthree) as [_ <-].
      exists rest. exact Happroved.
    + intros a' rest' Hcons. rewrite Happroved in Hcons. injection Hcons as <- _.
      exact Hname.
Qed.

End FirstApproved.

Lemma first_approved_action_witness :
  exists out rest,
    Pipeline.carPipeline (E := SampleEngine.engine) Samples.scamTransaction VUndefined
      (of_Z 0) (of_Z 0) = Ok out /\
    Layers.approvedActions out =
      Layers.mkAction "verifyRecipient" [("address", VString "0xknownScamAddress")]
        "Ensure recipient is valid and not flagged for scams" :: rest.
Proof.
  destruct (Pipeline.carPipeline (E := SampleEngine.engine) Samples.scamTransaction
              VUndefined (of_Z 0) (of_Z 0)) as [out|error] eqn:Hrun;
    [|vm_compute in Hrun; discriminate Hrun].
  destruct (proj1 (first_approved_action (E := SampleEngine.engine) Samples.scamTransaction
                     VUndefined (of_Z 0) (of_Z 0) out Hrun) _ eq_refl eq_refl)
    as [rest Hrest].
  exists out, rest. split; [reflexivity | exact Hrest].
Defined.

(** ** The example agent after the extension *)

Section AgentHandler.
Context {E : Engine} {H : CarExtension.Host}.
Import Layers Pipeline CarExtension ExampleAgent.

Variable options : CARExtensionOptions.

(** X25.  The example agent never executes a transaction.  For a transaction
    input (a record with truthy [hash], [from] and [to]) on which the
    pipeline returns, [run] on the context that [beforeRun] wrote answers
    either with the request for guidance, when the run is deferred, or with
    the result of [verifyRecipient] on the recipient, because the first
    approved action is always [verifyRecipient]; its branches for
    [executeTransaction] and [monitorTransaction] are never taken. *)
Theorem agent_never_executes (o : object) (ctx : value) (n1 n2 : number)
    (out : CritiqueOutput) (context' : Context) (input' : value) :
  carPipeline (VObject o) ctx n1 n2 = Ok out ->
  truthy (lookup "hash" o) && truthy (lookup "from" o) && truthy (lookup "to" o) = true ->
  snd (beforeRun options (VObject o) ctx n1 n2) = Ok context' ->
  let decision :=
    checkEpistemicBoundaries out
      (Some (default (confidenceThreshold options) (literal 0.7))) in
  let explanation :=
    of_text (if default (enableExplanations options) true
             then Some (generateExplanation out) else None) in
  exists text,
    ToString (lookup "to" o) = Ok text /\
    run input' context' =
    Ok (if default (enableDeferral options) true && shouldDefer decision then
          VObject [("message", VString ("I need human guidance: " ++ defer_reason decision));
                   ("explanation", explanation)]
        else
          VObject [("message",
                    VString ((if verifyRecipient (lookup "to" o)
                              then "Recipient verified: "
                              else "Recipient verification failed: ") ++ text));
                   ("explanation", explanation);
                   ("action",
                    of_action
                      (mkAction "verifyRecipient" [("address", lookup "to" o)]
                         "Ensure recipient is valid and not flagged for scams"))]).
Proof.
  intros Hrun Hthree Hbefore decision explanation. subst decision explanation.
  destruct (approved_head (VObject o) ctx n1 n2 out Hrun)
    as [[_ Hnot] | (a & rest & Happroved & _ & Hverify)];
    [rewrite (Hnot o eq_refl) in Hthree; discriminate Hthree|].
  destruct (Hverify o eq_refl Hthree) as [[text Htext] ->].
  exists text. split; [exact Htext|].
  unfold beforeRun in Hbefore. rewrite Hrun in Hbefore.
  destruct (default (enableDeferral options) true);
    [destruct (shouldDefer (checkEpistemicBoundaries out _)) eqn:Hdefer|];
    cbn [andb]; cbn [ret snd] in Hbefore; injection Hbefore as <-;
    unfold run;
    cbn [car read entry_error truthy_text entry_deferred default entry_deferReason
         entry_explanation entry_approvedActions];
    try reflexivity;
    rewrite Happroved;
    unfold param_text; cbn; rewrite Htext; cbn [bind];
    destruct (verifyRecipient (lookup "to" o)); reflexivity.
Qed.

End AgentHandler.

Lemma agent_never_executes_witness :
  exists context',
    snd (CarExtension.beforeRun (E := SampleEngine.engine) (H := SampleHost.host)
           Samples.defaults Samples.transaction VUndefined (of_Z 0) (of_Z 0)) = Ok context' /\
    lookup "message"
      (spread (match ExampleAgent.run (E := SampleEngine.engine) Samples.transaction context' with
               | Ok reply => reply
               | Throw _ => VUndefined
               end)) = VString "Recipient verified: 0xB".
Proof.
  destruct (Pipeline.carPipeline (E := SampleEngine.engine) Samples.transaction VUndefined
              (of_Z 0) (of_Z 0)) as [out|error] eqn:Hrun;
    [|vm_compute in Hrun; discriminate Hrun].
  destruct (snd (CarExtension.beforeRun (E := SampleEngine.engine) (H := SampleHost.host)
                   Samples.defaults Samples.transaction VUndefined (of_Z 0) (of_Z 0)))
    as [context'|error] eqn:Hbefore; [|vm_compute in Hbefore; discriminate Hbefore].
  exists context'. split; [reflexivity|].
  destruct (agent_never_executes (E := SampleEngine.engine) (H := SampleHost.host)
              Samples.defaults _ VUndefined (of_Z 0) (of_Z 0) out context'
              Samples.transaction Hrun eq_refl Hbefore) as [text [Htext ->]].
  vm_compute in Htext. injection Htext as <-.
  vm_compute in Hrun. injection Hrun as <-. reflexivity.
Defined.
